(** * 1mcp: the capability registry, the request router, the session
      layer and the reconnection timers, embedded in Rocq.

    The TypeScript sources are embedded shallowly.  JavaScript strings are
    [string]s, [Map] and [Set] are insertion-ordered association lists,
    thrown exceptions are a [Throw] completion, console output is a list
    of events, and everything the code obtains from outside (upstream
    replies, [Math.random], [Date.now]) is an explicit argument. *)

From Stdlib Require Import String Ascii List Bool Arith ZArith Lia.
Import ListNotations.
Local Open Scope string_scope.

(* ================================================================== *)
(** * Part I.  Definitions                                             *)
(* ================================================================== *)

(** ** JavaScript strings *)

Module JsString.

(** [s.startsWith(pat)] *)
Fixpoint startsWith (s pat : string) {struct pat} : bool :=
  match pat with
  | EmptyString => true
  | String a pat' =>
      match s with
      | EmptyString => false
      | String b s' => Ascii.eqb a b && startsWith s' pat'
      end
  end.

(** [s.indexOf(pat)]: the first position at which [pat] occurs in [s];
    [None] stands for [-1]. *)
Fixpoint indexOf (pat s : string) : option nat :=
  if startsWith s pat then Some 0
  else match s with
       | EmptyString => None
       | String _ s' => option_map S (indexOf pat s')
       end.

(** [s.includes(pat)] *)
Definition includes (pat s : string) : bool :=
  match indexOf pat s with Some _ => true | None => false end.

(** [s.substring(a, b)]: both indices are clamped to the length and
    swapped when [a > b]. *)
Definition substring (s : string) (a b : nat) : string :=
  let n := String.length s in
  let a' := Nat.min a n in
  let b' := Nat.min b n in
  String.substring (Nat.min a' b') (Nat.max a' b' - Nat.min a' b') s.

(** [s.substring(a)] *)
Definition substringFrom (s : string) (a : nat) : string :=
  substring s a (String.length s).

(** [s.endsWith(suf)] *)
Fixpoint endsWith (s suf : string) : bool :=
  String.eqb s suf ||
  match s with
  | EmptyString => false
  | String _ s' => endsWith s' suf
  end.

(** A string is falsy exactly when it is empty: [!s]. *)
Definition falsy (s : string) : bool := String.eqb s "".

Fixpoint forallb (p : ascii -> bool) (s : string) : bool :=
  match s with
  | EmptyString => true
  | String c s' => p c && forallb p s'
  end.

End JsString.

(** ** Completions: a call either returns or throws *)

Inductive Thrown : Type :=
| ErrorObj (message : string)   (* [new Error(message)] *)
| NonError (text : string).     (* a thrown value that is not an [Error];
                                   [text] is [String(value)] *)

Inductive Completion (A : Type) : Type :=
| Return (a : A)
| Throw (e : Thrown).
Arguments Return {A} a.
Arguments Throw {A} e.

(** [error instanceof Error ? error.message : 'Unknown error'] *)
Definition errorMessage (e : Thrown) : string :=
  match e with
  | ErrorObj m => m
  | NonError _ => "Unknown error"
  end.

(** ** CapabilityRegistry.ts: PrefixUtility *)

Module PrefixUtility.

Definition SEPARATOR : string := "___".

Definition addPrefix (serverName name : string) : string :=
  serverName ++ SEPARATOR ++ name.

Definition removePrefix (prefixedName : string) : option (string * string) :=
  match JsString.indexOf SEPARATOR prefixedName with
  | None => None
  | Some separatorIndex =>
      let serverName := JsString.substring prefixedName 0 separatorIndex in
      let originalName :=
        JsString.substringFrom prefixedName
          (separatorIndex + String.length SEPARATOR) in
      if JsString.falsy serverName || JsString.falsy originalName
      then None
      else Some (serverName, originalName)
  end.

End PrefixUtility.

(** ** ConfigLoader.ts: validateServerName *)

Module ConfigLoader.

Definition between (lo hi : nat) (c : ascii) : bool :=
  let n := nat_of_ascii c in Nat.leb lo n && Nat.leb n hi.

(** The character class [[a-zA-Z0-9_-]]. *)
Definition nameChar (c : ascii) : bool :=
  between 97 122 c || between 65 90 c || between 48 57 c
  || Ascii.eqb c "_"%char || Ascii.eqb c "-"%char.

(** [/^[a-zA-Z0-9_-]+$/.test(name)] *)
Definition nameRegexTest (name : string) : bool :=
  negb (JsString.falsy name) && JsString.forallb nameChar name.

(** The double quote character, as a string. *)
Definition quote : string := String (ascii_of_nat 34) EmptyString.

Definition validateServerName (name : string) : Completion unit :=
  if JsString.falsy name then
    Throw (ErrorObj "Server name must be a non-empty string")
  else if negb (nameRegexTest name) then
    Throw (ErrorObj ("Invalid server name " ++ quote ++ name ++ quote ++
      ". Server names must contain only letters, numbers, underscores, and hyphens"))
  else if JsString.includes "___" name then
    Throw (ErrorObj ("Invalid server name " ++ quote ++ name ++ quote ++
      ". Server names cannot contain triple underscores (___) as they are used as separators"))
  else Return tt.

(** A name the loader accepts. *)
Definition validName (name : string) : Prop :=
  validateServerName name = Return tt.

End ConfigLoader.

(** ** JavaScript [Map<string, V>] and [Set<string>]

    Both keep their elements in insertion order, which [values()] and
    [for ... of] expose, so they are lists: [set] overwrites an existing
    binding in place and appends a new one, [delete] removes the binding
    of the key (keys are unique, so removing every binding of the key is
    removing the binding). *)

Module JsMap.

Definition t (V : Type) : Type := list (string * V).

Section WithValue.
Context {V : Type}.

Definition empty : t V := [].

Fixpoint get (k : string) (m : t V) : option V :=
  match m with
  | [] => None
  | (k', v) :: m' => if String.eqb k k' then Some v else get k m'
  end.

Definition has (k : string) (m : t V) : bool :=
  match get k m with Some _ => true | None => false end.

Fixpoint set (k : string) (v : V) (m : t V) : t V :=
  match m with
  | [] => [(k, v)]
  | (k', v') :: m' =>
      if String.eqb k k' then (k, v) :: m' else (k', v') :: set k v m'
  end.

Definition delete (k : string) (m : t V) : t V :=
  filter (fun kv => negb (String.eqb k (fst kv))) m.

Definition keys (m : t V) : list string := map fst m.
Definition values (m : t V) : list V := map snd m.
Definition size (m : t V) : nat := length m.

End WithValue.

End JsMap.

Module JsSet.

Definition t : Type := list string.

Definition empty : t := [].

Definition has (x : string) (s : t) : bool := existsb (String.eqb x) s.

Definition add (x : string) (s : t) : t := if has x s then s else (s ++ [x])%list.

Definition size (s : t) : nat := length s.

End JsSet.

(** ** JSON values (schemas, arguments, upstream results) *)

#[local] Unset Elimination Schemes.
Inductive Json : Type :=
| JNull
| JBool (b : bool)
| JNum (z : Z)
| JStr (s : string)
| JArr (items : list Json)
| JObj (fields : list (string * Json)).
#[local] Set Elimination Schemes.

(** ** types.ts: capability records *)

Module MCPTool.
Record t : Type := {
  name : string;
  title : option string;
  description : string;
  parameters : Json
}.
End MCPTool.

Module MCPResource.
Record t : Type := {
  uri : string;
  name : string;
  description : option string;
  mimeType : option string
}.
End MCPResource.

Module MCPPrompt.
Record t : Type := {
  name : string;
  description : option string;
  arguments : Json
}.
End MCPPrompt.

(** [{ ...tool, serverName, originalName: tool.name, prefixedName }] *)
Module RegisteredTool.
Record t : Type := {
  tool : MCPTool.t;
  serverName : string;
  originalName : string;
  prefixedName : string
}.
End RegisteredTool.

Module RegisteredResource.
Record t : Type := {
  resource : MCPResource.t;
  serverName : string;
  originalUri : string;
  prefixedUri : string
}.
End RegisteredResource.

Module RegisteredPrompt.
Record t : Type := {
  prompt : MCPPrompt.t;
  serverName : string;
  originalName : string;
  prefixedName : string
}.
End RegisteredPrompt.

(** ** CapabilityRegistry.ts: the three registries

    [ToolRegistry], [ResourceRegistry] and [PromptRegistry] are the same
    code over three record types; the shared code is written once over
    the interface [Capability] and instantiated three times below. *)

Inductive CapabilityKind : Type := ToolKind | ResourceKind | PromptKind.

(** The lines written to the console, one constructor per call site. *)
Inductive Console : Type :=
(* the registries *)
| Warn_conflict (kind : CapabilityKind) (prefixed : string)
    (* [console.warn(`... conflict: ${prefixed} (skipping duplicate)`)] *)
| Log_registered (kind : CapabilityKind) (count : nat) (serverName : string)
    (* [console.log(`Registered ${count} ... for server ${serverName}`)] *)
(* the request router *)
| Warn_invalid_prefixed (prefixed : string)
| Warn_not_in_registry (prefixed : string)
| Error_no_connector (serverName : string)
| Error_not_connected (serverName : string)
| Log_routing (prefixed serverName originalName : string)
(* capability discovery *)
| Log_discovering (serverName : string)
| Log_no_prompts (serverName : string)
| Warn_discovery_failed (kind : CapabilityKind) (serverName : string)
                        (reason : Thrown)
| Log_discovered (tools resources prompts : nat) (serverName : string)
(* the upstream manager *)
| Log_scheduling (serverName : string) (delay : Z)
| Log_skipping_reconnection (serverName : string).

Class Capability (Item Registered : Type) : Type := {
  kind : CapabilityKind;
  (** [tool.name], [resource.uri], [prompt.name] *)
  originalId : Item -> string;
  (** the registered record built from server name, item and prefixed id *)
  registered : string -> Item -> string -> Registered
}.

#[export] Instance ToolCapability : Capability MCPTool.t RegisteredTool.t := {
  kind := ToolKind;
  originalId := MCPTool.name;
  registered := fun serverName tool prefixedName =>
    {| RegisteredTool.tool := tool;
       RegisteredTool.serverName := serverName;
       RegisteredTool.originalName := MCPTool.name tool;
       RegisteredTool.prefixedName := prefixedName |}
}.

#[export] Instance ResourceCapability :
  Capability MCPResource.t RegisteredResource.t := {
  kind := ResourceKind;
  originalId := MCPResource.uri;
  registered := fun serverName resource prefixedUri =>
    {| RegisteredResource.resource := resource;
       RegisteredResource.serverName := serverName;
       RegisteredResource.originalUri := MCPResource.uri resource;
       RegisteredResource.prefixedUri := prefixedUri |}
}.

#[export] Instance PromptCapability :
  Capability MCPPrompt.t RegisteredPrompt.t := {
  kind := PromptKind;
  originalId := MCPPrompt.name;
  registered := fun serverName prompt prefixedName =>
    {| RegisteredPrompt.prompt := prompt;
       RegisteredPrompt.serverName := serverName;
       RegisteredPrompt.originalName := MCPPrompt.name prompt;
       RegisteredPrompt.prefixedName := prefixedName |}
}.

Module Registry.

(** The two private maps of a registry: the forward map from prefixed
    id to record, and the reverse index from server name to the set of
    prefixed ids it owns. *)
Record t (Registered : Type) : Type := {
  entries : JsMap.t Registered;
  byServer : JsMap.t JsSet.t
}.
Arguments entries {Registered} _.
Arguments byServer {Registered} _.

Section WithCapability.
Context {Item Registered : Type} `{Capability Item Registered}.

Definition empty : t Registered :=
  {| entries := JsMap.empty; byServer := JsMap.empty |}.

(** [clearServerTools], [clearServerResources], [clearServerPrompts] *)
Definition clearServerEntries (serverName : string) (r : t Registered)
  : t Registered :=
  match JsMap.get serverName (byServer r) with
  | Some names =>
      {| entries :=
           fold_left (fun m name => JsMap.delete name m) names (entries r);
         byServer := JsMap.delete serverName (byServer r) |}
  | None => r
  end.

(** One turn of the [for (const item of items)] loop. *)
Definition registerStep (serverName : string)
    (acc : JsMap.t Registered * JsSet.t * list Console) (item : Item)
  : JsMap.t Registered * JsSet.t * list Console :=
  let '(m, registeredNames, out) := acc in
  let prefixedName := PrefixUtility.addPrefix serverName (originalId item) in
  if JsMap.has prefixedName m then
    (m, registeredNames, (out ++ [Warn_conflict kind prefixedName])%list)
  else
    (JsMap.set prefixedName (registered serverName item prefixedName) m,
     JsSet.add prefixedName registeredNames,
     out).

(** [registerTools], [registerResources], [registerPrompts]: the new
    registry and the console output of the call. *)
Definition registerEntries (serverName : string) (items : list Item)
    (r : t Registered) : t Registered * list Console :=
  let r0 := clearServerEntries serverName r in
  let '(m, registeredNames, out) :=
    fold_left (registerStep serverName) items
      (entries r0, JsSet.empty, []) in
  ({| entries := m;
      byServer := JsMap.set serverName registeredNames (byServer r0) |},
   (out ++ [Log_registered kind (JsSet.size registeredNames) serverName])%list).

Definition getEntry (prefixed : string) (r : t Registered)
  : option Registered :=
  JsMap.get prefixed (entries r).

Definition hasEntry (prefixed : string) (r : t Registered) : bool :=
  JsMap.has prefixed (entries r).

Definition getAllEntries (r : t Registered) : list Registered :=
  JsMap.values (entries r).

Definition getServerEntries (serverName : string) (r : t Registered)
  : list Registered :=
  match JsMap.get serverName (byServer r) with
  | None => []
  | Some names =>
      flat_map (fun name =>
                  match JsMap.get name (entries r) with
                  | Some e => [e]
                  | None => []
                  end) names
  end.

Definition getServerNames (r : t Registered) : list string :=
  JsMap.keys (byServer r).

Definition getServerEntryCount (serverName : string) (r : t Registered)
  : nat :=
  match JsMap.get serverName (byServer r) with
  | Some names => JsSet.size names
  | None => 0
  end.

Definition getTotalEntryCount (r : t Registered) : nat :=
  JsMap.size (entries r).

Definition clear (r : t Registered) : t Registered := empty.

(** Specification vocabulary: [serverName] owns [prefixed] when the
    reverse index lists it, and the first item of a list that is
    registered under a given prefixed id. *)
Definition owns (serverName prefixed : string) (r : t Registered) : bool :=
  match JsMap.get serverName (byServer r) with
  | Some names => JsSet.has prefixed names
  | None => false
  end.

Definition firstWithId (serverName prefixed : string) (items : list Item)
  : option Item :=
  find (fun item =>
          String.eqb (PrefixUtility.addPrefix serverName (originalId item))
                     prefixed) items.

End WithCapability.

End Registry.

Module ToolRegistry.
Definition t : Type := Registry.t RegisteredTool.t.
Definition registerTools : string -> list MCPTool.t -> t -> t * list Console :=
  Registry.registerEntries.
Definition clearServerTools : string -> t -> t := Registry.clearServerEntries.
Definition getTool : string -> t -> option RegisteredTool.t := Registry.getEntry.
Definition hasTool : string -> t -> bool := Registry.hasEntry.
Definition getAllTools : t -> list RegisteredTool.t := Registry.getAllEntries.
Definition getServerTools : string -> t -> list RegisteredTool.t :=
  Registry.getServerEntries.
Definition getServerNames : t -> list string := Registry.getServerNames.
Definition getServerToolCount : string -> t -> nat :=
  Registry.getServerEntryCount.
Definition getTotalToolCount : t -> nat := Registry.getTotalEntryCount.
Definition clear : t -> t := Registry.clear.
End ToolRegistry.

Module ResourceRegistry.
Definition t : Type := Registry.t RegisteredResource.t.
Definition registerResources
  : string -> list MCPResource.t -> t -> t * list Console :=
  Registry.registerEntries.
Definition clearServerResources : string -> t -> t :=
  Registry.clearServerEntries.
Definition getResource : string -> t -> option RegisteredResource.t :=
  Registry.getEntry.
Definition hasResource : string -> t -> bool := Registry.hasEntry.
Definition getAllResources : t -> list RegisteredResource.t :=
  Registry.getAllEntries.
Definition getServerResources : string -> t -> list RegisteredResource.t :=
  Registry.getServerEntries.
Definition getServerNames : t -> list string := Registry.getServerNames.
Definition getServerResourceCount : string -> t -> nat :=
  Registry.getServerEntryCount.
Definition getTotalResourceCount : t -> nat := Registry.getTotalEntryCount.
Definition clear : t -> t := Registry.clear.
End ResourceRegistry.

Module PromptRegistry.
Definition t : Type := Registry.t RegisteredPrompt.t.
Definition registerPrompts
  : string -> list MCPPrompt.t -> t -> t * list Console :=
  Registry.registerEntries.
Definition clearServerPrompts : string -> t -> t :=
  Registry.clearServerEntries.
Definition getPrompt : string -> t -> option RegisteredPrompt.t :=
  Registry.getEntry.
Definition getAllPrompts : t -> list RegisteredPrompt.t :=
  Registry.getAllEntries.
Definition getServerPrompts : string -> t -> list RegisteredPrompt.t :=
  Registry.getServerEntries.
Definition getServerNames : t -> list string := Registry.getServerNames.
Definition getTotalPrompts : t -> nat := Registry.getTotalEntryCount.
Definition clear : t -> t := Registry.clear.
End PromptRegistry.

(** ** types.ts: messages, and the connectors as the callers see them *)

Inductive ServerStatus : Type := disconnected | connecting | connected | error.

Definition ServerStatus_eqb (a b : ServerStatus) : bool :=
  match a, b with
  | disconnected, disconnected | connecting, connecting
  | connected, connected | error, error => true
  | _, _ => false
  end.

Module RpcError.
Record t : Type := { code : Z; message : string }.
End RpcError.

(** The [params] of a [tools/call] request; a missing property is [None]. *)
Module ToolCallParams.
Record t : Type := { name : option Json; arguments : option Json }.
End ToolCallParams.

Module MCPRequest.
Record t : Type := { id : Json; method : string; params : ToolCallParams.t }.
End MCPRequest.

Module MCPResponse.
Record t : Type := {
  id : Json;
  result : option Json;
  error : option RpcError.t
}.
End MCPResponse.

(** A connector as the router and the hub use it: its status and what
    [sendMessage] does with a request (resolve with a response, or
    reject). *)
Module Connector.
Record t : Type := {
  status : ServerStatus;
  sendMessage : MCPRequest.t -> Completion MCPResponse.t
}.

Definition isConnected (c : t) : bool := ServerStatus_eqb (status c) connected.
End Connector.

(** [!name || typeof name !== 'string'] fails exactly for a non-empty
    string. *)
Definition nonEmptyString (v : option Json) : option string :=
  match v with
  | Some (JStr s) => if JsString.falsy s then None else Some s
  | _ => None
  end.

(** ** UpstreamManager: the tables the router reads *)

Module UpstreamManager.

Module ServerConnection.
Record t : Type := {
  name : string;
  status : ServerStatus;
  lastError : option string
}.
End ServerConnection.

Record t : Type := {
  connectors : JsMap.t Connector.t;
  connections : JsMap.t ServerConnection.t;
  (** upstream name to the handle of its pending reconnect timer *)
  reconnectTimeouts : JsMap.t nat
}.

Definition getConnector (name : string) (mgr : t) : option Connector.t :=
  JsMap.get name (connectors mgr).

(** Specification vocabulary: the upstream has no connector, or its
    connector is not connected. *)
Definition unavailable (serverName : string) (mgr : t) : Prop :=
  match getConnector serverName mgr with
  | None => True
  | Some connector => Connector.isConnected connector = false
  end.

Definition routeMessage (serverName : string) (message : MCPRequest.t)
    (mgr : t) : Completion MCPResponse.t :=
  match JsMap.get serverName (connectors mgr) with
  | None => Throw (ErrorObj ("Server " ++ serverName ++ " not found"))
  | Some connector =>
      if negb (Connector.isConnected connector) then
        Throw (ErrorObj ("Server " ++ serverName ++ " is not connected"))
      else Connector.sendMessage connector message
  end.

(** *** Reconnection

    [setTimeout] and [clearTimeout] act on the timer table of the
    runtime: the armed timers, each with its handle and the upstream name
    its callback closes over.  A world is the manager together with that
    table, the console, and the calls of [connectServer] made by timer
    callbacks. *)

Module Timers.
Record t : Type := {
  armed : list (nat * string);
  nextHandle : nat
}.
End Timers.

Definition Manager : Type := t.

Module World.
Record t : Type := {
  manager : Manager;
  timers : Timers.t;
  console : list Console;
  connectCalls : list string
}.
End World.

Definition clearTimeout (handle : nat) (timers : Timers.t) : Timers.t :=
  {| Timers.armed :=
       filter (fun timer => negb (Nat.eqb (fst timer) handle))
              (Timers.armed timers);
     Timers.nextHandle := Timers.nextHandle timers |}.

Definition withTimeouts (timeouts : JsMap.t nat) (mgr : t) : t :=
  {| connectors := connectors mgr;
     connections := connections mgr;
     reconnectTimeouts := timeouts |}.

(** [scheduleReconnection(name)] with [this.retryDelay = retryDelay]. *)
Definition scheduleReconnection (retryDelay : Z) (name : string)
    (w : World.t) : World.t :=
  if JsMap.has name (reconnectTimeouts (World.manager w)) then w
  else
    let timeout := Timers.nextHandle (World.timers w) in
    {| World.manager :=
         withTimeouts
           (JsMap.set name timeout (reconnectTimeouts (World.manager w)))
           (World.manager w);
       World.timers :=
         {| Timers.armed :=
              (Timers.armed (World.timers w) ++ [(timeout, name)])%list;
            Timers.nextHandle := S timeout |};
       World.console :=
         (World.console w ++ [Log_scheduling name retryDelay])%list;
       World.connectCalls := World.connectCalls w |}.

(** The callback given to [setTimeout], up to and including its call of
    [connectServer(name)]. *)
Definition reconnectCallback (name : string) (w : World.t) : World.t :=
  let mgr :=
    withTimeouts (JsMap.delete name (reconnectTimeouts (World.manager w)))
                 (World.manager w) in
  if negb (JsMap.has name (connectors mgr))
     || negb (JsMap.has name (connections mgr)) then
    {| World.manager := mgr;
       World.timers := World.timers w;
       World.console :=
         (World.console w ++ [Log_skipping_reconnection name])%list;
       World.connectCalls := World.connectCalls w |}
  else
    {| World.manager := mgr;
       World.timers := World.timers w;
       World.console := World.console w;
       World.connectCalls := (World.connectCalls w ++ [name])%list |}.

(** The runtime fires the armed timer [handle]: the timer leaves the
    table and its callback runs.  Firing a handle that is not armed does
    nothing. *)
Definition fire (handle : nat) (w : World.t) : World.t :=
  match find (fun timer => Nat.eqb (fst timer) handle)
             (Timers.armed (World.timers w)) with
  | None => w
  | Some (_, name) =>
      reconnectCallback name
        {| World.manager := World.manager w;
           World.timers := clearTimeout handle (World.timers w);
           World.console := World.console w;
           World.connectCalls := World.connectCalls w |}
  end.

(** The "clear reconnect timeout" block of [removeServer] and
    [disconnectServer]. *)
Definition clearReconnectTimeout (name : string) (w : World.t) : World.t :=
  match JsMap.get name (reconnectTimeouts (World.manager w)) with
  | None => w
  | Some timeout =>
      {| World.manager :=
           withTimeouts
             (JsMap.delete name (reconnectTimeouts (World.manager w)))
             (World.manager w);
         World.timers := clearTimeout timeout (World.timers w);
         World.console := World.console w;
         World.connectCalls := World.connectCalls w |}
  end.

(** The end of [removeServer]: [connectors.delete] and
    [connections.delete]. *)
Definition forgetServer (name : string) (w : World.t) : World.t :=
  {| World.manager :=
       {| connectors := JsMap.delete name (connectors (World.manager w));
          connections := JsMap.delete name (connections (World.manager w));
          reconnectTimeouts := reconnectTimeouts (World.manager w) |};
     World.timers := World.timers w;
     World.console := World.console w;
     World.connectCalls := World.connectCalls w |}.

(** The table updates of [addServer]; a configured name is refused. *)
Definition storeServer (name : string) (connector : Connector.t)
    (config : ServerConnection.t) (w : World.t) : World.t :=
  if JsMap.has name (connectors (World.manager w)) then w
  else
    {| World.manager :=
         {| connectors := JsMap.set name connector (connectors (World.manager w));
            connections := JsMap.set name config (connections (World.manager w));
            reconnectTimeouts := reconnectTimeouts (World.manager w) |};
       World.timers := World.timers w;
       World.console := World.console w;
       World.connectCalls := World.connectCalls w |}.

(** The timer part of [shutdown]: every recorded timeout is cleared and
    the table of timeouts emptied. *)
Definition clearAllTimeouts (w : World.t) : World.t :=
  {| World.manager := withTimeouts JsMap.empty (World.manager w);
     World.timers :=
       fold_left (fun timers timeout => clearTimeout timeout timers)
                 (JsMap.values (reconnectTimeouts (World.manager w)))
                 (World.timers w);
     World.console := World.console w;
     World.connectCalls := World.connectCalls w |}.

(** What can happen to the manager between two suspension points. *)
Inductive Action : Type :=
| Schedule (name : string)
    (* a [disconnected] or [error] event, or a failed [connectServer] *)
| Fire (handle : nat)
| ClearReconnect (name : string)
| Forget (name : string)
| Store (name : string) (connector : Connector.t) (config : ServerConnection.t)
| Shutdown.

Definition step (retryDelay : Z) (w : World.t) (a : Action) : World.t :=
  match a with
  | Schedule name => scheduleReconnection retryDelay name w
  | Fire handle => fire handle w
  | ClearReconnect name => clearReconnectTimeout name w
  | Forget name => forgetServer name w
  | Store name connector config => storeServer name connector config w
  | Shutdown => clearAllTimeouts w
  end.

(** A freshly constructed manager in a runtime without timers. *)
Definition initial : World.t :=
  {| World.manager :=
       {| connectors := JsMap.empty;
          connections := JsMap.empty;
          reconnectTimeouts := JsMap.empty |};
     World.timers := {| Timers.armed := []; Timers.nextHandle := 0 |};
     World.console := [];
     World.connectCalls := [] |}.

Definition run (retryDelay : Z) (actions : list Action) : World.t :=
  fold_left (step retryDelay) actions initial.

(** The armed reconnect timers of one upstream. *)
Definition pendingFor (name : string) (w : World.t) : list (nat * string) :=
  filter (fun timer => String.eqb (snd timer) name)
         (Timers.armed (World.timers w)).

(** Specification vocabulary: the invariant that ties the runtime's armed
    timers to the manager's table of timeouts.  Handles are fresh and
    distinct, and every armed timer is the one recorded for its
    upstream. *)
Definition timersRecorded (w : World.t) : Prop :=
  (forall h n, In (h, n) (Timers.armed (World.timers w)) ->
               h < Timers.nextHandle (World.timers w))
  /\ NoDup (map fst (Timers.armed (World.timers w)))
  /\ (forall h n, In (h, n) (Timers.armed (World.timers w)) ->
                  JsMap.get n (reconnectTimeouts (World.manager w)) = Some h).

End UpstreamManager.

(** ** RequestRouter *)

Module RequestRouter.

Module RouteInfo.
Record t : Type := {
  serverName : string;
  originalName : string;
  connector : Connector.t
}.
End RouteInfo.

Definition errorResponse (id : Json) (code : Z) (message : string)
  : MCPResponse.t :=
  {| MCPResponse.id := id;
     MCPResponse.result := None;
     MCPResponse.error :=
       Some {| RpcError.code := code; RpcError.message := message |} |}.

Definition routeToolCall (registry : ToolRegistry.t) (mgr : UpstreamManager.t)
    (prefixedName : string) : option RouteInfo.t * list Console :=
  match PrefixUtility.removePrefix prefixedName with
  | None => (None, [Warn_invalid_prefixed prefixedName])
  | Some (serverName, originalName) =>
      match ToolRegistry.getTool prefixedName registry with
      | None => (None, [Warn_not_in_registry prefixedName])
      | Some registeredTool =>
          match UpstreamManager.getConnector serverName mgr with
          | None => (None, [Error_no_connector serverName])
          | Some connector =>
              if negb (Connector.isConnected connector) then
                (None, [Error_not_connected serverName])
              else
                (Some {| RouteInfo.serverName := serverName;
                         RouteInfo.originalName := originalName;
                         RouteInfo.connector := connector |}, [])
          end
      end
  end.

Definition handleToolCall (registry : ToolRegistry.t)
    (mgr : UpstreamManager.t) (request : MCPRequest.t)
  : MCPResponse.t * list Console :=
  let args := ToolCallParams.arguments (MCPRequest.params request) in
  match nonEmptyString (ToolCallParams.name (MCPRequest.params request)) with
  | None =>
      (errorResponse (MCPRequest.id request) (-32602)
         "Invalid params: tool name is required", [])
  | Some prefixedName =>
      match routeToolCall registry mgr prefixedName with
      | (None, out) =>
          (errorResponse (MCPRequest.id request) (-32601)
             ("Tool not found or server unavailable: " ++ prefixedName), out)
      | (Some routeInfo, out) =>
          let upstreamRequest :=
            {| MCPRequest.id := MCPRequest.id request;
               MCPRequest.method := "tools/call";
               MCPRequest.params :=
                 {| ToolCallParams.name :=
                      Some (JStr (RouteInfo.originalName routeInfo));
                    ToolCallParams.arguments := args |} |} in
          let out' :=
            (out ++ [Log_routing prefixedName
                       (RouteInfo.serverName routeInfo)
                       (RouteInfo.originalName routeInfo)])%list in
          match Connector.sendMessage (RouteInfo.connector routeInfo)
                  upstreamRequest with
          | Return response => (response, out')
          | Throw e =>
              (errorResponse (MCPRequest.id request) (-32603)
                 ("Upstream error: " ++ errorMessage e), out')
          end
      end
  end.

End RequestRouter.

(** ** main.ts: McpHub, the tool handlers *)

Module McpHub.

Module RouteInfo.
Record t : Type := { serverName : string; originalName : string }.
End RouteInfo.

(** [allTools.find(t => t.prefixedName === prefixedName)], then
    [connector?.isConnected()]. *)
Definition routeToolCall (registry : ToolRegistry.t) (mgr : UpstreamManager.t)
    (prefixedName : string) : option RouteInfo.t :=
  match find (fun t => String.eqb (RegisteredTool.prefixedName t) prefixedName)
             (ToolRegistry.getAllTools registry) with
  | None => None
  | Some tool =>
      match UpstreamManager.getConnector (RegisteredTool.serverName tool) mgr with
      | None => None
      | Some connector =>
          if negb (Connector.isConnected connector) then None
          else Some {| RouteInfo.serverName := RegisteredTool.serverName tool;
                       RouteInfo.originalName := RegisteredTool.originalName tool |}
      end
  end.

(** The [CallToolRequestSchema] handler; [now] is [Date.now()].  What it
    returns is [response.result], which may be [undefined]. *)
Definition callToolHandler (registry : ToolRegistry.t)
    (mgr : UpstreamManager.t) (now : Z) (params : ToolCallParams.t)
  : Completion (option Json) :=
  match nonEmptyString (ToolCallParams.name params) with
  | None => Throw (ErrorObj "Tool name is required")
  | Some prefixedName =>
      match routeToolCall registry mgr prefixedName with
      | None =>
          Throw (ErrorObj
                   ("Tool not found or server unavailable: " ++ prefixedName))
      | Some routeInfo =>
          let upstreamRequest :=
            {| MCPRequest.id := JNum now;
               MCPRequest.method := "tools/call";
               MCPRequest.params :=
                 {| ToolCallParams.name :=
                      Some (JStr (RouteInfo.originalName routeInfo));
                    ToolCallParams.arguments :=
                      ToolCallParams.arguments params |} |} in
          match UpstreamManager.routeMessage
                  (RouteInfo.serverName routeInfo) upstreamRequest mgr with
          | Throw e => Throw e
          | Return response =>
              match MCPResponse.error response with
              | Some err => Throw (ErrorObj (RpcError.message err))
              | None => Return (MCPResponse.result response)
              end
          end
      end
  end.

(** *** startStreamableHttp: the [/mcp] handler

    [handleMcp] is the handler given to [app.all('/mcp', ...)]; the
    middleware that runs in front of it is [serveMcp] below.  The handler
    never reads the request body; [isInitialize] records what the body
    holds so that statements can speak about it.  A session holds the
    [Server] and transport created for it, identified by the number of
    instances created before it.  [random] is
    [Math.random().toString(36).substring(2, 15)] and [now] the time of
    [new Date()].  [sessionServer.connect] and [transport.handleRequest]
    belong to the SDK and are taken to return; [Dispatched] records that
    the request was passed to the transport of a session, and what the
    transport then answers is the SDK's. *)

Inductive HttpMethod : Type := GET | POST | DELETE | OPTIONS.

Module HttpRequest.
Record t : Type := {
  method : HttpMethod;
  sessionHeader : option string;   (* [req.headers['mcp-session-id']] *)
  isInitialize : bool
}.
End HttpRequest.

Module Session.
Record t : Type := { instance : nat; lastActivity : Z }.
End Session.

Module Sessions.
Record t : Type := {
  activeConnections : JsMap.t Session.t;
  instances : nat
}.
End Sessions.

Inductive Handling : Type :=
| Dispatched (sessionId : string) (instance : nat)
    (* [connection.transport.handleRequest(req, res)] *)
| Rejected (httpStatus code : Z) (message : string).
    (* [res.status(httpStatus).json({ ..., error: { code, message } })] *)

Module HttpResponse.
Record t : Type := {
  sessionHeader : option string;   (* [res.setHeader('mcp-session-id', _)] *)
  handling : Handling
}.
End HttpResponse.

(** [!sessionId] for a header that may be missing. *)
Definition noSessionId (header : option string) : bool :=
  match header with
  | None => true
  | Some s => JsString.falsy s
  end.

Definition isInitializeRequest (req : HttpRequest.t) : bool :=
  match HttpRequest.method req with
  | POST => noSessionId (HttpRequest.sessionHeader req)
  | _ => false
  end.

Definition handleMcp (random : string) (now : Z) (req : HttpRequest.t)
    (st : Sessions.t) : Sessions.t * HttpResponse.t :=
  let isNewSession :=
    noSessionId (HttpRequest.sessionHeader req) || isInitializeRequest req in
  let sessionId :=
    if isNewSession then random
    else match HttpRequest.sessionHeader req with
         | Some s => s
         | None => ""
         end in
  let st1 :=
    if isNewSession then
      {| Sessions.activeConnections :=
           JsMap.set sessionId
             {| Session.instance := Sessions.instances st;
                Session.lastActivity := now |}
             (Sessions.activeConnections st);
         Sessions.instances := S (Sessions.instances st) |}
    else st in
  let header := if isNewSession then Some sessionId else None in
  match JsMap.get sessionId (Sessions.activeConnections st1) with
  | None =>
      (st1,
       {| HttpResponse.sessionHeader := header;
          HttpResponse.handling :=
            Rejected 400 (-32602) ("Invalid session ID: " ++ sessionId) |})
  | Some connection =>
      ({| Sessions.activeConnections :=
            JsMap.set sessionId
              {| Session.instance := Session.instance connection;
                 Session.lastActivity := now |}
              (Sessions.activeConnections st1);
          Sessions.instances := Sessions.instances st1 |},
       {| HttpResponse.sessionHeader := header;
          HttpResponse.handling :=
            Dispatched sessionId (Session.instance connection) |})
  end.

(** *** startStreamableHttp: the CORS middleware in front of the routes

    With [options.cors] (true unless [--no-cors] is given) the middleware
    sets the three [Access-Control-*] headers on every response and
    answers a request whose method is [OPTIONS] with
    [res.sendStatus(200)]; such a request reaches no route.  Every other
    request goes on to its route, which for [/mcp] is [handleMcp]. *)

(** [req.method === 'OPTIONS'] *)
Definition isOptions (method : HttpMethod) : bool :=
  match method with
  | OPTIONS => true
  | _ => false
  end.

(** The requests that the middleware answers itself. *)
Definition answeredByCors (cors : bool) (req : HttpRequest.t) : bool :=
  cors && isOptions (HttpRequest.method req).

Inductive Answer : Type :=
| SentStatus (httpStatus : Z)
    (* [res.sendStatus(httpStatus)] *)
| Routed (response : HttpResponse.t).
    (* the [/mcp] handler ran and answered *)

Module Served.
Record t : Type := {
  corsHeaders : bool;   (* the [Access-Control-*] headers were set *)
  answer : Answer
}.
End Served.

(** One request to [/mcp] as the express application serves it. *)
Definition serveMcp (cors : bool) (random : string) (now : Z)
    (req : HttpRequest.t) (st : Sessions.t) : Sessions.t * Served.t :=
  if answeredByCors cors req then
    (st, {| Served.corsHeaders := true; Served.answer := SentStatus 200 |})
  else
    (fst (handleMcp random now req st),
     {| Served.corsHeaders := cors;
        Served.answer := Routed (snd (handleMcp random now req st)) |}).

(** The periodic cleanup: sessions idle for more than thirty minutes are
    deleted. *)
Definition sessionTimeout : Z := 30 * 60 * 1000.

Definition cleanupSessions (now : Z) (st : Sessions.t) : Sessions.t :=
  {| Sessions.activeConnections :=
       fold_left
         (fun m entry =>
            if Z.ltb sessionTimeout (now - Session.lastActivity (snd entry))
            then JsMap.delete (fst entry) m else m)
         (Sessions.activeConnections st) (Sessions.activeConnections st);
     Sessions.instances := Sessions.instances st |}.

End McpHub.

(** ** McpHubServer: the tool handler *)

Module McpHubServer.

Module RouteInfo.
Record t : Type := {
  serverName : string;
  originalName : string;
  connector : Connector.t
}.
End RouteInfo.

Definition routeToolCall (registry : ToolRegistry.t) (mgr : UpstreamManager.t)
    (prefixedName : string) : option RouteInfo.t :=
  match ToolRegistry.getTool prefixedName registry with
  | None => None
  | Some tool =>
      match UpstreamManager.getConnector (RegisteredTool.serverName tool) mgr with
      | None => None
      | Some connector =>
          if negb (Connector.isConnected connector) then None
          else Some {| RouteInfo.serverName := RegisteredTool.serverName tool;
                       RouteInfo.originalName := RegisteredTool.originalName tool;
                       RouteInfo.connector := connector |}
      end
  end.

(** [result && typeof result === 'object' && 'content' in result] *)
Definition hasContent (result : option Json) : bool :=
  match result with
  | Some (JObj fields) => existsb (fun kv => String.eqb (fst kv) "content") fields
  | _ => false
  end.

Definition textContent (text : option string) : Json :=
  JObj (("type", JStr "text")
        :: match text with Some s => [("text", JStr s)] | None => [] end).

(** [{ isError: true, content: [{ type: 'text', text }] }] *)
Definition errorResult (text : string) : Json :=
  JObj [("isError", JBool true);
        ("content", JArr [textContent (Some text)])].

(** The [CallToolRequestSchema] handler (and [handleToolCall], which has
    the same body).  [random] is [Math.random().toString(36)] and
    [stringify] is [JSON.stringify]. *)
Definition callToolHandler (stringify : option Json -> option string)
    (registry : ToolRegistry.t) (mgr : UpstreamManager.t) (random : string)
    (params : ToolCallParams.t) : Completion (option Json) :=
  match nonEmptyString (ToolCallParams.name params) with
  | None => Throw (ErrorObj "Tool name is required")
  | Some prefixedName =>
      match routeToolCall registry mgr prefixedName with
      | None =>
          Throw (ErrorObj
                   ("Tool not found or server unavailable: " ++ prefixedName))
      | Some routeInfo =>
          let upstreamRequest :=
            {| MCPRequest.id := JStr random;
               MCPRequest.method := "tools/call";
               MCPRequest.params :=
                 {| ToolCallParams.name :=
                      Some (JStr (RouteInfo.originalName routeInfo));
                    ToolCallParams.arguments :=
                      ToolCallParams.arguments params |} |} in
          match Connector.sendMessage (RouteInfo.connector routeInfo)
                  upstreamRequest with
          | Return response =>
              if hasContent (MCPResponse.result response) then
                Return (MCPResponse.result response)
              else
                Return (Some (JObj [("content",
                  JArr [textContent (stringify (MCPResponse.result response))])]))
          | Throw e =>
              Return (Some (errorResult ("Upstream error: " ++ errorMessage e)))
          end
      end
  end.

End McpHubServer.

(** ** BaseConnector: capability discovery

    The replies are taken as the TypeScript types declare them; an
    optional property that is missing is [None]. *)

(** JavaScript truthiness of a JSON value. *)
Definition truthy (v : Json) : bool :=
  match v with
  | JNull => false
  | JBool b => b
  | JNum z => negb (Z.eqb z 0)
  | JStr s => negb (JsString.falsy s)
  | JArr _ | JObj _ => true
  end.

(** [v || d] for a property that may be missing. *)
Definition orElse (v : option Json) (d : Json) : Json :=
  match v with
  | Some x => if truthy x then x else d
  | None => d
  end.

Module RawSchema.
Record t : Type := { properties : option Json; required : option Json }.
End RawSchema.

Module RawTool.
Record t : Type := {
  name : string;
  title : option string;
  description : string;
  inputSchema : option RawSchema.t;
  parameters : option Json
}.
End RawTool.

Module RawPrompt.
Record t : Type := {
  name : string;
  description : option string;
  arguments : option Json
}.
End RawPrompt.

(** The [result] of a list request. *)
Inductive ListResult : Type :=
| ToolsList (tools : option (list RawTool.t))
| ResourcesList (resources : option (list MCPResource.t))
| PromptsList (prompts : option (list RawPrompt.t)).

Module ListRequest.
Record t : Type := { id : nat; method : string }.
End ListRequest.

(** The outcome of one promise given to [Promise.allSettled]. *)
Inductive Settled (A : Type) : Type :=
| fulfilled (value : A)
| rejected (reason : Thrown).
Arguments fulfilled {A} value.
Arguments rejected {A} reason.

Definition settle {A : Type} (c : Completion A) : Settled A :=
  match c with
  | Return a => fulfilled a
  | Throw e => rejected e
  end.

Module Discovery.
Record t : Type := {
  tools : list MCPTool.t;
  resources : list MCPResource.t;
  prompts : list MCPPrompt.t
}.
End Discovery.

Module BaseConnector.

(** [sendMessage] as discovery uses it: the [result] of the response
    ([None] when the response has none), or a rejection. *)
Definition Send : Type := ListRequest.t -> Completion (option ListResult).

Definition defaultParameters : Json :=
  JObj [("type", JStr "object"); ("properties", JObj []); ("required", JArr [])].

Definition normalizeTool (tool : RawTool.t) : MCPTool.t :=
  let parameters :=
    match RawTool.inputSchema tool with
    | Some inputSchema =>
        JObj [("type", JStr "object");
              ("properties", orElse (RawSchema.properties inputSchema) (JObj []));
              ("required", orElse (RawSchema.required inputSchema) (JArr []))]
    | None =>
        match RawTool.parameters tool with
        | Some p => if truthy p then p else defaultParameters
        | None => defaultParameters
        end
    end in
  {| MCPTool.name := RawTool.name tool;
     MCPTool.title :=
       Some (match RawTool.title tool with
             | Some title => if JsString.falsy title then RawTool.name tool
                             else title
             | None => RawTool.name tool
             end);
     MCPTool.description := RawTool.description tool;
     MCPTool.parameters := parameters |}.

Definition normalizePrompt (prompt : RawPrompt.t) : MCPPrompt.t :=
  {| MCPPrompt.name := RawPrompt.name prompt;
     MCPPrompt.description := RawPrompt.description prompt;
     MCPPrompt.arguments := orElse (RawPrompt.arguments prompt) (JArr []) |}.

(** [result?.tools || []], [result?.resources || []],
    [result?.prompts || []] *)
Definition rawTools (result : option ListResult) : list RawTool.t :=
  match result with
  | Some (ToolsList (Some tools)) => tools
  | _ => []
  end.

Definition rawResources (result : option ListResult) : list MCPResource.t :=
  match result with
  | Some (ResourcesList (Some resources)) => resources
  | _ => []
  end.

Definition rawPrompts (result : option ListResult) : list RawPrompt.t :=
  match result with
  | Some (PromptsList (Some prompts)) => prompts
  | _ => []
  end.

(** [error instanceof Error ? error.message : String(error)] *)
Definition describe (e : Thrown) : string :=
  match e with
  | ErrorObj message => message
  | NonError text => text
  end.

Definition discoverTools (send : Send) (id : nat)
  : Completion (list MCPTool.t) :=
  match send {| ListRequest.id := id; ListRequest.method := "tools/list" |} with
  | Return result => Return (map normalizeTool (rawTools result))
  | Throw e => Throw (ErrorObj ("Failed to discover tools: " ++ describe e))
  end.

Definition discoverResources (send : Send) (id : nat)
  : Completion (list MCPResource.t) :=
  match send {| ListRequest.id := id; ListRequest.method := "resources/list" |} with
  | Return result => Return (rawResources result)
  | Throw _ => Return []
  end.

Definition discoverPrompts (name : string) (send : Send) (id : nat)
  : Completion (list MCPPrompt.t) * list Console :=
  match send {| ListRequest.id := id; ListRequest.method := "prompts/list" |} with
  | Return result => (Return (map normalizePrompt (rawPrompts result)), [])
  | Throw _ => (Return [], [Log_no_prompts name])
  end.

Definition valueOr {A : Type} (s : Settled (list A)) : list A :=
  match s with
  | fulfilled value => value
  | rejected _ => []
  end.

Definition warnRejected {A : Type} (kind : CapabilityKind) (name : string)
    (s : Settled A) : list Console :=
  match s with
  | fulfilled _ => []
  | rejected reason => [Warn_discovery_failed kind name reason]
  end.

(** [discoverCapabilities()] of the connector [name] whose message
    counter stands at [messageId]: the capabilities, the new counter and
    the console output.  The three requests take the ids
    [messageId + 1], [messageId + 2] and [messageId + 3]. *)
Definition discoverCapabilities (name : string) (messageId : nat) (send : Send)
  : Discovery.t * nat * list Console :=
  let tools := settle (discoverTools send (messageId + 1)) in
  let resources := settle (discoverResources send (messageId + 2)) in
  let '(promptsDone, promptsOut) := discoverPrompts name send (messageId + 3) in
  let prompts := settle promptsDone in
  let discoveredTools := valueOr tools in
  let discoveredResources := valueOr resources in
  let discoveredPrompts := valueOr prompts in
  ({| Discovery.tools := discoveredTools;
      Discovery.resources := discoveredResources;
      Discovery.prompts := discoveredPrompts |},
   messageId + 3,
   ([Log_discovering name] ++ promptsOut
    ++ warnRejected ToolKind name tools
    ++ warnRejected ResourceKind name resources
    ++ warnRejected PromptKind name prompts
    ++ [Log_discovered (length discoveredTools) (length discoveredResources)
          (length discoveredPrompts) name])%list).

End BaseConnector.

(** ** Sample data used to run the definitions *)

Module Sample.

Definition emptySchema : Json :=
  JObj [("type", JStr "object"); ("properties", JObj []); ("required", JArr [])].

Definition tool (name description : string) : MCPTool.t :=
  {| MCPTool.name := name;
     MCPTool.title := Some name;
     MCPTool.description := description;
     MCPTool.parameters := emptySchema |}.

(** Upstream [a] advertises the tool [_x]: prefixed id [a____x]. *)
Definition registryOfA : ToolRegistry.t :=
  fst (ToolRegistry.registerTools "a" [tool "_x" "owned by a"] Registry.empty).

(** Upstream [a_] advertises the tool [x]: prefixed id [a____x] too. *)
Definition registryOfA_ : ToolRegistry.t :=
  fst (ToolRegistry.registerTools "a_" [tool "x" "owned by a_"] Registry.empty).

Definition registryOfCalc : ToolRegistry.t :=
  fst (ToolRegistry.registerTools "calc" [tool "add" "adds"] Registry.empty).

(** A connected upstream that answers every request with [answer]. *)
Definition answering (answer : string) : Connector.t :=
  {| Connector.status := connected;
     Connector.sendMessage := fun request =>
       Return {| MCPResponse.id := MCPRequest.id request;
                 MCPResponse.result := Some (JStr answer);
                 MCPResponse.error := None |} |}.

(** An upstream that is not connected. *)
Definition down : Connector.t :=
  {| Connector.status := disconnected;
     Connector.sendMessage := fun _ =>
       Throw (ErrorObj "Cannot send message: connector is not connected") |}.

Definition manager (connectors : JsMap.t Connector.t) : UpstreamManager.t :=
  {| UpstreamManager.connectors := connectors;
     UpstreamManager.connections := JsMap.empty;
     UpstreamManager.reconnectTimeouts := JsMap.empty |}.

Definition callParams (name : string) : ToolCallParams.t :=
  {| ToolCallParams.name := Some (JStr name);
     ToolCallParams.arguments := Some (JObj []) |}.

Definition callRequest (id : Z) (name : string) : MCPRequest.t :=
  {| MCPRequest.id := JNum id;
     MCPRequest.method := "tools/call";
     MCPRequest.params := callParams name |}.

(** What an upstream advertises: one tool, one resource, one prompt. *)
Definition rawAdd : RawTool.t :=
  {| RawTool.name := "add";
     RawTool.title := None;
     RawTool.description := "adds";
     RawTool.inputSchema :=
       Some {| RawSchema.properties := Some (JObj [("a", JObj []); ("b", JObj [])]);
               RawSchema.required := Some (JArr [JStr "a"; JStr "b"]) |};
     RawTool.parameters := None |}.

Definition readme : MCPResource.t :=
  {| MCPResource.uri := "file:///readme";
     MCPResource.name := "readme";
     MCPResource.description := None;
     MCPResource.mimeType := Some "text/plain" |}.

(** A prompt as [prompts/list] returns it, without [arguments]. *)
Definition rawSummarise : RawPrompt.t :=
  {| RawPrompt.name := "summarise";
     RawPrompt.description := Some "summarises a note";
     RawPrompt.arguments := None |}.

Definition post (header : option string) (isInitialize : bool)
  : McpHub.HttpRequest.t :=
  {| McpHub.HttpRequest.method := McpHub.POST;
     McpHub.HttpRequest.sessionHeader := header;
     McpHub.HttpRequest.isInitialize := isInitialize |}.

Definition noSessions : McpHub.Sessions.t :=
  {| McpHub.Sessions.activeConnections := JsMap.empty;
     McpHub.Sessions.instances := 0 |}.

(** The table after one session, [abc], was created at time 5. *)
Definition oneSession : McpHub.Sessions.t :=
  fst (McpHub.handleMcp "abc" 5 (post None true) noSessions).

Definition calcConnection : UpstreamManager.ServerConnection.t :=
  {| UpstreamManager.ServerConnection.name := "calc";
     UpstreamManager.ServerConnection.status := disconnected;
     UpstreamManager.ServerConnection.lastError := None |}.

(** [calc] is configured and a reconnection is scheduled for it. *)
Definition calcScheduled : UpstreamManager.World.t :=
  UpstreamManager.run 2000
    [UpstreamManager.Store "calc" down calcConnection;
     UpstreamManager.Schedule "calc"].

(** ... and [calc] is removed before the timer fires. *)
Definition calcRemoved : UpstreamManager.World.t :=
  UpstreamManager.step 2000 calcScheduled (UpstreamManager.Forget "calc").

End Sample.

(** ** CapabilityRegistry.ts: the fields of a registered record

    The lookups of the hub read three fields of a registered record: the
    upstream that owns it, the id the upstream gave it, and the prefixed
    id.  [RegisteredAs] records what the object literals of
    [registerTools], [registerResources] and [registerPrompts] put in
    them. *)

Class RegisteredFields (Registered : Type) : Type := {
  serverNameOf : Registered -> string;
  originalIdOf : Registered -> string;
  prefixedIdOf : Registered -> string
}.

#[export] Instance ToolFields : RegisteredFields RegisteredTool.t := {
  serverNameOf := RegisteredTool.serverName;
  originalIdOf := RegisteredTool.originalName;
  prefixedIdOf := RegisteredTool.prefixedName
}.

#[export] Instance ResourceFields : RegisteredFields RegisteredResource.t := {
  serverNameOf := RegisteredResource.serverName;
  originalIdOf := RegisteredResource.originalUri;
  prefixedIdOf := RegisteredResource.prefixedUri
}.

#[export] Instance PromptFields : RegisteredFields RegisteredPrompt.t := {
  serverNameOf := RegisteredPrompt.serverName;
  originalIdOf := RegisteredPrompt.originalName;
  prefixedIdOf := RegisteredPrompt.prefixedName
}.

Class RegisteredAs (Item Registered : Type)
    {C : Capability Item Registered} {F : RegisteredFields Registered}
  : Prop := {
  serverNameOf_registered : forall u item p,
    serverNameOf (registered u item p) = u;
  originalIdOf_registered : forall u item p,
    originalIdOf (registered u item p) = originalId item;
  prefixedIdOf_registered : forall u item p,
    prefixedIdOf (registered u item p) = p
}.

(** ** The calls that change a registry, and the registries they reach *)

Module RegistryCalls.

Inductive t (Item : Type) : Type :=
| Register (serverName : string) (items : list Item)
| ClearServer (serverName : string)
| Clear.
Arguments Register {Item} serverName items.
Arguments ClearServer {Item} serverName.
Arguments Clear {Item}.

Section WithCapability.
Context {Item Registered : Type} `{Capability Item Registered}.

Definition call (r : Registry.t Registered) (c : t Item)
  : Registry.t Registered :=
  match c with
  | Register serverName items => fst (Registry.registerEntries serverName items r)
  | ClearServer serverName => Registry.clearServerEntries serverName r
  | Clear => Registry.clear r
  end.

(** The registry after a sequence of calls on a new one. *)
Definition after (calls : list (t Item)) : Registry.t Registered :=
  fold_left call calls Registry.empty.

(** The entries of one upstream, in map order. *)
Definition ownedBy {F : RegisteredFields Registered} (serverName : string)
    (m : JsMap.t Registered) : JsMap.t Registered :=
  filter (fun kv => String.eqb (serverNameOf (snd kv)) serverName) m.

(** Specification vocabulary: the two maps of a registry agree.  Keys
    are unique; every record sits under its own prefixed id, was built
    by a registration of its upstream, and its upstream has a reverse
    index; and each reverse index lists exactly the ids of its
    upstream's records, in map order. *)
Definition consistent {F : RegisteredFields Registered}
    (r : Registry.t Registered) : Prop :=
  NoDup (JsMap.keys (Registry.entries r))
  /\ NoDup (JsMap.keys (Registry.byServer r))
  /\ (forall k e, In (k, e) (Registry.entries r) ->
        (exists item,
            e = registered (serverNameOf e) item k
            /\ k = PrefixUtility.addPrefix (serverNameOf e) (originalId item))
        /\ JsMap.get (serverNameOf e) (Registry.byServer r) <> None)
  /\ (forall u names, JsMap.get u (Registry.byServer r) = Some names ->
        names = JsMap.keys (ownedBy u (Registry.entries r))).

End WithCapability.

End RegistryCalls.


(** ** main.ts: what happens to the table of sessions *)

Module SessionEvents.

Inductive t : Type :=
| Request (random : string) (now : Z) (req : McpHub.HttpRequest.t)
    (* one request handled by the [/mcp] handler *)
| Cleanup (now : Z).
    (* one run of the cleanup interval *)

Definition step (st : McpHub.Sessions.t) (event : t) : McpHub.Sessions.t :=
  match event with
  | Request random now req => fst (McpHub.handleMcp random now req st)
  | Cleanup now => McpHub.cleanupSessions now st
  end.

(** The table of a hub that has just started listening. *)
Definition initial : McpHub.Sessions.t :=
  {| McpHub.Sessions.activeConnections := JsMap.empty;
     McpHub.Sessions.instances := 0 |}.

Definition run (events : list t) : McpHub.Sessions.t :=
  fold_left step events initial.

(** [now - connection.lastActivity.getTime() > sessionTimeout] *)
Definition expired (now : Z) (session : McpHub.Session.t) : bool :=
  Z.ltb McpHub.sessionTimeout (now - McpHub.Session.lastActivity session).

(** Specification vocabulary: session ids are unique, and so are the
    [Server] instances of the sessions, all of them created earlier. *)
Definition isolated (st : McpHub.Sessions.t) : Prop :=
  NoDup (JsMap.keys (McpHub.Sessions.activeConnections st))
  /\ NoDup (map (fun kv => McpHub.Session.instance (snd kv))
                (McpHub.Sessions.activeConnections st))
  /\ (forall k s, In (k, s) (McpHub.Sessions.activeConnections st) ->
        McpHub.Session.instance s < McpHub.Sessions.instances st).

End SessionEvents.

(** ** UpstreamManager: every recorded timeout is armed *)

Definition timeoutsArmed (w : UpstreamManager.World.t) : Prop :=
  forall name h,
    JsMap.get name
      (UpstreamManager.reconnectTimeouts (UpstreamManager.World.manager w))
      = Some h ->
    In (h, name)
       (UpstreamManager.Timers.armed (UpstreamManager.World.timers w)).

(** ** StdioConnector, StreamableHttpConnector, SseConnector: sendMessage

    The three connectors built on the SDK client share one [sendMessage].
    [client] is [this.client.request(...)]; a failure carries the thrown
    value and its [code] property, a number where there is one, as the
    type of a response declares it. *)

Module SdkConnector.

Inductive Outcome : Type :=
| Resolved (result : option Json)
| Failed (error : Thrown) (code : option Z).

Definition Client : Type := MCPRequest.t -> Outcome.

(** [(error as any)?.code || -32603] *)
Definition codeOr (code : option Z) : Z :=
  match code with
  | Some c => if Z.eqb c 0 then -32603 else c
  | None => -32603
  end.

Definition sendMessage (name : string) (hasClient : bool)
    (status : ServerStatus) (client : Client) (message : MCPRequest.t)
  : Completion MCPResponse.t :=
  if negb hasClient || negb (ServerStatus_eqb status connected) then
    Throw (ErrorObj ("Connector " ++ name ++ " is not connected"))
  else
    match client message with
    | Resolved result =>
        Return {| MCPResponse.id := MCPRequest.id message;
                  MCPResponse.result := result;
                  MCPResponse.error := None |}
    | Failed e code =>
        Return {| MCPResponse.id := MCPRequest.id message;
                  MCPResponse.result := None;
                  MCPResponse.error :=
                    Some {| RpcError.code := codeOr code;
                            RpcError.message := errorMessage e |} |}
    end.

(** The connector as the router and the hubs see it. *)
Definition connector (name : string) (hasClient : bool)
    (status : ServerStatus) (client : Client) : Connector.t :=
  {| Connector.status := status;
     Connector.sendMessage := sendMessage name hasClient status client |}.

(** The same [sendMessage] as capability discovery uses it, for the list
    requests (which carry no [error], so the second guard never fires):
    [client.request] resolves with the result object or fails, and a
    failure comes back as a response that has an [error] and no
    [result]. *)
Inductive ListOutcome : Type :=
| ListResolved (result : ListResult)
| ListFailed (error : Thrown).

Definition ListClient : Type := ListRequest.t -> ListOutcome.

Definition sendList (name : string) (hasClient : bool)
    (status : ServerStatus) (client : ListClient) : BaseConnector.Send :=
  fun request =>
    if negb hasClient || negb (ServerStatus_eqb status connected) then
      Throw (ErrorObj ("Connector " ++ name ++ " is not connected"))
    else
      match client request with
      | ListResolved result => Return (Some result)
      | ListFailed _ => Return None
      end.

End SdkConnector.

(** ** RequestRouter: queries *)

Module RouterQueries.

Inductive CapabilityType : Type := ToolType | ResourceType.

(** [value !== null] for what [Map.get] returned: a record or
    [undefined], and neither is [null]. *)
Definition notNull {A : Type} (value : option A) : bool :=
  match value with
  | Some _ => true
  | None => true
  end.

Definition isCapabilityAvailable (tools : ToolRegistry.t)
    (resources : ResourceRegistry.t) (mgr : UpstreamManager.t)
    (prefixedName : string) (type : CapabilityType) : bool :=
  match PrefixUtility.removePrefix prefixedName with
  | None => false
  | Some (serverName, _) =>
      match UpstreamManager.getConnector serverName mgr with
      | None => false
      | Some connector =>
          if negb (Connector.isConnected connector) then false
          else
            match type with
            | ToolType => notNull (ToolRegistry.getTool prefixedName tools)
            | ResourceType =>
                notNull (ResourceRegistry.getResource prefixedName resources)
            end
      end
  end.

Definition getCapabilityNames (tools : ToolRegistry.t)
    (resources : ResourceRegistry.t) (type : CapabilityType) : list string :=
  match type with
  | ToolType => map RegisteredTool.prefixedName (ToolRegistry.getAllTools tools)
  | ResourceType =>
      map RegisteredResource.prefixedUri
          (ResourceRegistry.getAllResources resources)
  end.

End RouterQueries.

(** ** ConfigLoader.ts: validateConfig and the server entries

    A configuration is the value [JSON.parse] returned.  [validUrl] says
    whether [new URL(url)] returns, [stringOf] is [String(value)] for a
    value that is not a string, and [objectEntries] is
    [Object.entries]. *)

Module ServerConfig.

(** [config.name], [None] for [undefined]. *)
Definition field (name : string) (config : Json) : option Json :=
  match config with
  | JObj fields => JsMap.get name fields
  | _ => None
  end.

(** [!value] for a property that may be missing. *)
Definition missingOrFalsy (value : option Json) : bool :=
  match value with
  | Some v => negb (truthy v)
  | None => true
  end.

(** [typeof value === 'string'] *)
Definition isString (value : Json) : bool :=
  match value with
  | JStr _ => true
  | _ => false
  end.

(** [typeof value === 'object'] *)
Definition typeofObject (value : Json) : bool :=
  match value with
  | JNull | JArr _ | JObj _ => true
  | _ => false
  end.

(** [Array.isArray(value)] *)
Definition isArray (value : Json) : bool :=
  match value with
  | JArr _ => true
  | _ => false
  end.

(** The values that [for (const [key, value] of Object.entries(v))] and
    [for (const item of v)] walk. *)
Definition entryValues (value : Json) : list Json :=
  match value with
  | JArr items => items
  | JObj fields => map snd fields
  | _ => []
  end.

(** [value && typeof value !== 'object'] for a property that may be
    missing, and [value && !Array.isArray(value)]. *)
Definition presentNot (test : Json -> bool) (value : option Json) : bool :=
  match value with
  | Some v => truthy v && negb (test v)
  | None => false
  end.

(** [if (value) for (...) if (typeof item !== 'string') throw] *)
Definition someNotString (value : option Json) : bool :=
  match value with
  | Some v => truthy v && negb (List.forallb isString (entryValues v))
  | None => false
  end.

Definition quoted (s : string) : string :=
  ConfigLoader.quote ++ s ++ ConfigLoader.quote.

Definition validateStdioConfig (serverName : string) (config : Json)
  : Completion unit :=
  let server := "Server " ++ quoted serverName ++ " (stdio) " in
  if missingOrFalsy (field "command" config)
     || negb (match field "command" config with
              | Some v => isString v
              | None => false
              end) then
    Throw (ErrorObj (server ++ "must have a valid " ++ quoted "command"
                     ++ " string"))
  else if presentNot isArray (field "args" config) then
    Throw (ErrorObj (server ++ quoted "args"
                     ++ " must be an array if provided"))
  else if someNotString (field "args" config) then
    Throw (ErrorObj (server ++ "all arguments must be strings"))
  else if presentNot typeofObject (field "env" config) then
    Throw (ErrorObj (server ++ quoted "env"
                     ++ " must be an object if provided"))
  else if someNotString (field "env" config) then
    Throw (ErrorObj (server
                     ++ "environment variables must be string key-value pairs"))
  else Return tt.

(** [validateSseConfig] and [validateStreamableHttpConfig] differ in the
    label of their messages only. *)
Definition validateUrlConfig (label : string) (validUrl : string -> bool)
    (serverName : string) (config : Json) : Completion unit :=
  let server := "Server " ++ quoted serverName ++ " (" ++ label ++ ") " in
  match field "url" config with
  | Some (JStr url) =>
      if JsString.falsy url then
        Throw (ErrorObj (server ++ "must have a valid " ++ quoted "url"
                         ++ " string"))
      else if negb (validUrl url) then
        Throw (ErrorObj (server ++ quoted "url" ++ " must be a valid URL"))
      else if presentNot typeofObject (field "headers" config) then
        Throw (ErrorObj (server ++ quoted "headers"
                         ++ " must be an object if provided"))
      else if someNotString (field "headers" config) then
        Throw (ErrorObj (server ++ "headers must be string key-value pairs"))
      else Return tt
  | _ =>
      Throw (ErrorObj (server ++ "must have a valid " ++ quoted "url"
                       ++ " string"))
  end.

Definition validateSseConfig := validateUrlConfig "sse".
Definition validateStreamableHttpConfig := validateUrlConfig "streamable-http".

(** [`${value}`] *)
Definition template (stringOf : Json -> string) (value : Json) : string :=
  match value with
  | JStr s => s
  | _ => stringOf value
  end.

(** [config.type || 'stdio'] *)
Definition serverTypeOf (config : Json) : Json :=
  orElse (field "type" config) (JStr "stdio").

(** The [switch (serverType)] of [validateServerConfig] and of
    [createConnector] compares with [===]: only a string can match a
    case. *)
Definition caseOf (serverType : Json) (label : string) : bool :=
  match serverType with
  | JStr s => String.eqb s label
  | _ => false
  end.

Definition validateServerConfig (validUrl : string -> bool)
    (stringOf : Json -> string) (serverName : string) (config : Json)
  : Completion unit :=
  if negb (truthy config) || negb (typeofObject config) then
    Throw (ErrorObj ("Server " ++ quoted serverName
                     ++ " configuration must be an object"))
  else
    let serverType := serverTypeOf config in
    if caseOf serverType "stdio" then
      validateStdioConfig serverName config
    else if caseOf serverType "sse" then
      validateSseConfig validUrl serverName config
    else if caseOf serverType "streamable-http" then
      validateStreamableHttpConfig validUrl serverName config
    else
      Throw (ErrorObj ("Server " ++ quoted serverName ++ " has invalid type "
                       ++ quoted (template stringOf serverType)
                       ++ ". Must be " ++ quoted "stdio" ++ ", "
                       ++ quoted "sse" ++ ", or "
                       ++ quoted "streamable-http")).

(** The loop over [Object.entries(servers)]: the first entry that fails
    throws. *)
Fixpoint validateEntries (validUrl : string -> bool)
    (stringOf : Json -> string) (entries : list (string * Json))
  : Completion unit :=
  match entries with
  | [] => Return tt
  | (serverName, serverConfig) :: rest =>
      match ConfigLoader.validateServerName serverName with
      | Throw e => Throw e
      | Return _ =>
          match validateServerConfig validUrl stringOf serverName
                  serverConfig with
          | Throw e => Throw e
          | Return _ => validateEntries validUrl stringOf rest
          end
      end
  end.

Definition validateConfig (validUrl : string -> bool)
    (stringOf : Json -> string)
    (objectEntries : Json -> list (string * Json)) (config : Json)
  : Completion unit :=
  if negb (truthy config) || negb (typeofObject config) then
    Throw (ErrorObj "Configuration must be an object")
  else
    match field "mcpServers" config with
    | Some servers =>
        if negb (truthy servers) || negb (typeofObject servers) then
          Throw (ErrorObj ("Configuration must contain a "
                           ++ quoted "mcpServers" ++ " object"))
        else if Nat.eqb (length (objectEntries servers)) 0 then
          Throw (ErrorObj
                   "At least one server must be configured in mcpServers")
        else validateEntries validUrl stringOf (objectEntries servers)
    | None =>
        Throw (ErrorObj ("Configuration must contain a "
                         ++ quoted "mcpServers" ++ " object"))
    end.

(** *** UpstreamManager.createConnector: the class of connector built *)

Inductive ConnectorClass : Type :=
| StdioConnector
| AutoConnector
| StreamableHttpConnector.

Definition createConnector (stringOf : Json -> string) (name : string)
    (config : Json) : Completion ConnectorClass :=
  let serverType := serverTypeOf config in
  if caseOf serverType "stdio" then Return StdioConnector
  else if caseOf serverType "sse" then Return AutoConnector
  else if caseOf serverType "streamable-http" then
    Return StreamableHttpConnector
  else if negb (missingOrFalsy (field "url" config)) then
    if String.eqb name "streamable-mcp-server"
    then Return StreamableHttpConnector
    else Return AutoConnector
  else
    Throw (ErrorObj ("Unsupported server type: "
                     ++ template stringOf serverType)).

End ServerConfig.

(** ** CapabilityRegistry.ts: the registry of the three kinds *)

Module CapabilitySummary.
Record t : Type := {
  totalTools : nat;
  totalResources : nat;
  totalPrompts : nat;
  serverCount : nat
}.
End CapabilitySummary.

Module CapabilityRegistry.

Record t : Type := {
  toolRegistry : ToolRegistry.t;
  resourceRegistry : ResourceRegistry.t;
  promptRegistry : PromptRegistry.t
}.

(** [new CapabilityRegistry()] *)
Definition empty : t :=
  {| toolRegistry := Registry.empty;
     resourceRegistry := Registry.empty;
     promptRegistry := Registry.empty |}.

Definition registerTools (serverName : string) (tools : list MCPTool.t)
    (r : t) : t * list Console :=
  ({| toolRegistry :=
        fst (ToolRegistry.registerTools serverName tools (toolRegistry r));
      resourceRegistry := resourceRegistry r;
      promptRegistry := promptRegistry r |},
   snd (ToolRegistry.registerTools serverName tools (toolRegistry r))).

Definition registerResources (serverName : string)
    (resources : list MCPResource.t) (r : t) : t * list Console :=
  ({| toolRegistry := toolRegistry r;
      resourceRegistry :=
        fst (ResourceRegistry.registerResources serverName resources
               (resourceRegistry r));
      promptRegistry := promptRegistry r |},
   snd (ResourceRegistry.registerResources serverName resources
          (resourceRegistry r))).

Definition registerPrompts (serverName : string) (prompts : list MCPPrompt.t)
    (r : t) : t * list Console :=
  ({| toolRegistry := toolRegistry r;
      resourceRegistry := resourceRegistry r;
      promptRegistry :=
        fst (PromptRegistry.registerPrompts serverName prompts
               (promptRegistry r)) |},
   snd (PromptRegistry.registerPrompts serverName prompts (promptRegistry r))).

Definition clearServer (serverName : string) (r : t) : t :=
  {| toolRegistry := ToolRegistry.clearServerTools serverName (toolRegistry r);
     resourceRegistry :=
       ResourceRegistry.clearServerResources serverName (resourceRegistry r);
     promptRegistry :=
       PromptRegistry.clearServerPrompts serverName (promptRegistry r) |}.

Definition clear (r : t) : t :=
  {| toolRegistry := ToolRegistry.clear (toolRegistry r);
     resourceRegistry := ResourceRegistry.clear (resourceRegistry r);
     promptRegistry := PromptRegistry.clear (promptRegistry r) |}.

(** [new Set([...toolServerNames, ...resourceServerNames,
    ...promptServerNames])] *)
Definition allServerNames (r : t) : JsSet.t :=
  fold_left (fun names name => JsSet.add name names)
    (ToolRegistry.getServerNames (toolRegistry r)
     ++ ResourceRegistry.getServerNames (resourceRegistry r)
     ++ PromptRegistry.getServerNames (promptRegistry r))%list
    JsSet.empty.

Definition getSummary (r : t) : CapabilitySummary.t :=
  {| CapabilitySummary.totalTools :=
       ToolRegistry.getTotalToolCount (toolRegistry r);
     CapabilitySummary.totalResources :=
       ResourceRegistry.getTotalResourceCount (resourceRegistry r);
     CapabilitySummary.totalPrompts :=
       PromptRegistry.getTotalPrompts (promptRegistry r);
     CapabilitySummary.serverCount := JsSet.size (allServerNames r) |}.

(** The calls that change the registry, and the registry they reach. *)
Inductive Call : Type :=
| RegisterTools (serverName : string) (tools : list MCPTool.t)
| RegisterResources (serverName : string) (resources : list MCPResource.t)
| RegisterPrompts (serverName : string) (prompts : list MCPPrompt.t)
| ClearServer (serverName : string)
| Clear.

Definition call (r : t) (c : Call) : t :=
  match c with
  | RegisterTools serverName tools => fst (registerTools serverName tools r)
  | RegisterResources serverName resources =>
      fst (registerResources serverName resources r)
  | RegisterPrompts serverName prompts =>
      fst (registerPrompts serverName prompts r)
  | ClearServer serverName => clearServer serverName r
  | Clear => clear r
  end.

Definition after (calls : list Call) : t := fold_left call calls empty.

End CapabilityRegistry.

(** ** UpstreamManager.discoverServerCapabilities: the registry part

    [discovered] is what [connector.discoverCapabilities()] did: it
    resolved with the capabilities or rejected.  The result is the
    registry the call leaves. *)

Definition discoverServerCapabilities (mgr : UpstreamManager.t)
    (name : string) (discovered : Completion Discovery.t)
    (registry : CapabilityRegistry.t) : CapabilityRegistry.t :=
  if negb (JsMap.has name (UpstreamManager.connectors mgr))
     || negb (JsMap.has name (UpstreamManager.connections mgr)) then
    registry
  else
    match discovered with
    | Throw _ => registry
    | Return found =>
        let r1 :=
          fst (CapabilityRegistry.registerTools name (Discovery.tools found)
                 registry) in
        let r2 :=
          fst (CapabilityRegistry.registerResources name
                 (Discovery.resources found) r1) in
        fst (CapabilityRegistry.registerPrompts name (Discovery.prompts found)
               r2)
    end.

(** ** UpstreamManager.updateConnections: the two tables

    The tables of connectors and connections, each connector by its
    class and each connection by its [config].  [disconnect] and
    [connect] say what [connector.disconnect()] and [connectServer] do
    for an upstream, [stringify] is [JSON.stringify] (which maps
    [undefined] to [undefined]), and the new configuration is
    [Object.entries(newConfig.mcpServers)]. *)

Module Reconcile.

Record Tables : Type := {
  connectors : JsMap.t ServerConfig.ConnectorClass;
  connections : JsMap.t Json
}.

(** [new Set(names)] *)
Definition setOf (names : list string) : JsSet.t :=
  fold_left (fun s name => JsSet.add name s) names JsSet.empty.

Section WithOutcomes.

Variable stringOf : Json -> string.
Variable stringify : option Json -> option string.
Variables disconnect connect : string -> Completion unit.

(** [removeServer]: the tables it leaves and the error it throws, if
    any. *)
Definition removeServer (name : string) (t : Tables)
  : Tables * option Thrown :=
  match JsMap.get name (connectors t) with
  | None => (t, None)
  | Some _ =>
      match disconnect name with
      | Throw e => (t, Some e)
      | Return _ =>
          ({| connectors := JsMap.delete name (connectors t);
              connections := JsMap.delete name (connections t) |}, None)
      end
  end.

(** [addServer] *)
Definition addServer (name : string) (config : Json) (t : Tables)
  : Tables * option Thrown :=
  if JsMap.has name (connectors t) then
    (t, Some (ErrorObj ("Server " ++ name ++ " is already configured")))
  else
    match ServerConfig.createConnector stringOf name config with
    | Throw e => (t, Some e)
    | Return connector =>
        let stored :=
          {| connectors := JsMap.set name connector (connectors t);
             connections := JsMap.set name config (connections t) |} in
        match connect name with
        | Throw e => (stored, Some e)
        | Return _ => (stored, None)
        end
    end.

(** The three lists that [updateConnections] computes first. *)
Definition serversToAdd (newConfig : list (string * Json)) (t : Tables)
  : list string :=
  filter (fun name => negb (JsSet.has name (setOf (JsMap.keys (connectors t)))))
         (setOf (JsMap.keys newConfig)).

Definition serversToRemove (newConfig : list (string * Json)) (t : Tables)
  : list string :=
  filter (fun name => negb (JsSet.has name (setOf (JsMap.keys newConfig))))
         (setOf (JsMap.keys (connectors t))).

(** [JSON.stringify(currentConfig) !== JSON.stringify(newServerConfig)] *)
Definition changed (newConfig : list (string * Json)) (t : Tables)
    (name : string) : bool :=
  negb (match stringify (JsMap.get name (connections t)),
              stringify (JsMap.get name newConfig) with
        | Some a, Some b => String.eqb a b
        | None, None => true
        | _, _ => false
        end).

Definition serversToUpdate (newConfig : list (string * Json)) (t : Tables)
  : list string :=
  filter (fun name =>
            if negb (JsSet.has name (setOf (JsMap.keys (connectors t))))
            then false
            else changed newConfig t name)
         (setOf (JsMap.keys newConfig)).

(** One turn of each of the three loops; a thrown error is logged and
    the loop goes on. *)
Definition removeOne (t : Tables) (name : string) : Tables :=
  fst (removeServer name t).

Definition updateOne (newConfig : list (string * Json)) (t : Tables)
    (name : string) : Tables :=
  match removeServer name t with
  | (t', Some _) => t'
  | (t', None) =>
      match JsMap.get name newConfig with
      | Some config => fst (addServer name config t')
      | None => t'
      end
  end.

Definition addOne (newConfig : list (string * Json)) (t : Tables)
    (name : string) : Tables :=
  match JsMap.get name newConfig with
  | Some config => fst (addServer name config t)
  | None => t
  end.

Definition updateConnections (newConfig : list (string * Json)) (t : Tables)
  : Tables :=
  let toAdd := serversToAdd newConfig t in
  let toRemove := serversToRemove newConfig t in
  let toUpdate := serversToUpdate newConfig t in
  let t1 := fold_left removeOne toRemove t in
  let t2 := fold_left (updateOne newConfig) toUpdate t1 in
  fold_left (addOne newConfig) toAdd t2.

End WithOutcomes.

(** Specification vocabulary: the two tables have unique keys and the
    same upstreams. *)
Definition paired (t : Tables) : Prop :=
  NoDup (JsMap.keys (connectors t))
  /\ NoDup (JsMap.keys (connections t))
  /\ forall name, JsMap.has name (connectors t)
                  = JsMap.has name (connections t).

End Reconcile.

(** ** main.ts: McpHub, the prompt handlers *)

Module McpHubPrompts.

(** [allPrompts.find(p => p.prefixedName === prefixedName)], then
    [connector?.isConnected()]. *)
Definition routePromptGet (registry : PromptRegistry.t)
    (mgr : UpstreamManager.t) (prefixedName : string)
  : option McpHub.RouteInfo.t :=
  match find (fun p => String.eqb (RegisteredPrompt.prefixedName p) prefixedName)
             (PromptRegistry.getAllPrompts registry) with
  | None => None
  | Some prompt =>
      match UpstreamManager.getConnector (RegisteredPrompt.serverName prompt)
              mgr with
      | None => None
      | Some connector =>
          if negb (Connector.isConnected connector) then None
          else Some {| McpHub.RouteInfo.serverName :=
                         RegisteredPrompt.serverName prompt;
                       McpHub.RouteInfo.originalName :=
                         RegisteredPrompt.originalName prompt |}
      end
  end.

(** The [GetPromptRequestSchema] handler; [now] is [Date.now()]. *)
Definition getPromptHandler (registry : PromptRegistry.t)
    (mgr : UpstreamManager.t) (now : Z) (params : ToolCallParams.t)
  : Completion (option Json) :=
  match nonEmptyString (ToolCallParams.name params) with
  | None => Throw (ErrorObj "Prompt name is required")
  | Some prefixedName =>
      match routePromptGet registry mgr prefixedName with
      | None =>
          Throw (ErrorObj
                   ("Prompt not found or server unavailable: " ++ prefixedName))
      | Some routeInfo =>
          let upstreamRequest :=
            {| MCPRequest.id := JNum now;
               MCPRequest.method := "prompts/get";
               MCPRequest.params :=
                 {| ToolCallParams.name :=
                      Some (JStr (McpHub.RouteInfo.originalName routeInfo));
                    ToolCallParams.arguments :=
                      ToolCallParams.arguments params |} |} in
          match UpstreamManager.routeMessage
                  (McpHub.RouteInfo.serverName routeInfo) upstreamRequest mgr with
          | Throw e => Throw e
          | Return response =>
              match MCPResponse.error response with
              | Some err => Throw (ErrorObj (RpcError.message err))
              | None => Return (MCPResponse.result response)
              end
          end
      end
  end.

End McpHubPrompts.

(** ** UpstreamManager: the handlers of a connector's events *)

Module ManagerEvents.

Definition updateConnectionStatus (name : string) (status : ServerStatus)
    (error : option string) (w : UpstreamManager.World.t)
  : UpstreamManager.World.t :=
  let mgr := UpstreamManager.World.manager w in
  match JsMap.get name (UpstreamManager.connections mgr) with
  | None => w
  | Some connection =>
      {| UpstreamManager.World.manager :=
           {| UpstreamManager.connectors := UpstreamManager.connectors mgr;
              UpstreamManager.connections :=
                JsMap.set name
                  {| UpstreamManager.ServerConnection.name :=
                       UpstreamManager.ServerConnection.name connection;
                     UpstreamManager.ServerConnection.status := status;
                     UpstreamManager.ServerConnection.lastError := error |}
                  (UpstreamManager.connections mgr);
              UpstreamManager.reconnectTimeouts :=
                UpstreamManager.reconnectTimeouts mgr |};
         UpstreamManager.World.timers := UpstreamManager.World.timers w;
         UpstreamManager.World.console := UpstreamManager.World.console w;
         UpstreamManager.World.connectCalls :=
           UpstreamManager.World.connectCalls w |}
  end.

(** [connector.on('disconnected', ...)] *)
Definition onDisconnected (retryDelay : Z) (name : string)
    (state : UpstreamManager.World.t * CapabilityRegistry.t)
  : UpstreamManager.World.t * CapabilityRegistry.t :=
  (UpstreamManager.scheduleReconnection retryDelay name
     (updateConnectionStatus name disconnected None (fst state)),
   CapabilityRegistry.clearServer name (snd state)).

(** [connector.on('error', ...)]; [message] is [error.message]. *)
Definition onError (retryDelay : Z) (name : string) (message : string)
    (state : UpstreamManager.World.t * CapabilityRegistry.t)
  : UpstreamManager.World.t * CapabilityRegistry.t :=
  (UpstreamManager.scheduleReconnection retryDelay name
     (updateConnectionStatus name error (Some message) (fst state)),
   CapabilityRegistry.clearServer name (snd state)).

End ManagerEvents.

(** ** UpstreamManager: the connection records and getStats

    Every place of the manager that writes a connection record is an
    action here. *)

Module ConnectionRecords.

Module Connection.
Record t : Type := {
  name : string;
  status : ServerStatus;
  lastError : option string;
  tools : list MCPTool.t;
  resources : list MCPResource.t;
  prompts : list MCPPrompt.t;
  connectedAt : option Z
}.
End Connection.

(** The writes of the manager to its connection records.  [AddServer]
    stands for the [set] of [addServer], which the source guards by
    [connectors.has(name)]; here it may happen for any name, so the runs
    below include every run of the source. *)
Inductive Action : Type :=
| AddServer (name : string)
    (* [this.connections.set(name, { name, config, status: 'disconnected',
       tools: [], resources: [], prompts: [] })] *)
| AddFailed (name : string) (message : string)
    (* the [catch] of [addServer] *)
| RemoveServer (name : string)
| UpdateStatus (name : string) (status : ServerStatus)
    (lastError : option string) (now : Z)
| Discovered (name : string) (found : Discovery.t)
| DiscoveryFailed (name : string) (message : string).

Definition update (name : string) (change : Connection.t -> Connection.t)
    (connections : JsMap.t Connection.t) : JsMap.t Connection.t :=
  match JsMap.get name connections with
  | None => connections
  | Some connection => JsMap.set name (change connection) connections
  end.

Definition step (connections : JsMap.t Connection.t) (a : Action)
  : JsMap.t Connection.t :=
  match a with
  | AddServer name =>
      JsMap.set name
        {| Connection.name := name;
           Connection.status := disconnected;
           Connection.lastError := None;
           Connection.tools := [];
           Connection.resources := [];
           Connection.prompts := [];
           Connection.connectedAt := None |}
        connections
  | AddFailed name message =>
      update name
        (fun c => {| Connection.name := Connection.name c;
                     Connection.status := error;
                     Connection.lastError := Some message;
                     Connection.tools := Connection.tools c;
                     Connection.resources := Connection.resources c;
                     Connection.prompts := Connection.prompts c;
                     Connection.connectedAt := Connection.connectedAt c |})
        connections
  | RemoveServer name => JsMap.delete name connections
  | UpdateStatus name status lastError now =>
      update name
        (fun c => {| Connection.name := Connection.name c;
                     Connection.status := status;
                     Connection.lastError := lastError;
                     Connection.tools := Connection.tools c;
                     Connection.resources := Connection.resources c;
                     Connection.prompts := Connection.prompts c;
                     Connection.connectedAt :=
                       if ServerStatus_eqb status connected then Some now
                       else Connection.connectedAt c |})
        connections
  | Discovered name found =>
      update name
        (fun c => {| Connection.name := Connection.name c;
                     Connection.status := Connection.status c;
                     Connection.lastError := Connection.lastError c;
                     Connection.tools := Discovery.tools found;
                     Connection.resources := Discovery.resources found;
                     Connection.prompts := Connection.prompts c;
                     Connection.connectedAt := Connection.connectedAt c |})
        connections
  | DiscoveryFailed name message =>
      update name
        (fun c => {| Connection.name := Connection.name c;
                     Connection.status := Connection.status c;
                     Connection.lastError :=
                       Some ("Capability discovery failed: " ++ message);
                     Connection.tools := Connection.tools c;
                     Connection.resources := Connection.resources c;
                     Connection.prompts := Connection.prompts c;
                     Connection.connectedAt := Connection.connectedAt c |})
        connections
  end.

Definition run (actions : list Action) : JsMap.t Connection.t :=
  fold_left step actions JsMap.empty.

Module ServerStats.
Record t : Type := {
  name : string;
  toolCount : nat;
  resourceCount : nat;
  promptCount : nat
}.
End ServerStats.

Module Stats.
Record t : Type := {
  connectedServers : list ServerStats.t;
  totalTools : nat;
  totalResources : nat;
  totalPrompts : nat
}.
End Stats.

(** One turn of the loop of [getStats]. *)
Definition count (stats : Stats.t) (entry : string * Connection.t) : Stats.t :=
  let '(name, connection) := entry in
  if ServerStatus_eqb (Connection.status connection) connected then
    let toolCount := length (Connection.tools connection) in
    let resourceCount := length (Connection.resources connection) in
    let promptCount := length (Connection.prompts connection) in
    {| Stats.connectedServers :=
         (Stats.connectedServers stats
          ++ [{| ServerStats.name := name;
                 ServerStats.toolCount := toolCount;
                 ServerStats.resourceCount := resourceCount;
                 ServerStats.promptCount := promptCount |}])%list;
       Stats.totalTools := Stats.totalTools stats + toolCount;
       Stats.totalResources := Stats.totalResources stats + resourceCount;
       Stats.totalPrompts := Stats.totalPrompts stats + promptCount |}
  else stats.

Definition getStats (connections : JsMap.t Connection.t) : Stats.t :=
  fold_left count connections
    {| Stats.connectedServers := [];
       Stats.totalTools := 0;
       Stats.totalResources := 0;
       Stats.totalPrompts := 0 |}.

End ConnectionRecords.

(** ** More sample data *)

Module Fixture.

(** [calc] registers two tools, [notes] one with the same original
    name, and [calc] registers again with one tool. *)
Definition calls : list (RegistryCalls.t MCPTool.t) :=
  [RegistryCalls.Register "calc"
     [Sample.tool "add" "adds"; Sample.tool "sub" "subtracts"];
   RegistryCalls.Register "notes" [Sample.tool "add" "appends a note"];
   RegistryCalls.Register "calc" [Sample.tool "add" "adds"]].

Definition notesAdd : RegisteredTool.t :=
  registered "notes" (Sample.tool "add" "appends a note") "notes___add".

Definition calcAdd : RegisteredTool.t :=
  registered "calc" (Sample.tool "add" "adds") "calc___add".

(** Two sessions, created at times 5 and 9. *)
Definition twoSessions : list SessionEvents.t :=
  [SessionEvents.Request "abc" 5 (Sample.post None true);
   SessionEvents.Request "k3x9" 9 (Sample.post None true)].

(** An SDK connector for [notes] whose upstream request fails. *)
Definition refusing : SdkConnector.Client :=
  fun _ => SdkConnector.Failed (ErrorObj "Request timed out") (Some (-32001)%Z).

Definition notesRefusing : UpstreamManager.t :=
  Sample.manager
    [("notes", SdkConnector.connector "notes" true connected refusing)].

(** A CORS preflight request to [/mcp]. *)
Definition preflight (header : option string) : McpHub.HttpRequest.t :=
  {| McpHub.HttpRequest.method := McpHub.OPTIONS;
     McpHub.HttpRequest.sessionHeader := header;
     McpHub.HttpRequest.isInitialize := false |}.

(** The SDK connector of [calc] whose upstream request fails. *)
Definition calcRefusing : UpstreamManager.t :=
  Sample.manager
    [("calc", SdkConnector.connector "calc" true connected refusing)].

(** A connected SDK connector whose upstream answers the list requests
    with one tool, one resource and one prompt, except the request of
    method [unsupported], which fails. *)
Definition advertising (unsupported : string) : SdkConnector.ListClient :=
  fun request =>
    if String.eqb (ListRequest.method request) unsupported then
      SdkConnector.ListFailed (ErrorObj "MCP error -32601: Method not found")
    else if String.eqb (ListRequest.method request) "tools/list" then
      SdkConnector.ListResolved (ToolsList (Some [Sample.rawAdd]))
    else if String.eqb (ListRequest.method request) "resources/list" then
      SdkConnector.ListResolved (ResourcesList (Some [Sample.readme]))
    else
      SdkConnector.ListResolved (PromptsList (Some [Sample.rawSummarise])).

Definition without (unsupported : string) : BaseConnector.Send :=
  SdkConnector.sendList "calc" true connected (advertising unsupported).

(** A configuration with one stdio and one SSE server. *)
Definition echo : Json :=
  JObj [("command", JStr "echo"); ("args", JArr [JStr "hello"])].

Definition events : Json :=
  JObj [("type", JStr "sse"); ("url", JStr "http://localhost:8080/mcp/sse")].

Definition config : Json :=
  JObj [("mcpServers", JObj [("example-stdio", echo); ("example-sse", events)])].

(** [Object.entries] on objects whose keys are not integers. *)
Definition fieldsOf (value : Json) : list (string * Json) :=
  match value with
  | JObj fields => fields
  | _ => []
  end.

(** A manager that knows [calc], and a reply to discovery that rejects
    [tools/list] and answers the other two lists. *)
Definition knowsCalc : UpstreamManager.t :=
  {| UpstreamManager.connectors := [("calc", Sample.answering "3")];
     UpstreamManager.connections := [("calc", Sample.calcConnection)];
     UpstreamManager.reconnectTimeouts := JsMap.empty |}.

Definition noTools : BaseConnector.Send := fun request =>
  if String.eqb (ListRequest.method request) "tools/list" then
    Throw (ErrorObj "Request timed out")
  else if String.eqb (ListRequest.method request) "resources/list" then
    Return (Some (ResourcesList (Some [Sample.readme])))
  else Return (Some (PromptsList None)).

Definition calcRegistered : CapabilityRegistry.t :=
  CapabilityRegistry.after
    [CapabilityRegistry.RegisterTools "calc"
       [Sample.tool "add" "adds"; Sample.tool "sub" "subtracts"];
     CapabilityRegistry.RegisterTools "notes"
       [Sample.tool "add" "appends a note"]].

(** The tables hold [old] and [example-stdio]; the new configuration
    drops [old], changes [example-stdio] and adds [example-sse]. *)
Definition tables : Reconcile.Tables :=
  {| Reconcile.connectors :=
       [("old", ServerConfig.StdioConnector);
        ("example-stdio", ServerConfig.StdioConnector)];
     Reconcile.connections :=
       [("old", JObj [("command", JStr "true")]);
        ("example-stdio", JObj [("command", JStr "echo")])] |}.

Definition newServers : list (string * Json) :=
  [("example-stdio", echo); ("example-sse", events)].

(** A stand-in for [JSON.stringify] that tells the sample configurations
    apart by their number of properties. *)
Definition sizeOf (value : option Json) : option string :=
  match value with
  | Some (JObj fields) => Some (String.concat "" (map (fun _ => "p") fields))
  | Some _ => Some ""
  | None => None
  end.

Definition promptCalls : list (RegistryCalls.t MCPPrompt.t) :=
  [RegistryCalls.Register "notes"
     [{| MCPPrompt.name := "summarise";
         MCPPrompt.description := None;
         MCPPrompt.arguments := JArr [] |}]].

Definition notesSummarise : RegisteredPrompt.t :=
  registered "notes"
    {| MCPPrompt.name := "summarise";
       MCPPrompt.description := None;
       MCPPrompt.arguments := JArr [] |}
    "notes___summarise".

(** [calc] is added, connects, and its capabilities are discovered. *)
Definition calcDiscovered : list ConnectionRecords.Action :=
  [ConnectionRecords.AddServer "calc";
   ConnectionRecords.UpdateStatus "calc" connected None 7;
   ConnectionRecords.Discovered "calc"
     {| Discovery.tools := [Sample.tool "add" "adds"];
        Discovery.resources := [];
        Discovery.prompts :=
          [{| MCPPrompt.name := "explain";
              MCPPrompt.description := None;
              MCPPrompt.arguments := JArr [] |}] |}].

Definition succeeds : string -> Completion unit := fun _ => Return tt.
Definition fails : string -> Completion unit :=
  fun _ => Throw (ErrorObj "transport did not close").

End Fixture.

(* ================================================================== *)
(** * Part II.  Theorems                                               *)
(* ================================================================== *)

(** ** Strings *)

Section StringFacts.

Import JsString.

Lemma string_length_app (s t : string) :
  String.length (s ++ t) = String.length s + String.length t.
Proof. induction s as [|c s IH]; simpl; [reflexivity | now rewrite IH]. Qed.

Lemma substring_whole (s : string) :
  String.substring 0 (String.length s) s = s.
Proof. induction s as [|c s IH]; simpl; [reflexivity | now rewrite IH]. Qed.

Lemma substring_app_head (s t : string) :
  String.substring 0 (String.length s) (s ++ t) = s.
Proof.
  induction s as [|c s IH]; simpl.
  - destruct t; reflexivity.
  - now rewrite IH.
Qed.

Lemma substring_app_skip (s t : string) (m : nat) :
  String.substring (String.length s) m (s ++ t) = String.substring 0 m t.
Proof. induction s as [|c s IH]; simpl; [reflexivity | apply IH]. Qed.

Lemma js_substring_head (s t : string) :
  substring (s ++ t) 0 (String.length s) = s.
Proof.
  unfold substring. rewrite string_length_app.
  rewrite Nat.min_0_l.
  replace (Nat.min (String.length s) (String.length s + String.length t))
    with (String.length s) by lia.
  rewrite Nat.min_0_l, Nat.max_0_l, Nat.sub_0_r.
  apply substring_app_head.
Qed.

Lemma js_substringFrom_tail (s t : string) :
  substringFrom (s ++ t) (String.length s) = t.
Proof.
  unfold substringFrom, substring. rewrite string_length_app.
  rewrite Nat.min_id.
  replace (Nat.min (String.length s) (String.length s + String.length t))
    with (String.length s) by lia.
  replace (Nat.min (String.length s) (String.length s + String.length t))
    with (String.length s) by lia.
  replace (Nat.max (String.length s) (String.length s + String.length t))
    with (String.length s + String.length t) by lia.
  replace (String.length s + String.length t - String.length s)
    with (String.length t) by lia.
  rewrite substring_app_skip. apply substring_whole.
Qed.

Lemma falsy_false (s : string) : s <> "" -> falsy s = false.
Proof. intros H. unfold falsy. now apply String.eqb_neq. Qed.

Lemma falsy_true (s : string) : falsy s = true -> s = "".
Proof. unfold falsy. apply String.eqb_eq. Qed.

(** The separator is found right after [s] when [s] neither contains it
    nor ends in an underscore. *)
Lemma indexOf_separator (s n : string) :
  indexOf "___" s = None ->
  endsWith s "_" = false ->
  indexOf "___" (s ++ "___" ++ n) = Some (String.length s).
Proof.
  induction s as [|c s IH]; intros Hno Hend.
  - cbn. reflexivity.
  - cbn [indexOf] in Hno.
    destruct (startsWith (String c s) "___") eqn:Hp; [discriminate|].
    destruct (indexOf "___" s) eqn:Hi; [discriminate|].
    cbn [endsWith] in Hend. apply orb_false_iff in Hend as [Hne Hend'].
    assert (Hp' : startsWith (String c s ++ "___" ++ n) "___" = false).
    { destruct (Ascii.eqb_spec "_"%char c) as [<-|Hc];
        [|cbn [startsWith append]; now rewrite (proj2 (Ascii.eqb_neq _ _) Hc)].
      destruct s as [|c2 s]; [discriminate Hne|].
      destruct (Ascii.eqb_spec "_"%char c2) as [<-|Hc2];
        [|cbn [startsWith append]; rewrite Ascii.eqb_refl; now rewrite (proj2 (Ascii.eqb_neq _ _) Hc2)].
      destruct s as [|c3 s]; [discriminate Hend'|].
      destruct (Ascii.eqb_spec "_"%char c3) as [<-|Hc3];
        [discriminate Hp|].
      cbn [startsWith append]. rewrite !Ascii.eqb_refl.
      now rewrite (proj2 (Ascii.eqb_neq _ _) Hc3). }
    change (String c s ++ "___" ++ n) with (String c (s ++ "___" ++ n)) in *.
    cbn [indexOf]. rewrite Hp'.
    rewrite (IH eq_refl Hend'). reflexivity.
Qed.

End StringFacts.

(** ** The prefix utility *)

Section PrefixFacts.

Import JsString PrefixUtility ConfigLoader.

Lemma validName_nonempty (s : string) : validName s -> s <> "".
Proof.
  unfold validName, validateServerName. intros H ->. discriminate H.
Qed.

Lemma validName_no_separator (s : string) :
  validName s -> indexOf "___" s = None.
Proof.
  unfold validName, validateServerName, includes. intros H.
  destruct (falsy s); [discriminate|].
  destruct (negb (nameRegexTest s)); [discriminate|].
  destruct (indexOf "___" s); [discriminate | reflexivity].
Qed.

Lemma removePrefix_addPrefix (s n : string) :
  s <> "" -> indexOf "___" s = None -> endsWith s "_" = false ->
  removePrefix (addPrefix s n) =
    if falsy n then None else Some (s, n).
Proof.
  intros Hs Hno Hend. unfold removePrefix, addPrefix, SEPARATOR.
  rewrite (indexOf_separator s n Hno Hend).
  rewrite js_substring_head.
  replace (String.length s + String.length "___")
    with (String.length (s ++ "___")) by apply string_length_app.
  replace (s ++ "___" ++ n) with ((s ++ "___") ++ n)
    by (clear; induction s as [|c s IH]; simpl; [reflexivity | now rewrite IH]).
  rewrite js_substringFrom_tail.
  rewrite (falsy_false s Hs). reflexivity.
Qed.

End PrefixFacts.

(** C1 (as amended).  For every upstream name [s] that the loader accepts
    and that does not end in an underscore, and every non-empty original
    id [n], [removePrefix (addPrefix s n)] is the pair [(s, n)], also when
    [n] itself contains the separator; for the empty original id the
    result is absent. *)
Theorem C1_prefix_roundtrip (s n : string) :
  ConfigLoader.validName s ->
  JsString.endsWith s "_" = false ->
  (n <> "" ->
   PrefixUtility.removePrefix (PrefixUtility.addPrefix s n) = Some (s, n))
  /\ PrefixUtility.removePrefix (PrefixUtility.addPrefix s "") = None.
Proof.
  intros Hv Hend.
  pose proof (validName_nonempty s Hv) as Hs.
  pose proof (validName_no_separator s Hv) as Hno.
  split.
  - intros Hn. rewrite (removePrefix_addPrefix s n Hs Hno Hend).
    now rewrite (falsy_false n Hn).
  - now rewrite (removePrefix_addPrefix s "" Hs Hno Hend).
Qed.

Lemma C1_prefix_roundtrip_witness :
  PrefixUtility.removePrefix (PrefixUtility.addPrefix "calc" "get___all")
    = Some ("calc", "get___all")
  /\ PrefixUtility.removePrefix (PrefixUtility.addPrefix "calc" "") = None.
Proof.
  destruct (C1_prefix_roundtrip "calc" "get___all") as [H1 H2];
    [reflexivity | reflexivity |].
  split; [apply H1; discriminate | exact H2].
Defined.

(** C1 as stated fails twice: an accepted name with the empty original id
    gives absent, and an accepted name ending in an underscore is split
    one character too early. *)
Lemma C1_roundtrip_counterexample :
  (ConfigLoader.validName "a"
   /\ PrefixUtility.removePrefix (PrefixUtility.addPrefix "a" "") = None)
  /\ (ConfigLoader.validName "a_"
      /\ PrefixUtility.removePrefix (PrefixUtility.addPrefix "a_" "x")
           = Some ("a", "_x")).
Proof. repeat split. Qed.

(** ** Maps and sets *)

Local Open Scope list_scope.

Section JsMapFacts.

Context {V : Type}.
Implicit Types (m : JsMap.t V) (k : string) (v : V).

Lemma has_get k m : JsMap.has k m = true <-> JsMap.get k m <> None.
Proof. unfold JsMap.has. destruct (JsMap.get k m); split; congruence. Qed.

Lemma has_false_get k m : JsMap.has k m = false <-> JsMap.get k m = None.
Proof. unfold JsMap.has. destruct (JsMap.get k m); split; congruence. Qed.

Lemma get_app k m1 m2 :
  JsMap.get k (m1 ++ m2) =
    match JsMap.get k m1 with Some v => Some v | None => JsMap.get k m2 end.
Proof.
  induction m1 as [|[k' v'] m1 IH]; simpl; [reflexivity|].
  destruct (String.eqb k k'); [reflexivity | exact IH].
Qed.

Lemma get_set_eq k v m : JsMap.get k (JsMap.set k v m) = Some v.
Proof.
  induction m as [|[k' v'] m IH]; simpl.
  - now rewrite String.eqb_refl.
  - destruct (String.eqb k k') eqn:E; simpl.
    + now rewrite String.eqb_refl.
    + now rewrite E.
Qed.

Lemma get_set_ne k k' v m :
  k <> k' -> JsMap.get k' (JsMap.set k v m) = JsMap.get k' m.
Proof.
  intros Hne. induction m as [|[k0 v0] m IH]; simpl.
  - apply String.eqb_neq in Hne. rewrite String.eqb_sym. now rewrite Hne.
  - destruct (String.eqb k k0) eqn:E; simpl.
    + apply String.eqb_eq in E. subst k0.
      apply String.eqb_neq in Hne. rewrite String.eqb_sym. now rewrite Hne.
    + now rewrite IH.
Qed.

Lemma set_fresh k v m :
  JsMap.get k m = None -> JsMap.set k v m = m ++ [(k, v)].
Proof.
  induction m as [|[k' v'] m IH]; simpl; [reflexivity|].
  destruct (String.eqb k k'); [discriminate|].
  intros Hg. now rewrite IH.
Qed.

Lemma delete_fresh k m : JsMap.get k m = None -> JsMap.delete k m = m.
Proof.
  unfold JsMap.delete.
  induction m as [|[k' v'] m IH]; simpl; [reflexivity|].
  destruct (String.eqb k k'); [discriminate|].
  intros Hg. simpl. now rewrite IH.
Qed.

Lemma get_delete k k' m :
  JsMap.get k' (JsMap.delete k m) =
    if String.eqb k k' then None else JsMap.get k' m.
Proof.
  unfold JsMap.delete.
  induction m as [|[k0 v0] m IH]; simpl.
  - now destruct (String.eqb k k').
  - destruct (String.eqb k k0) eqn:E; simpl.
    + rewrite IH. destruct (String.eqb k k') eqn:E'; [reflexivity|].
      apply String.eqb_eq in E. subst k0.
      rewrite String.eqb_sym. now rewrite E'.
    + rewrite IH. destruct (String.eqb k k') eqn:E'; [|reflexivity].
      apply String.eqb_eq in E'. subst k'. now rewrite E.
Qed.

Lemma get_delete_eq k m : JsMap.get k (JsMap.delete k m) = None.
Proof. rewrite get_delete. now rewrite String.eqb_refl. Qed.

Lemma get_In k v m : JsMap.get k m = Some v -> In (k, v) m.
Proof.
  induction m as [|[k' v'] m IH]; simpl; [discriminate|].
  destruct (String.eqb_spec k k') as [->|Hne].
  - intros [= ->]. now left.
  - intros Hg. right. now apply IH.
Qed.

Lemma get_None_keys k m : JsMap.get k m = None <-> ~ In k (JsMap.keys m).
Proof.
  induction m as [|[k' v'] m IH]; simpl.
  - split; [tauto | reflexivity].
  - destruct (String.eqb_spec k k') as [->|Hne].
    + split; [discriminate | intros Hn; exfalso; apply Hn; now left].
    + rewrite IH. split.
      * intros Hn [E | Hin]; [now apply Hne | now apply Hn].
      * intros Hn Hin. apply Hn. now right.
Qed.

(** Deleting a list of keys one after the other keeps exactly the
    bindings whose key is not in the list. *)
Lemma fold_delete_filter (ks : list string) m :
  fold_left (fun m k => JsMap.delete k m) ks m =
    filter (fun kv => negb (JsSet.has (fst kv) ks)) m.
Proof.
  revert m. induction ks as [|k ks IH]; intros m; simpl.
  - clear. induction m as [|kv m IH]; simpl; [reflexivity | now rewrite <- IH].
  - rewrite IH. unfold JsMap.delete, JsSet.has.
    clear. induction m as [|[k' v'] m IH]; simpl; [reflexivity|].
    rewrite (String.eqb_sym k' k).
    destruct (String.eqb k k'); simpl.
    + exact IH.
    + destruct (existsb (String.eqb k') ks); simpl; [exact IH | now rewrite IH].
Qed.

Lemma get_fold_delete (ks : list string) k m :
  JsMap.get k (fold_left (fun m k => JsMap.delete k m) ks m) =
    if JsSet.has k ks then None else JsMap.get k m.
Proof.
  revert m. induction ks as [|k0 ks IH]; intros m; simpl; [reflexivity|].
  rewrite IH, get_delete. rewrite (String.eqb_sym k k0).
  destruct (String.eqb k0 k); simpl; [|reflexivity].
  now destruct (JsSet.has k ks).
Qed.

(** Bindings appended under keys that were free are removed again by
    deleting exactly those keys. *)
Lemma fold_delete_appended m (added : JsMap.t V) :
  (forall k, In k (JsMap.keys added) -> JsMap.get k m = None) ->
  fold_left (fun m k => JsMap.delete k m) (JsMap.keys added) (m ++ added) = m.
Proof.
  intros Hfree. rewrite fold_delete_filter, filter_app.
  replace (filter _ added) with (@nil (string * V)).
  - rewrite app_nil_r.
    apply forallb_filter_id. apply forallb_forall. intros [k v] Hin. simpl.
    destruct (JsSet.has k (JsMap.keys added)) eqn:E; [|reflexivity].
    unfold JsSet.has in E. apply existsb_exists in E as [k' [Hin' E]].
    apply String.eqb_eq in E. subst k'.
    specialize (Hfree k Hin'). apply get_None_keys in Hfree.
    exfalso. apply Hfree. unfold JsMap.keys.
    change k with (fst (k, v)). now apply in_map.
  - symmetry.
    assert (G : forall ks, incl (JsMap.keys added) ks ->
                filter (fun kv => negb (JsSet.has (fst kv) ks)) added = []).
    { clear. induction added as [|[k v] added IH]; intros ks Hks; simpl;
        [reflexivity|].
      assert (E : JsSet.has k ks = true).
      { unfold JsSet.has. apply existsb_exists.
        exists k. split; [apply Hks; simpl; now left | apply String.eqb_refl]. }
      rewrite E. simpl. apply IH.
      intros x Hx. apply Hks. simpl. now right. }
    apply G, incl_refl.
Qed.

End JsMapFacts.

Lemma set_has_In (x : string) (s : JsSet.t) : JsSet.has x s = true <-> In x s.
Proof.
  unfold JsSet.has. rewrite existsb_exists. split.
  - intros [y [Hin E]]. apply String.eqb_eq in E. now subst.
  - intros Hin. exists x. split; [exact Hin | apply String.eqb_refl].
Qed.

Lemma set_add_fresh (x : string) (s : JsSet.t) :
  ~ In x s -> JsSet.add x s = s ++ [x].
Proof.
  intros Hn. unfold JsSet.add.
  destruct (JsSet.has x s) eqn:E; [|reflexivity].
  apply set_has_In in E. contradiction.
Qed.

(** ** The registries *)

Section RegistryFacts.

Context {Item Registered : Type} {C : Capability Item Registered}.
Import Registry.
Implicit Types (r : Registry.t Registered) (u k : string)
               (items : list Item) (m : JsMap.t Registered)
               (names : JsSet.t) (out : list Console).

Abbreviation idOf u item := (PrefixUtility.addPrefix u (originalId item)).
Abbreviation loop u items acc := (fold_left (registerStep u) items acc).

Lemma get_cleared u k r :
  getEntry k (clearServerEntries u r) =
    if owns u k r then None else getEntry k r.
Proof.
  unfold getEntry, clearServerEntries, owns.
  destruct (JsMap.get u (byServer r)) as [names|]; simpl; [|reflexivity].
  apply get_fold_delete.
Qed.

Lemma cleared_no_index u r :
  JsMap.get u (byServer (clearServerEntries u r)) = None.
Proof.
  unfold clearServerEntries.
  destruct (JsMap.get u (byServer r)) eqn:E; simpl; [|exact E].
  apply get_delete_eq.
Qed.

(** What the loop leaves under each key: an entry that was there stays,
    a free key receives the first item registered under it. *)
Lemma loop_get u items k : forall m names out,
  JsMap.get k (fst (fst (loop u items (m, names, out)))) =
    match JsMap.get k m with
    | Some e => Some e
    | None => option_map (fun item => registered u item k)
                         (firstWithId u k items)
    end.
Proof.
  induction items as [|item items IH]; intros m names out; simpl.
  - now destruct (JsMap.get k m).
  - destruct (JsMap.has (idOf u item) m) eqn:Hhas.
    + rewrite IH. destruct (JsMap.get k m) eqn:Hk; [reflexivity|].
      destruct (String.eqb_spec (idOf u item) k) as [E|E]; [|reflexivity].
      subst k. apply has_get in Hhas. contradiction.
    + rewrite IH. apply has_false_get in Hhas.
      destruct (String.eqb_spec (idOf u item) k) as [E|E].
      * subst k. rewrite get_set_eq, Hhas. reflexivity.
      * now rewrite (get_set_ne _ _ _ _ E).
Qed.

(** The shape of the loop's result: new bindings are appended to the
    map under keys that were free, the same keys are appended to the
    set, and every item is either inserted or reported. *)
Lemma loop_shape u items : forall m names out,
  (forall k, In k names -> JsMap.get k m <> None) ->
  exists added warns,
    loop u items (m, names, out)
      = (m ++ added, names ++ JsMap.keys added, out ++ warns)
    /\ (forall k, In k (JsMap.keys added) -> JsMap.get k m = None)
    /\ NoDup (JsMap.keys added)
    /\ length added + length warns = length items
    /\ (forall e, In e warns ->
          exists item, In item items /\ e = Warn_conflict kind (idOf u item)).
Proof.
  induction items as [|item items IH]; intros m names out Hsub; simpl.
  - exists [], []. rewrite !app_nil_r. repeat split; auto.
    + intros k [].
    + constructor.
    + intros e [].
  - destruct (JsMap.has (idOf u item) m) eqn:Hhas; cbn iota.
    + destruct (IH m names (out ++ [Warn_conflict kind (idOf u item)]) Hsub)
        as (added & warns & Heq & Hfree & Hnd & Hlen & Hw).
      exists added, (Warn_conflict kind (idOf u item) :: warns).
      rewrite Heq, <- app_assoc. simpl. repeat split; auto.
      * lia.
      * intros e [<-|Hin]; [exists item; split; [now left | reflexivity]|].
        destruct (Hw e Hin) as (it & Hit & ->).
        exists it. split; [now right | reflexivity].
    + apply has_false_get in Hhas.
      set (p := idOf u item) in *. set (e0 := registered u item p).
      assert (Hp : ~ In p names) by (intros Hin; now apply (Hsub p)).
      rewrite (set_fresh p e0 m Hhas), (set_add_fresh p names Hp).
      destruct (IH (m ++ [(p, e0)]) (names ++ [p]) out)
        as (added & warns & Heq & Hfree & Hnd & Hlen & Hw).
      { intros k Hin. rewrite get_app. apply in_app_or in Hin as [Hin|Hin].
        - specialize (Hsub k Hin). now destruct (JsMap.get k m).
        - destruct Hin as [<-|[]]. rewrite Hhas. simpl.
          now rewrite String.eqb_refl. }
      exists ((p, e0) :: added), warns.
      rewrite Heq, <- !app_assoc. simpl. repeat split; auto.
      * intros k [<-|Hin]; [exact Hhas|].
        specialize (Hfree k Hin). rewrite get_app in Hfree.
        now destruct (JsMap.get k m).
      * constructor; [|exact Hnd].
        intros Hin. specialize (Hfree p Hin). rewrite get_app, Hhas in Hfree.
        simpl in Hfree. now rewrite String.eqb_refl in Hfree.
      * intros e Hin. destruct (Hw e Hin) as (it & Hit & ->).
        exists it. split; [now right | reflexivity].
Qed.

(** Once an id is in the map, every later item with that id is reported. *)
Lemma loop_warns u items item : forall m names out,
  In item items ->
  JsMap.get (idOf u item) m <> None ->
  In (Warn_conflict kind (idOf u item))
     (snd (loop u items (m, names, out))).
Proof.
  assert (Hout : forall items m names out e,
             In e out -> In e (snd (loop u items (m, names, out)))).
  { clear. induction items as [|it items IH]; intros m names out e Hin;
      simpl; [exact Hin|].
    destruct (JsMap.has (idOf u it) m); apply IH; [|exact Hin].
    apply in_or_app. now left. }
  induction items as [|it items IH]; intros m names out Hin Hpres; simpl.
  - destruct Hin.
  - destruct Hin as [->|Hin].
    + apply has_get in Hpres. rewrite Hpres.
      apply Hout. apply in_or_app. right. now left.
    + destruct (JsMap.has (idOf u it) m) eqn:Hhas.
      * now apply IH.
      * apply IH; [exact Hin|].
        destruct (String.eqb_spec (idOf u it) (idOf u item)) as [E|E].
        -- rewrite <- E, get_set_eq. discriminate.
        -- now rewrite (get_set_ne _ _ _ _ E).
Qed.

(** After one turn of the loop the item's id is in the map. *)
Lemma step_present u item m names out :
  JsMap.get (idOf u item) (fst (fst (registerStep u (m, names, out) item)))
    <> None.
Proof.
  unfold registerStep.
  destruct (JsMap.has (idOf u item) m) eqn:Hhas; simpl.
  - now apply has_get.
  - rewrite get_set_eq. discriminate.
Qed.

End RegistryFacts.

Section RegisterFacts.

Context {Item Registered : Type} {C : Capability Item Registered}.
Import Registry.
Implicit Types (r : Registry.t Registered) (u k : string)
               (items : list Item) (m : JsMap.t Registered)
               (names : JsSet.t) (out : list Console).

Abbreviation idOf' u item := (PrefixUtility.addPrefix u (originalId item)).

Lemma addPrefix_inj u (a b : string) :
  PrefixUtility.addPrefix u a = PrefixUtility.addPrefix u b -> a = b.
Proof.
  unfold PrefixUtility.addPrefix, PrefixUtility.SEPARATOR.
  induction u as [|c u IH]; simpl.
  - now intros [= ->].
  - intros [= E]. now apply IH.
Qed.

Lemma get_Some_keys k m : JsMap.get k m <> None -> In k (JsMap.keys m).
Proof.
  intros Hg. destruct (in_dec string_dec k (JsMap.keys m)) as [Hin|Hn];
    [exact Hin|].
  apply get_None_keys in Hn. contradiction.
Qed.

Lemma firstWithId_first u (T1 T2 : list Item) (item : Item) :
  (forall x, In x T1 -> originalId x <> originalId item) ->
  firstWithId u (idOf' u item) (T1 ++ item :: T2) = Some item.
Proof.
  unfold firstWithId. induction T1 as [|x T1 IH]; intros Hne; simpl.
  - now rewrite String.eqb_refl.
  - destruct (String.eqb_spec (idOf' u x) (idOf' u item)) as [E|E].
    + apply addPrefix_inj in E. exfalso. apply (Hne x); [now left | exact E].
    + apply IH. intros y Hy. apply Hne. now right.
Qed.

Lemma register_get u items k r :
  getEntry k (fst (registerEntries u items r)) =
    match getEntry k (clearServerEntries u r) with
    | Some e => Some e
    | None => option_map (fun item => registered u item k)
                         (firstWithId u k items)
    end.
Proof.
  unfold registerEntries, getEntry.
  pose proof (loop_get u items k
                (entries (clearServerEntries u r)) JsSet.empty []) as H.
  destruct (fold_left _ items _) as [[m' names'] out']. exact H.
Qed.

(** The registry after a call, spelled out. *)
Lemma register_shape u items r :
  let r0 := clearServerEntries u r in
  exists added warns,
    registerEntries u items r
      = ({| entries := entries r0 ++ added;
            byServer := byServer r0 ++ [(u, JsMap.keys added)] |},
         warns ++ [Log_registered kind (length added) u])
    /\ (forall k, In k (JsMap.keys added) -> JsMap.get k (entries r0) = None)
    /\ NoDup (JsMap.keys added)
    /\ length added + length warns = length items
    /\ (forall e, In e warns ->
          exists item, In item items /\ e = Warn_conflict kind (idOf' u item)).
Proof.
  intros r0. unfold registerEntries. fold r0.
  destruct (loop_shape u items (entries r0) JsSet.empty [])
    as (added & warns & Heq & Hfree & Hnd & Hlen & Hw);
    [intros k [] |].
  exists added, warns. rewrite Heq. simpl.
  rewrite (set_fresh u _ _ (cleared_no_index u r)).
  unfold JsSet.size, JsMap.keys. rewrite length_map.
  repeat split; auto.
Qed.

Lemma owns_after u items r k :
  owns u k (fst (registerEntries u items r)) = true
  <-> (getEntry k (clearServerEntries u r) = None
       /\ getEntry k (fst (registerEntries u items r)) <> None).
Proof.
  destruct (register_shape u items r)
    as (added & warns & Heq & Hfree & Hnd & Hlen & Hw).
  rewrite Heq. unfold owns, getEntry. simpl.
  rewrite get_app, (cleared_no_index u r). simpl.
  rewrite String.eqb_refl, set_has_In, get_app.
  split.
  - intros Hin. rewrite (Hfree k Hin). split; [reflexivity|].
    intros Hg. apply get_None_keys in Hg. contradiction.
  - intros [H0 H1]. rewrite H0 in H1. now apply get_Some_keys.
Qed.

(** Clearing the server right after a registration gives back the
    registry as it was cleared before the registration. *)
Lemma clear_after_register u items r :
  clearServerEntries u (fst (registerEntries u items r))
    = clearServerEntries u r.
Proof.
  destruct (register_shape u items r)
    as (added & warns & Heq & Hfree & Hnd & Hlen & Hw).
  rewrite Heq. simpl.
  pose proof (cleared_no_index u r) as Hno.
  destruct (clearServerEntries u r) as [e0 b0]. simpl in *.
  unfold clearServerEntries. simpl.
  rewrite get_app, Hno. simpl. rewrite String.eqb_refl. f_equal.
  - now apply fold_delete_appended.
  - unfold JsMap.delete. rewrite filter_app. simpl.
    rewrite String.eqb_refl. simpl. rewrite app_nil_r.
    now apply delete_fresh.
Qed.

Lemma register_idempotent u items r :
  registerEntries u items (fst (registerEntries u items r))
    = registerEntries u items r.
Proof.
  unfold registerEntries at 1. rewrite clear_after_register. reflexivity.
Qed.

End RegisterFacts.

Section RegisterOutput.

Context {Item Registered : Type} {C : Capability Item Registered}.
Import Registry.

Lemma register_out (u : string) (items : list Item) (r : Registry.t Registered) :
  snd (registerEntries u items r) =
    snd (fold_left (registerStep u) items
           (entries (clearServerEntries u r), JsSet.empty, []))
    ++ [Log_registered kind
          (getServerEntryCount u (fst (registerEntries u items r))) u].
Proof.
  unfold registerEntries, getServerEntryCount.
  destruct (fold_left _ items _) as [[m' names'] out']. simpl.
  now rewrite get_set_eq.
Qed.

Lemma register_count (u : string) (items : list Item) (r : Registry.t Registered) :
  getServerEntryCount u (fst (registerEntries u items r))
    + length (snd (registerEntries u items r)) = S (length items)
  /\ getServerEntryCount u (fst (registerEntries u items r))
     = length (getServerEntries u (fst (registerEntries u items r))).
Proof.
  destruct (register_shape u items r)
    as (added & warns & Heq & Hfree & Hnd & Hlen & Hw).
  rewrite Heq. unfold getServerEntryCount, getServerEntries. simpl.
  rewrite get_app, (cleared_no_index u r). simpl.
  rewrite String.eqb_refl.
  unfold JsSet.size, JsMap.keys. rewrite length_map, length_app. simpl.
  split; [lia|].
  assert (G : forall ks, incl ks (JsMap.keys added) ->
            length (flat_map
                      (fun name =>
                         match JsMap.get name
                                 (entries (clearServerEntries u r) ++ added)
                         with Some e => [e] | None => [] end) ks)
            = length ks).
  { induction ks as [|k ks IH]; intros Hks; simpl; [reflexivity|].
    rewrite length_app, IH by (intros x Hx; apply Hks; now right).
    assert (Hk : In k (JsMap.keys added)) by (apply Hks; now left).
    rewrite get_app, (Hfree k Hk).
    destruct (JsMap.get k added) eqn:E; [reflexivity|].
    apply get_None_keys in E. contradiction. }
  rewrite <- (length_map fst added). symmetry. apply G, incl_refl.
Qed.

(** Two items of one list under the same id. *)
Lemma register_duplicate (u : string) (T1 T2 T3 : list Item) (t t' : Item)
    (r : Registry.t Registered) :
  originalId t' = originalId t ->
  let T := T1 ++ t :: T2 ++ t' :: T3 in
  let p := PrefixUtility.addPrefix u (originalId t) in
  let r' := fst (registerEntries u T r) in
  let out := snd (registerEntries u T r) in
  In (Warn_conflict kind p) out
  /\ ((forall x, In x T1 -> originalId x <> originalId t) ->
      getEntry p (clearServerEntries u r) = None ->
      getEntry p r' = Some (registered u t p))
  /\ getServerEntryCount u r' = length (getServerEntries u r')
  /\ getServerEntryCount u r' + length out = S (length T)
  /\ In (Log_registered kind (getServerEntryCount u r') u) out
  /\ getServerEntryCount u r' < length T.
Proof.
  intros Hname T p r' out.
  assert (Hwarn : In (Warn_conflict kind p) out).
  { subst out. rewrite register_out. apply in_or_app. left.
    subst T. rewrite fold_left_app. simpl fold_left.
    destruct (fold_left _ T1 _) as [[m names] o].
    pose proof (step_present u t m names o) as Hpres.
    destruct (registerStep u (m, names, o) t) as [[m1 names1] o1].
    simpl in Hpres.
    assert (Hin : In t' (T2 ++ t' :: T3))
      by (apply in_or_app; right; now left).
    pose proof (loop_warns u (T2 ++ t' :: T3) t' m1 names1 o1 Hin) as Hw.
    rewrite Hname in Hw. exact (Hw Hpres). }
  destruct (register_count u T r) as [Hcount Hlen].
  split; [exact Hwarn|]. split; [|split; [exact Hlen|split; [exact Hcount|split]]].
  - intros Hfirst Hfree. subst r'.
    rewrite register_get, Hfree. subst T p.
    now rewrite (firstWithId_first u T1 (T2 ++ t' :: T3) t Hfirst).
  - subst out r'. rewrite register_out. apply in_or_app. right. now left.
  - subst out r'.
    assert (2 <= length (snd (registerEntries u T r))); [|lia].
    rewrite register_out in Hwarn |- *. rewrite length_app. simpl.
    apply in_app_or in Hwarn as [Hw | [Hw | []]]; [|discriminate Hw].
    destruct (snd (fold_left _ T _)); [destruct Hw | simpl; lia].
Qed.

End RegisterOutput.

(** The three registries run the shared code. *)
Lemma registries_share_code :
  ToolRegistry.registerTools = Registry.registerEntries
  /\ ResourceRegistry.registerResources = Registry.registerEntries
  /\ PromptRegistry.registerPrompts = Registry.registerEntries
  /\ ToolRegistry.getTool = Registry.getEntry
  /\ ResourceRegistry.getResource = Registry.getEntry
  /\ PromptRegistry.getPrompt = Registry.getEntry.
Proof. repeat split. Qed.

(** C2 (as amended).  A registration replaces the upstream's prior set:
    for every upstream [u], item list and registry,
    - every id the reverse index listed for [u] before the call holds
      afterwards only what the new list registers under it (nothing of the
      old entry survives);
    - each item of the list that is the first one under its id is
      inserted under its prefixed id and recorded for [u];
    - an item whose prefixed id collides with an entry that is not [u]'s is
      dropped with the conflict warning, the entry stays as it was and is
      not recorded for [u];
    - every entry that is not [u]'s is returned unchanged;
    - the prefixed id of every item of the list resolves after the call;
    - an item whose id an earlier item of the list has is dropped with
      the same warning.
    The statement is over the shared registry code, of which
    [registerTools], [registerResources] and [registerPrompts] are the
    three instances. *)
Theorem C2_register_replaces_prior_set
    {Item Registered : Type} {C : Capability Item Registered}
    (u : string) (items : list Item) (r : Registry.t Registered) :
  let r' := fst (Registry.registerEntries u items r) in
  let out := snd (Registry.registerEntries u items r) in
  (forall k, Registry.owns u k r = true ->
     Registry.getEntry k r'
       = option_map (fun item => registered u item k)
                    (Registry.firstWithId u k items))
  /\ (forall T1 item T2, items = T1 ++ item :: T2 ->
        (forall x, In x T1 -> originalId x <> originalId item) ->
        let p := PrefixUtility.addPrefix u (originalId item) in
        Registry.owns u p r = true \/ Registry.getEntry p r = None ->
        Registry.getEntry p r' = Some (registered u item p)
        /\ Registry.owns u p r' = true)
  /\ (forall item e, In item items ->
        let p := PrefixUtility.addPrefix u (originalId item) in
        Registry.owns u p r = false ->
        Registry.getEntry p r = Some e ->
        Registry.getEntry p r' = Some e
        /\ In (Warn_conflict kind p) out
        /\ Registry.owns u p r' = false)
  /\ (forall k e, Registry.owns u k r = false ->
        Registry.getEntry k r = Some e ->
        Registry.getEntry k r' = Some e)
  /\ (forall item, In item items ->
        Registry.getEntry (PrefixUtility.addPrefix u (originalId item)) r'
          <> None)
  /\ (forall T1 item T2 later T3,
        items = T1 ++ item :: T2 ++ later :: T3 ->
        originalId later = originalId item ->
        In (Warn_conflict kind (PrefixUtility.addPrefix u (originalId later)))
           out).
Proof.
  intros r' out. subst r' out. split; [|split; [|split; [|split; [|split]]]].
  - intros k Hown. now rewrite register_get, get_cleared, Hown.
  - intros T1 item T2 -> Hfirst p Hfree.
    assert (Hget : Registry.getEntry p (Registry.clearServerEntries u r) = None).
    { rewrite get_cleared. destruct Hfree as [-> | ->]; [reflexivity|].
      now destruct (Registry.owns u p r). }
    assert (Hnew : Registry.getEntry p
                     (fst (Registry.registerEntries u (T1 ++ item :: T2) r))
                   = Some (registered u item p)).
    { rewrite register_get, Hget. subst p.
      now rewrite (firstWithId_first u T1 T2 item Hfirst). }
    split; [exact Hnew|].
    apply owns_after. split; [exact Hget|]. rewrite Hnew. discriminate.
  - intros item e Hin p Hown Hget.
    assert (Hget0 : Registry.getEntry p (Registry.clearServerEntries u r)
                    = Some e) by now rewrite get_cleared, Hown.
    split; [|split].
    + now rewrite register_get, Hget0.
    + rewrite register_out. apply in_or_app. left.
      apply loop_warns; [exact Hin|].
      change (Registry.getEntry p (Registry.clearServerEntries u r) <> None).
      rewrite Hget0. discriminate.
    + destruct (Registry.owns u p (fst (Registry.registerEntries u items r)))
        eqn:E; [|reflexivity].
      apply owns_after in E as [E _]. rewrite Hget0 in E. discriminate.
  - intros k e Hown Hget. now rewrite register_get, get_cleared, Hown, Hget.
  - intros item Hin. rewrite register_get.
    destruct (Registry.getEntry _ (Registry.clearServerEntries u r));
      [discriminate|].
    unfold Registry.firstWithId.
    destruct (find _ items) eqn:Hfind; [discriminate|].
    apply (find_none _ _ Hfind) in Hin.
    now rewrite String.eqb_refl in Hin.
  - intros T1 item T2 later T3 -> Hsame. rewrite Hsame.
    now apply (register_duplicate u T1 T2 T3 item later r Hsame).
Qed.

(** C9.  Registering the same tool list for the same upstream twice in a
    row leaves the registry, forward map and reverse index with their
    order and the entries of the other upstreams, as the first call left
    it (and writes the same lines to the console). *)
Theorem C9_registerTools_idempotent
    (u : string) (T : list MCPTool.t) (r : ToolRegistry.t) :
  fst (ToolRegistry.registerTools u T (fst (ToolRegistry.registerTools u T r)))
    = fst (ToolRegistry.registerTools u T r)
  /\ snd (ToolRegistry.registerTools u T (fst (ToolRegistry.registerTools u T r)))
     = snd (ToolRegistry.registerTools u T r).
Proof.
  pose proof (register_idempotent (C := ToolCapability) u T r) as H.
  split; [exact (f_equal fst H) | exact (f_equal snd H)].
Qed.

(** C10.  When two elements of the list have the same name, hence the same
    prefixed id, the later one is dropped with the conflict warning that
    cross-upstream collisions produce; the first occurrence is the one
    stored when the id was free; and the set recorded for the upstream
    counts the entries that were inserted: it is as long as the list of
    the upstream's entries, together with the warnings it accounts for
    every element, and it is shorter than the list. *)
Theorem C10_duplicate_within_call
    (u : string) (T1 T2 T3 : list MCPTool.t) (t t' : MCPTool.t)
    (r : ToolRegistry.t) :
  MCPTool.name t' = MCPTool.name t ->
  let T := T1 ++ t :: T2 ++ t' :: T3 in
  let p := PrefixUtility.addPrefix u (MCPTool.name t) in
  let r' := fst (ToolRegistry.registerTools u T r) in
  let out := snd (ToolRegistry.registerTools u T r) in
  In (Warn_conflict ToolKind p) out
  /\ ((forall x, In x T1 -> MCPTool.name x <> MCPTool.name t) ->
      ToolRegistry.getTool p (ToolRegistry.clearServerTools u r) = None ->
      ToolRegistry.getTool p r' = Some (registered u t p))
  /\ ToolRegistry.getServerToolCount u r'
       = length (ToolRegistry.getServerTools u r')
  /\ ToolRegistry.getServerToolCount u r' + length out = S (length T)
  /\ In (Log_registered ToolKind (ToolRegistry.getServerToolCount u r') u) out
  /\ ToolRegistry.getServerToolCount u r' < length T.
Proof.
  exact (register_duplicate (C := ToolCapability) u T1 T2 T3 t t' r).
Qed.

Lemma C2_register_replaces_prior_set_witness :
  let r := Sample.registryOfA in
  let call := ToolRegistry.registerTools "a_" [Sample.tool "x" "owned by a_"] r in
  (ToolRegistry.getTool "a____x" (fst call)
     = Some (registered "a" (Sample.tool "_x" "owned by a") "a____x")
   /\ In (Warn_conflict ToolKind "a____x") (snd call)
   /\ Registry.owns "a_" "a____x" (fst call) = false)
  /\ (ToolRegistry.getTool "a___y"
        (fst (ToolRegistry.registerTools "a" [Sample.tool "y" "new"] r))
      = Some (registered "a" (Sample.tool "y" "new") "a___y")
      /\ ToolRegistry.getTool "a____x"
           (fst (ToolRegistry.registerTools "a" [Sample.tool "y" "new"] r))
         = None).
Proof.
  intros r call. split.
  - destruct (C2_register_replaces_prior_set (C := ToolCapability)
                "a_" [Sample.tool "x" "owned by a_"] r)
      as (_ & _ & H3 & _ & _ & _).
    apply (H3 (Sample.tool "x" "owned by a_")
              (registered "a" (Sample.tool "_x" "owned by a") "a____x")).
    + now left.
    + reflexivity.
    + reflexivity.
  - destruct (C2_register_replaces_prior_set (C := ToolCapability)
                "a" [Sample.tool "y" "new"] r)
      as (H1 & H2 & _ & _ & _ & _).
    split.
    + apply (H2 [] (Sample.tool "y" "new") [] eq_refl).
      * intros x [].
      * right. reflexivity.
    + apply (H1 "a____x"). reflexivity.
Defined.

(** C2 as stated fails when two tools of the list have the same name: the
    registry is empty, so no entry of another upstream is in the way, and
    yet the second tool is not inserted. *)
Lemma C2_duplicate_names_counterexample :
  let first := Sample.tool "add" "first" in
  let second := Sample.tool "add" "second" in
  let call := ToolRegistry.registerTools "calc" [first; second] Registry.empty in
  ToolRegistry.getTool "calc___add" (fst call)
    = Some (registered "calc" first "calc___add")
  /\ ToolRegistry.getTool "calc___add" (fst call)
     <> Some (registered "calc" second "calc___add")
  /\ ToolRegistry.getAllTools (fst call)
     = [registered "calc" first "calc___add"]
  /\ snd call = [Warn_conflict ToolKind "calc___add";
                 Log_registered ToolKind 1 "calc"].
Proof. repeat split. discriminate. Qed.

Lemma C10_duplicate_within_call_witness :
  let first := Sample.tool "add" "first" in
  let second := Sample.tool "add" "second" in
  let call := ToolRegistry.registerTools "calc" [first; second] Registry.empty in
  In (Warn_conflict ToolKind "calc___add") (snd call)
  /\ ToolRegistry.getTool "calc___add" (fst call)
     = Some (registered "calc" first "calc___add")
  /\ ToolRegistry.getServerToolCount "calc" (fst call) = 1.
Proof.
  intros first second call.
  destruct (C10_duplicate_within_call "calc" [] [] [] first second
              Registry.empty eq_refl)
    as (Hwarn & Hfirst & Hcount & _).
  split; [exact Hwarn|]. split.
  - apply Hfirst; [intros x [] | reflexivity].
  - reflexivity.
Defined.

(** ** Routing a tool call *)

Section RoutingFacts.

Local Open Scope string_scope.
Variables (registry : ToolRegistry.t) (mgr : UpstreamManager.t).

(** The router answers an unknown tool with the not-found error. *)
Lemma router_unknown_tool (request : MCPRequest.t) (p : string) :
  nonEmptyString (ToolCallParams.name (MCPRequest.params request)) = Some p ->
  ToolRegistry.getTool p registry = None ->
  fst (RequestRouter.handleToolCall registry mgr request)
    = RequestRouter.errorResponse (MCPRequest.id request) (-32601)
        ("Tool not found or server unavailable: " ++ p).
Proof.
  intros Hname Hget. unfold RequestRouter.handleToolCall,
    RequestRouter.routeToolCall. rewrite Hname.
  destruct (PrefixUtility.removePrefix p) as [[s o]|]; [|reflexivity].
  now rewrite Hget.
Qed.

(** The router gives the same answer when the upstream that the prefix
    names has no connector or is not connected. *)
Lemma router_unavailable (request : MCPRequest.t) (p s o : string) :
  nonEmptyString (ToolCallParams.name (MCPRequest.params request)) = Some p ->
  PrefixUtility.removePrefix p = Some (s, o) ->
  UpstreamManager.unavailable s mgr ->
  fst (RequestRouter.handleToolCall registry mgr request)
    = RequestRouter.errorResponse (MCPRequest.id request) (-32601)
        ("Tool not found or server unavailable: " ++ p).
Proof.
  intros Hname Hparse Hdown. unfold RequestRouter.handleToolCall,
    RequestRouter.routeToolCall, UpstreamManager.unavailable,
    UpstreamManager.getConnector in *. rewrite Hname, Hparse.
  destruct (ToolRegistry.getTool p registry); [|reflexivity].
  destruct (JsMap.get s (UpstreamManager.connectors mgr)); [|reflexivity].
  now rewrite Hdown.
Qed.

(** When the record's prefixed id is built from an accepted server name
    that does not end in an underscore, the name the router parses is the
    owner, and an owner that is absent or not connected gives the
    not-found error. *)
Lemma router_owner_unavailable (request : MCPRequest.t) (p : string)
    (tool : RegisteredTool.t) :
  nonEmptyString (ToolCallParams.name (MCPRequest.params request)) = Some p ->
  p = PrefixUtility.addPrefix (RegisteredTool.serverName tool)
                              (RegisteredTool.originalName tool) ->
  ConfigLoader.validName (RegisteredTool.serverName tool) ->
  JsString.endsWith (RegisteredTool.serverName tool) "_" = false ->
  RegisteredTool.originalName tool <> "" ->
  UpstreamManager.unavailable (RegisteredTool.serverName tool) mgr ->
  fst (RequestRouter.handleToolCall registry mgr request)
    = RequestRouter.errorResponse (MCPRequest.id request) (-32601)
        ("Tool not found or server unavailable: " ++ p).
Proof.
  intros Hname Hp Hvalid Hend Horig Hdown.
  apply (router_unavailable request p (RegisteredTool.serverName tool)
           (RegisteredTool.originalName tool) Hname); [|exact Hdown].
  rewrite Hp, (removePrefix_addPrefix _ _ (validName_nonempty _ Hvalid)
                 (validName_no_separator _ Hvalid) Hend).
  now rewrite (falsy_false _ Horig).
Qed.

(** [McpHub] and [McpHubServer] look the connector up under the name the
    record carries, and fail alike for an unknown tool and for an owner
    that is absent or not connected. *)
Lemma hub_not_found (now : Z) (params : ToolCallParams.t) (p : string) :
  nonEmptyString (ToolCallParams.name params) = Some p ->
  (find (fun t => String.eqb (RegisteredTool.prefixedName t) p)
        (ToolRegistry.getAllTools registry) = None
   \/ exists tool,
        find (fun t => String.eqb (RegisteredTool.prefixedName t) p)
             (ToolRegistry.getAllTools registry) = Some tool
        /\ UpstreamManager.unavailable (RegisteredTool.serverName tool) mgr) ->
  McpHub.callToolHandler registry mgr now params
    = Throw (ErrorObj ("Tool not found or server unavailable: " ++ p)).
Proof.
  intros Hname Hcause. unfold McpHub.callToolHandler, McpHub.routeToolCall,
    UpstreamManager.unavailable in *. rewrite Hname.
  destruct Hcause as [-> | (tool & -> & Hdown)]; [reflexivity|].
  destruct (UpstreamManager.getConnector _ mgr); [|reflexivity].
  now rewrite Hdown.
Qed.

Lemma hubServer_not_found (stringify : option Json -> option string)
    (random : string) (params : ToolCallParams.t) (p : string) :
  nonEmptyString (ToolCallParams.name params) = Some p ->
  (ToolRegistry.getTool p registry = None
   \/ exists tool, ToolRegistry.getTool p registry = Some tool
                   /\ UpstreamManager.unavailable (RegisteredTool.serverName tool) mgr) ->
  McpHubServer.callToolHandler stringify registry mgr random params
    = Throw (ErrorObj ("Tool not found or server unavailable: " ++ p)).
Proof.
  intros Hname Hcause. unfold McpHubServer.callToolHandler,
    McpHubServer.routeToolCall, UpstreamManager.unavailable in *.
  rewrite Hname.
  destruct Hcause as [-> | (tool & -> & Hdown)]; [reflexivity|].
  destruct (UpstreamManager.getConnector _ mgr); [|reflexivity].
  now rewrite Hdown.
Qed.

(** A rejected send: [McpHubServer] answers with the error result. *)
Lemma hubServer_send_rejected (stringify : option Json -> option string)
    (random : string) (params : ToolCallParams.t) (p : string)
    (routeInfo : McpHubServer.RouteInfo.t) (e : Thrown) :
  nonEmptyString (ToolCallParams.name params) = Some p ->
  McpHubServer.routeToolCall registry mgr p = Some routeInfo ->
  (forall request,
      Connector.sendMessage (McpHubServer.RouteInfo.connector routeInfo)
        request = Throw e) ->
  McpHubServer.callToolHandler stringify registry mgr random params
    = Return (Some (McpHubServer.errorResult
                      ("Upstream error: " ++ errorMessage e))).
Proof.
  intros Hname Hroute Hsend. unfold McpHubServer.callToolHandler.
  now rewrite Hname, Hroute, Hsend.
Qed.

(** A rejected send: [McpHub] lets the exception through. *)
Lemma hub_send_rejected (now : Z) (params : ToolCallParams.t) (p : string)
    (routeInfo : McpHub.RouteInfo.t) (e : Thrown) :
  nonEmptyString (ToolCallParams.name params) = Some p ->
  McpHub.routeToolCall registry mgr p = Some routeInfo ->
  (forall request,
      UpstreamManager.routeMessage (McpHub.RouteInfo.serverName routeInfo)
        request mgr = Throw e) ->
  McpHub.callToolHandler registry mgr now params = Throw e.
Proof.
  intros Hname Hroute Hsend. unfold McpHub.callToolHandler.
  now rewrite Hname, Hroute, Hsend.
Qed.

End RoutingFacts.

(** C3.  Upstreams [a] and [a_] are both accepted names.  The tool [x] of
    [a_] is registered as [a____x]; [a_] is not connected and [a] is.  The
    claim asks for the not-found error; [McpHub] and [McpHubServer], which
    look the connector up under the record's server name, fail that way,
    but [RequestRouter.routeToolCall] looks it up under the name parsed
    from the prefixed id, which is [a], and the call is forwarded to [a]
    as the tool [_x]. *)
Theorem C3_router_routes_to_parsed_name :
  let registry := Sample.registryOfA_ in
  let mgr := Sample.manager [("a", Sample.answering "answered by a");
                             ("a_", Sample.down)] in
  (ConfigLoader.validName "a" /\ ConfigLoader.validName "a_")
  /\ (exists tool, ToolRegistry.getTool "a____x" registry = Some tool
                   /\ RegisteredTool.serverName tool = "a_"
                   /\ UpstreamManager.unavailable
                        (RegisteredTool.serverName tool) mgr)
  /\ RequestRouter.handleToolCall registry mgr (Sample.callRequest 7 "a____x")
     = ({| MCPResponse.id := JNum 7;
           MCPResponse.result := Some (JStr "answered by a");
           MCPResponse.error := None |},
        [Log_routing "a____x" "a" "_x"])
  /\ fst (RequestRouter.handleToolCall registry mgr
            (Sample.callRequest 7 "a____x"))
     <> RequestRouter.errorResponse (JNum 7) (-32601)
          "Tool not found or server unavailable: a____x"
  /\ McpHub.callToolHandler registry mgr 0 (Sample.callParams "a____x")
     = Throw (ErrorObj "Tool not found or server unavailable: a____x")
  /\ (forall stringify random,
        McpHubServer.callToolHandler stringify registry mgr random
          (Sample.callParams "a____x")
        = Throw (ErrorObj "Tool not found or server unavailable: a____x")).
Proof.
  intros registry mgr.
  split; [split; reflexivity|].
  split; [eexists; repeat split; reflexivity|].
  split; [reflexivity|].
  split; [discriminate|].
  split; [reflexivity | intros; reflexivity].
Qed.

(** C4.  The tool [calc___add] is registered and [calc] is connected
    through a connector built on the SDK client, the only kind that
    [createConnector] builds; the upstream request fails (here: it times
    out).  The connector does not reject: it answers with an error
    response.  The claim asks for the result
    [{isError: true, content: [{type: "text", text: "Upstream error: ..."}]}].
    The handler of [McpHub] in main.ts throws an [Error] with the
    failure's message instead, and the handler of [McpHubServer], whose
    [catch] would build that result, never reaches it: it returns a text
    result holding [JSON.stringify(undefined)], without [isError] and
    without the message. *)
Theorem C4_upstream_failure_is_no_error_result :
  let registry := Sample.registryOfCalc in
  let mgr := Fixture.calcRefusing in
  let params := Sample.callParams "calc___add" in
  (exists c, UpstreamManager.getConnector "calc" mgr = Some c
             /\ Connector.isConnected c = true
             /\ forall request,
                  Connector.sendMessage c request
                  = Return {| MCPResponse.id := MCPRequest.id request;
                              MCPResponse.result := None;
                              MCPResponse.error :=
                                Some {| RpcError.code := -32001;
                                        RpcError.message :=
                                          "Request timed out" |} |})
  /\ (forall now,
        McpHub.callToolHandler registry mgr now params
        = Throw (ErrorObj "Request timed out"))
  /\ (forall stringify random,
        McpHubServer.callToolHandler stringify registry mgr random params
        = Return (Some (JObj [("content",
                               JArr [McpHubServer.textContent
                                       (stringify None)])])))
  /\ (forall stringify random,
        McpHubServer.callToolHandler stringify registry mgr random params
        <> Return (Some (JObj [("isError", JBool true);
                               ("content",
                                JArr [JObj [("type", JStr "text");
                                            ("text", JStr "Upstream error: Request timed out")]])]))).
Proof.
  intros registry mgr params.
  split; [eexists; repeat split; reflexivity|].
  split; [intros; reflexivity|].
  split; [intros; reflexivity|].
  intros stringify random. discriminate.
Qed.

(** ** The session layer *)

Section SessionFacts.

Local Open Scope string_scope.
Import McpHub.

Lemma set_set_same {V : Type} (k : string) (v : V) (m : JsMap.t V) :
  JsMap.set k v (JsMap.set k v m) = JsMap.set k v m.
Proof.
  induction m as [|[k' v'] m IH]; simpl.
  - now rewrite String.eqb_refl.
  - destruct (String.eqb k k') eqn:E; simpl.
    + now rewrite String.eqb_refl.
    + now rewrite E, IH.
Qed.

(** A request without a session id starts a session. *)
Lemma handleMcp_no_session_id (random : string) (now : Z)
    (req : HttpRequest.t) (st : Sessions.t) :
  noSessionId (HttpRequest.sessionHeader req) = true ->
  handleMcp random now req st
    = ({| Sessions.activeConnections :=
            JsMap.set random
              {| Session.instance := Sessions.instances st;
                 Session.lastActivity := now |}
              (Sessions.activeConnections st);
          Sessions.instances := S (Sessions.instances st) |},
       {| HttpResponse.sessionHeader := Some random;
          HttpResponse.handling :=
            Dispatched random (Sessions.instances st) |}).
Proof.
  intros Hno. unfold handleMcp. rewrite Hno. simpl.
  now rewrite get_set_eq, set_set_same.
Qed.

(** A request that carries a session id never starts a session. *)
Lemma handleMcp_with_session_id (random : string) (now : Z)
    (req : HttpRequest.t) (st : Sessions.t) (sid : string) :
  HttpRequest.sessionHeader req = Some sid -> sid <> "" ->
  handleMcp random now req st =
    match JsMap.get sid (Sessions.activeConnections st) with
    | None =>
        (st, {| HttpResponse.sessionHeader := None;
                HttpResponse.handling :=
                  Rejected 400 (-32602) ("Invalid session ID: " ++ sid) |})
    | Some connection =>
        ({| Sessions.activeConnections :=
              JsMap.set sid
                {| Session.instance := Session.instance connection;
                   Session.lastActivity := now |}
                (Sessions.activeConnections st);
            Sessions.instances := Sessions.instances st |},
         {| HttpResponse.sessionHeader := None;
            HttpResponse.handling :=
              Dispatched sid (Session.instance connection) |})
    end.
Proof.
  intros Hhdr Hsid. unfold handleMcp, isInitializeRequest.
  rewrite Hhdr. simpl. rewrite (falsy_false sid Hsid).
  destruct (HttpRequest.method req); reflexivity.
Qed.

End SessionFacts.

(** What [serveMcp] does with a request that the middleware lets
    through, and with one it answers itself. *)
Lemma serveMcp_routed (cors : bool) (random : string) (now : Z)
    (req : McpHub.HttpRequest.t) (st : McpHub.Sessions.t) :
  McpHub.answeredByCors cors req = false ->
  McpHub.serveMcp cors random now req st
    = (fst (McpHub.handleMcp random now req st),
       {| McpHub.Served.corsHeaders := cors;
          McpHub.Served.answer :=
            McpHub.Routed (snd (McpHub.handleMcp random now req st)) |}).
Proof. intros H. unfold McpHub.serveMcp. now rewrite H. Qed.

Lemma serveMcp_preflight (cors : bool) (random : string) (now : Z)
    (req : McpHub.HttpRequest.t) (st : McpHub.Sessions.t) :
  McpHub.answeredByCors cors req = true ->
  McpHub.serveMcp cors random now req st
    = (st, {| McpHub.Served.corsHeaders := true;
              McpHub.Served.answer := McpHub.SentStatus 200 |}).
Proof. intros H. unfold McpHub.serveMcp. now rewrite H. Qed.

Lemma post_is_routed (cors : bool) (req : McpHub.HttpRequest.t) :
  McpHub.HttpRequest.method req = McpHub.POST ->
  McpHub.answeredByCors cors req = false.
Proof.
  intros H. unfold McpHub.answeredByCors. rewrite H. apply andb_false_r.
Qed.

(** C5 (as amended).  A non-initialize [POST /mcp], with CORS on or off,
    whose session id is not in the session table is answered with status
    400 and the JSON-RPC error -32602, and the table is left as it is.
    A non-initialize [POST /mcp] without a session id is not answered
    with that error: a session is created under the generated id, the id
    is returned in the [mcp-session-id] header and the request is passed
    to the transport of the new session. *)
Theorem C5_unknown_session_id_rejected
    (cors : bool) (random : string) (now : Z) (req : McpHub.HttpRequest.t)
    (st : McpHub.Sessions.t) :
  McpHub.HttpRequest.method req = McpHub.POST ->
  McpHub.HttpRequest.isInitialize req = false ->
  (forall sid,
      McpHub.HttpRequest.sessionHeader req = Some sid -> sid <> ""%string ->
      JsMap.get sid (McpHub.Sessions.activeConnections st) = None ->
      McpHub.serveMcp cors random now req st
        = (st, {| McpHub.Served.corsHeaders := cors;
                  McpHub.Served.answer :=
                    McpHub.Routed
                      {| McpHub.HttpResponse.sessionHeader := None;
                         McpHub.HttpResponse.handling :=
                           McpHub.Rejected 400 (-32602)
                             ("Invalid session ID: " ++ sid)%string |} |}))
  /\ (McpHub.noSessionId (McpHub.HttpRequest.sessionHeader req) = true ->
      let st' := fst (McpHub.serveMcp cors random now req st) in
      JsMap.get random (McpHub.Sessions.activeConnections st')
        = Some {| McpHub.Session.instance := McpHub.Sessions.instances st;
                  McpHub.Session.lastActivity := now |}
      /\ McpHub.Sessions.instances st' = S (McpHub.Sessions.instances st)
      /\ McpHub.Served.answer (snd (McpHub.serveMcp cors random now req st))
         = McpHub.Routed
             {| McpHub.HttpResponse.sessionHeader := Some random;
                McpHub.HttpResponse.handling :=
                  McpHub.Dispatched random (McpHub.Sessions.instances st) |}).
Proof.
  intros Hpost _.
  rewrite (serveMcp_routed cors random now req st (post_is_routed cors req Hpost)).
  split.
  - intros sid Hhdr Hsid Hget.
    now rewrite (handleMcp_with_session_id random now req st sid Hhdr Hsid), Hget.
  - intros Hno st'. subst st'.
    rewrite (handleMcp_no_session_id random now req st Hno). simpl.
    now rewrite get_set_eq.
Qed.

Lemma C5_unknown_session_id_rejected_witness :
  McpHub.serveMcp true "k3x9" 9 (Sample.post (Some "gone") false)
    Sample.oneSession
    = (Sample.oneSession,
       {| McpHub.Served.corsHeaders := true;
          McpHub.Served.answer :=
            McpHub.Routed
              {| McpHub.HttpResponse.sessionHeader := None;
                 McpHub.HttpResponse.handling :=
                   McpHub.Rejected 400 (-32602) "Invalid session ID: gone" |} |})
  /\ JsMap.get "k3x9"
       (McpHub.Sessions.activeConnections
          (fst (McpHub.serveMcp true "k3x9" 9 (Sample.post None false)
                  Sample.oneSession)))
     = Some {| McpHub.Session.instance := 1; McpHub.Session.lastActivity := 9 |}.
Proof.
  destruct (C5_unknown_session_id_rejected true "k3x9" 9
              (Sample.post (Some "gone") false) Sample.oneSession
              eq_refl eq_refl) as [H _].
  destruct (C5_unknown_session_id_rejected true "k3x9" 9
              (Sample.post None false) Sample.oneSession
              eq_refl eq_refl) as [_ H'].
  split.
  - apply (H "gone"); [reflexivity | discriminate | reflexivity].
  - apply H'. reflexivity.
Defined.

(** C5 as stated fails: a non-initialize POST without a session id on an
    empty table is not answered with an error, and a session is
    created. *)
Lemma C5_missing_session_id_counterexample :
  McpHub.serveMcp true "k3x9" 9 (Sample.post None false) Sample.noSessions
    = ({| McpHub.Sessions.activeConnections :=
            [("k3x9"%string, {| McpHub.Session.instance := 0;
                         McpHub.Session.lastActivity := 9 |})];
          McpHub.Sessions.instances := 1 |},
       {| McpHub.Served.corsHeaders := true;
          McpHub.Served.answer :=
            McpHub.Routed
              {| McpHub.HttpResponse.sessionHeader := Some "k3x9"%string;
                 McpHub.HttpResponse.handling := McpHub.Dispatched "k3x9" 0 |} |}).
Proof. reflexivity. Qed.

(** C6.  The first half of the claim holds: an initialize [POST /mcp]
    without a session id, with CORS on or off, creates a session under the
    generated id and returns that id in the [mcp-session-id] header.  The
    second half fails.  The table holds the session [abc]; an initialize
    [POST /mcp] carrying [abc] should, by the claim and by the comment in
    the handler ("no session ID or initialize request"), start a new
    session.  [isInitializeRequest] never reads the body and answers
    false for every request that carries a session id, so the request is
    passed to the transport of [abc] (instance 0): no instance is
    created, the table keeps its one key and no id is returned. *)
Theorem C6_initialize_with_session_id_reuses_session :
  let req := Sample.post (Some "abc") true in
  (forall cors random now st,
      McpHub.serveMcp cors random now (Sample.post None true) st
      = ({| McpHub.Sessions.activeConnections :=
              JsMap.set random
                {| McpHub.Session.instance := McpHub.Sessions.instances st;
                   McpHub.Session.lastActivity := now |}
                (McpHub.Sessions.activeConnections st);
            McpHub.Sessions.instances := S (McpHub.Sessions.instances st) |},
         {| McpHub.Served.corsHeaders := cors;
            McpHub.Served.answer :=
              McpHub.Routed
                {| McpHub.HttpResponse.sessionHeader := Some random;
                   McpHub.HttpResponse.handling :=
                     McpHub.Dispatched random (McpHub.Sessions.instances st) |} |}))
  /\ McpHub.HttpRequest.isInitialize req = true
  /\ McpHub.isInitializeRequest req = false
  /\ JsMap.get "abc" (McpHub.Sessions.activeConnections Sample.oneSession)
     = Some {| McpHub.Session.instance := 0; McpHub.Session.lastActivity := 5 |}
  /\ (forall cors,
        McpHub.serveMcp cors "k3x9" 9 req Sample.oneSession
        = ({| McpHub.Sessions.activeConnections :=
                [("abc"%string, {| McpHub.Session.instance := 0;
                            McpHub.Session.lastActivity := 9 |})];
              McpHub.Sessions.instances := 1 |},
           {| McpHub.Served.corsHeaders := cors;
              McpHub.Served.answer :=
                McpHub.Routed
                  {| McpHub.HttpResponse.sessionHeader := None;
                     McpHub.HttpResponse.handling :=
                       McpHub.Dispatched "abc" 0 |} |})).
Proof.
  intros req. split.
  - intros cors random now st.
    rewrite (serveMcp_routed cors random now (Sample.post None true) st
               (post_is_routed cors (Sample.post None true) eq_refl)).
    now rewrite (handleMcp_no_session_id random now (Sample.post None true) st
                   eq_refl).
  - repeat split. intros cors.
    now rewrite (serveMcp_routed cors _ _ req _ (post_is_routed cors req eq_refl)).
Qed.

(** ** Capability discovery *)

(** C7.  [discoverCapabilities] sends [tools/list], [resources/list] and
    [prompts/list] and always returns, and its last console line gives
    the three counts.  A category fails when its request is rejected or
    is answered without a result (which is how a connector built on the
    SDK client reports a failed request).  When one category fails and
    the other two are answered with their lists, the failed category is
    empty and the other two hold one entry per listed item, in order:
    a tool with its name and description, its title (the name when it
    has none) and its schema normalised, a resource as listed, a prompt
    with its name and description and its arguments (none when it lists
    none). *)
Theorem C7_discovery_isolates_failures
    (name : string) (messageId : nat) (send : BaseConnector.Send) :
  let toolsRequest :=
    {| ListRequest.id := messageId + 1; ListRequest.method := "tools/list" |} in
  let resourcesRequest :=
    {| ListRequest.id := messageId + 2; ListRequest.method := "resources/list" |} in
  let promptsRequest :=
    {| ListRequest.id := messageId + 3; ListRequest.method := "prompts/list" |} in
  let found := fst (fst (BaseConnector.discoverCapabilities name messageId send)) in
  let fails (request : ListRequest.t) :=
    (exists e, send request = Throw e) \/ send request = Return None in
  let lists (request : ListRequest.t) (result : ListResult) :=
    send request = Return (Some result) in
  let given (value : option Json) (otherwise : Json) :=
    match value with
    | Some v => if truthy v then v else otherwise
    | None => otherwise
    end in
  let tool (raw : RawTool.t) :=
    {| MCPTool.name := RawTool.name raw;
       MCPTool.title :=
         Some (match RawTool.title raw with
               | Some title => if String.eqb title "" then RawTool.name raw
                               else title
               | None => RawTool.name raw
               end);
       MCPTool.description := RawTool.description raw;
       MCPTool.parameters :=
         match RawTool.inputSchema raw with
         | Some schema =>
             JObj [("type", JStr "object");
                   ("properties", given (RawSchema.properties schema) (JObj []));
                   ("required", given (RawSchema.required schema) (JArr []))]
         | None =>
             given (RawTool.parameters raw)
               (JObj [("type", JStr "object"); ("properties", JObj []);
                      ("required", JArr [])])
         end |} in
  let prompt (raw : RawPrompt.t) :=
    {| MCPPrompt.name := RawPrompt.name raw;
       MCPPrompt.description := RawPrompt.description raw;
       MCPPrompt.arguments := given (RawPrompt.arguments raw) (JArr []) |} in
  (forall resources prompts,
      fails toolsRequest ->
      lists resourcesRequest (ResourcesList (Some resources)) ->
      lists promptsRequest (PromptsList (Some prompts)) ->
      Discovery.tools found = []
      /\ Discovery.resources found = resources
      /\ Discovery.prompts found = map prompt prompts)
  /\ (forall tools prompts,
        lists toolsRequest (ToolsList (Some tools)) ->
        fails resourcesRequest ->
        lists promptsRequest (PromptsList (Some prompts)) ->
        Discovery.tools found = map tool tools
        /\ Discovery.resources found = []
        /\ Discovery.prompts found = map prompt prompts)
  /\ (forall tools resources,
        lists toolsRequest (ToolsList (Some tools)) ->
        lists resourcesRequest (ResourcesList (Some resources)) ->
        fails promptsRequest ->
        Discovery.tools found = map tool tools
        /\ Discovery.resources found = resources
        /\ Discovery.prompts found = [])
  /\ last (snd (BaseConnector.discoverCapabilities name messageId send))
          (Log_discovering name)
     = Log_discovered (length (Discovery.tools found))
         (length (Discovery.resources found))
         (length (Discovery.prompts found)) name.
Proof.
  intros toolsRequest resourcesRequest promptsRequest found fails lists
    given tool prompt.
  assert (Ht : forall tools,
             map BaseConnector.normalizeTool tools = map tool tools).
  { intros tools. apply map_ext. intros raw.
    unfold BaseConnector.normalizeTool, tool, given, orElse,
      BaseConnector.defaultParameters, JsString.falsy.
    destruct (RawTool.inputSchema raw), (RawTool.parameters raw); reflexivity. }
  assert (Hp : forall prompts,
             map BaseConnector.normalizePrompt prompts = map prompt prompts).
  { intros prompts. apply map_ext. intros raw. reflexivity. }
  subst found fails lists.
  unfold BaseConnector.discoverCapabilities, BaseConnector.discoverTools,
    BaseConnector.discoverResources, BaseConnector.discoverPrompts.
  fold toolsRequest resourcesRequest promptsRequest.
  split; [|split; [|split]].
  - intros resources prompts [[e H1]|H1] H2 H3; rewrite H1, H2, H3; simpl;
      rewrite Hp; repeat split.
  - intros tools prompts H1 [[e H2]|H2] H3; rewrite H1, H2, H3; simpl;
      rewrite Ht, Hp; repeat split.
  - intros tools resources H1 H2 [[e H3]|H3]; rewrite H1, H2, H3; simpl;
      rewrite Ht; repeat split.
  - destruct (send toolsRequest), (send resourcesRequest),
      (send promptsRequest); reflexivity.
Qed.

Lemma C7_discovery_isolates_failures_witness :
  let add :=
    {| MCPTool.name := "add"; MCPTool.title := Some "add"%string;
       MCPTool.description := "adds";
       MCPTool.parameters :=
         JObj [("type", JStr "object");
               ("properties", JObj [("a", JObj []); ("b", JObj [])]);
               ("required", JArr [JStr "a"; JStr "b"])] |} in
  let summarise :=
    {| MCPPrompt.name := "summarise";
       MCPPrompt.description := Some "summarises a note"%string;
       MCPPrompt.arguments := JArr [] |} in
  fst (fst (BaseConnector.discoverCapabilities "calc" 0
              (Fixture.without "tools/list")))
    = {| Discovery.tools := []; Discovery.resources := [Sample.readme];
         Discovery.prompts := [summarise] |}
  /\ fst (fst (BaseConnector.discoverCapabilities "calc" 0
                 (Fixture.without "resources/list")))
     = {| Discovery.tools := [add]; Discovery.resources := [];
          Discovery.prompts := [summarise] |}
  /\ fst (fst (BaseConnector.discoverCapabilities "calc" 0
                 (Fixture.without "prompts/list")))
     = {| Discovery.tools := [add]; Discovery.resources := [Sample.readme];
          Discovery.prompts := [] |}.
Proof.
  intros add summarise.
  destruct (C7_discovery_isolates_failures "calc" 0
              (Fixture.without "tools/list")) as (H1 & _).
  destruct (C7_discovery_isolates_failures "calc" 0
              (Fixture.without "resources/list")) as (_ & H2 & _).
  destruct (C7_discovery_isolates_failures "calc" 0
              (Fixture.without "prompts/list")) as (_ & _ & H3 & _).
  destruct (H1 [Sample.readme] [Sample.rawSummarise]
              (or_intror eq_refl) eq_refl eq_refl) as (T1 & R1 & P1).
  destruct (H2 [Sample.rawAdd] [Sample.rawSummarise]
              eq_refl (or_intror eq_refl) eq_refl) as (T2 & R2 & P2).
  destruct (H3 [Sample.rawAdd] [Sample.readme]
              eq_refl eq_refl (or_intror eq_refl)) as (T3 & R3 & P3).
  split; [|split].
  - destruct (fst (fst (BaseConnector.discoverCapabilities "calc" 0
                          (Fixture.without "tools/list")))) as [t r p].
    simpl in *. now rewrite T1, R1, P1.
  - destruct (fst (fst (BaseConnector.discoverCapabilities "calc" 0
                          (Fixture.without "resources/list")))) as [t r p].
    simpl in *. now rewrite T2, R2, P2.
  - destruct (fst (fst (BaseConnector.discoverCapabilities "calc" 0
                          (Fixture.without "prompts/list")))) as [t r p].
    simpl in *. now rewrite T3, R3, P3.
Defined.

(** ** Reconnection timers *)

Section ReconnectFacts.

Import UpstreamManager.
Variable retryDelay : Z.

(** Dropping armed timers keeps the remaining handles distinct. *)
Lemma handles_distinct_filter (keep : nat * string -> bool)
    (armed : list (nat * string)) :
  NoDup (map fst armed) -> NoDup (map fst (filter keep armed)).
Proof.
  induction armed as [|[h n] armed IH]; intros Hnd; simpl in *;
    [constructor|].
  apply NoDup_cons_iff in Hnd as [Hfresh Hrest].
  destruct (keep (h, n)); simpl; [|exact (IH Hrest)].
  apply NoDup_cons_iff. split; [|exact (IH Hrest)].
  intros Hin. apply Hfresh.
  apply in_map_iff in Hin as ([h' n'] & E & Hin). simpl in E. subst h'.
  apply filter_In in Hin as [Hin _].
  change h with (fst (h, n')). now apply in_map.
Qed.

Lemma In_clearTimeout (h h' : nat) (n : string) (timers : Timers.t) :
  In (h', n) (Timers.armed (clearTimeout h timers))
  <-> In (h', n) (Timers.armed timers) /\ h' <> h.
Proof.
  unfold clearTimeout. simpl. rewrite filter_In. simpl.
  rewrite negb_true_iff, Nat.eqb_neq. reflexivity.
Qed.

(** Clearing the timer recorded for [name] and deleting the record keeps
    the invariant; this is what firing and cancelling have in common. *)
Lemma timersRecorded_drop (w : World.t) (h : nat) (name : string)
    (console : list Console) (calls : list string) :
  timersRecorded w ->
  JsMap.get name (reconnectTimeouts (World.manager w)) = Some h ->
  timersRecorded
    {| World.manager :=
         withTimeouts (JsMap.delete name (reconnectTimeouts (World.manager w)))
                      (World.manager w);
       World.timers := clearTimeout h (World.timers w);
       World.console := console;
       World.connectCalls := calls |}.
Proof.
  intros (Hlt & Hnd & Hrec) Hget. unfold timersRecorded. simpl.
  split; [|split].
  - intros h' n Hin. apply filter_In in Hin as [Hin _]. exact (Hlt h' n Hin).
  - now apply handles_distinct_filter.
  - intros h' n Hin.
    apply filter_In in Hin as [Hin Hne]. simpl in Hne.
    apply negb_true_iff, Nat.eqb_neq in Hne.
    rewrite get_delete.
    destruct (String.eqb_spec name n) as [->|_]; [|exact (Hrec h' n Hin)].
    specialize (Hrec h' n Hin). rewrite Hget in Hrec.
    injection Hrec as ->. contradiction.
Qed.

Lemma find_armed (h : nat) (armed : list (nat * string)) (h' : nat)
    (name : string) :
  find (fun timer => Nat.eqb (fst timer) h) armed = Some (h', name) ->
  h' = h /\ In (h, name) armed.
Proof.
  intros Hfind. apply find_some in Hfind as [Hin Heq]. simpl in Heq.
  apply Nat.eqb_eq in Heq. subst h'. now split.
Qed.

Lemma fold_clearTimeout_armed (hs : list nat) (timers : Timers.t) (h : nat)
    (n : string) :
  In (h, n) (Timers.armed
               (fold_left (fun t timeout => clearTimeout timeout t) hs timers))
  -> In (h, n) (Timers.armed timers) /\ ~ In h hs.
Proof.
  revert timers. induction hs as [|h0 hs IH]; intros timers Hin; simpl in *.
  - split; [exact Hin | tauto].
  - apply IH in Hin as [Hin Hnot].
    apply In_clearTimeout in Hin as [Hin Hne].
    split; [exact Hin|]. intros [E|E]; [now apply Hne | now apply Hnot].
Qed.

Lemma fold_clearTimeout_sub (hs : list nat) (timers : Timers.t) :
  Timers.nextHandle
    (fold_left (fun t timeout => clearTimeout timeout t) hs timers)
    = Timers.nextHandle timers
  /\ (NoDup (map fst (Timers.armed timers)) ->
      NoDup (map fst (Timers.armed
               (fold_left (fun t timeout => clearTimeout timeout t) hs timers)))).
Proof.
  revert timers. induction hs as [|h0 hs IH]; intros timers; simpl.
  - split; [reflexivity | auto].
  - destruct (IH (clearTimeout h0 timers)) as [Hn Hd]. split.
    + exact Hn.
    + intros Hnd. apply Hd. simpl. now apply handles_distinct_filter.
Qed.

Lemma timersRecorded_step (w : World.t) (a : Action) :
  timersRecorded w -> timersRecorded (step retryDelay w a).
Proof.
  intros Hinv. pose proof Hinv as (Hlt & Hnd & Hrec).
  destruct a as [name | handle | name | name | name c cfg | ]; simpl.
  - (* scheduleReconnection *)
    unfold scheduleReconnection.
    destruct (JsMap.has name (reconnectTimeouts (World.manager w))) eqn:Hhas;
      [exact Hinv|].
    apply has_false_get in Hhas.
    unfold timersRecorded. simpl. split; [|split].
    + intros h n Hin. apply in_app_or in Hin as [Hin|[[= <- <-]|[]]].
      * specialize (Hlt h n Hin). lia.
      * lia.
    + rewrite map_app. simpl. apply NoDup_app.
      * exact Hnd.
      * constructor; [intros [] | constructor].
      * intros h Hin [<-|[]]. apply in_map_iff in Hin as ([h' n] & E & Hin).
        simpl in E. subst h'. specialize (Hlt _ n Hin). lia.
    + intros h n Hin. apply in_app_or in Hin as [Hin|[[= <- <-]|[]]].
      * specialize (Hrec h n Hin).
        destruct (String.eqb_spec name n) as [->|Hne];
          [rewrite Hhas in Hrec; discriminate|].
        now rewrite (get_set_ne _ _ _ _ Hne).
      * apply get_set_eq.
  - (* a timer fires *)
    unfold fire.
    destruct (find _ (Timers.armed (World.timers w))) as [[h' name]|] eqn:Hfind;
      [|exact Hinv].
    apply find_armed in Hfind as [-> Hin].
    pose proof (timersRecorded_drop w handle name (World.console w)
                  (World.connectCalls w) Hinv (Hrec _ _ Hin)) as Hdrop.
    unfold reconnectCallback. simpl.
    destruct (negb _ || negb _); exact Hdrop.
  - (* clearTimeout in removeServer / disconnectServer *)
    unfold clearReconnectTimeout.
    destruct (JsMap.get name (reconnectTimeouts (World.manager w))) eqn:Hget;
      [|exact Hinv].
    now apply timersRecorded_drop.
  - exact Hinv.
  - unfold storeServer.
    destruct (JsMap.has name (connectors (World.manager w))); exact Hinv.
  - (* shutdown *)
    unfold clearAllTimeouts, timersRecorded. simpl.
    destruct (fold_clearTimeout_sub
                (JsMap.values (reconnectTimeouts (World.manager w)))
                (World.timers w)) as [Hnext Hdup].
    assert (Hnone : forall h n,
               ~ In (h, n)
                   (Timers.armed
                      (fold_left (fun t timeout => clearTimeout timeout t)
                         (JsMap.values (reconnectTimeouts (World.manager w)))
                         (World.timers w)))).
    { intros h n Hin. apply fold_clearTimeout_armed in Hin as [Hin Hnot].
      apply Hnot. specialize (Hrec h n Hin). apply get_In in Hrec.
      unfold JsMap.values. change h with (snd (n, h)). now apply in_map. }
    split; [|split].
    + intros h n Hin. now apply Hnone in Hin.
    + now apply Hdup.
    + intros h n Hin. now apply Hnone in Hin.
Qed.

Lemma timersRecorded_run (actions : list Action) :
  timersRecorded (run retryDelay actions).
Proof.
  unfold run.
  assert (G : forall w, timersRecorded w ->
                        timersRecorded (fold_left (step retryDelay) actions w)).
  { induction actions as [|a actions IH]; intros w Hw; simpl; [exact Hw|].
    apply IH. now apply timersRecorded_step. }
  apply G. unfold timersRecorded, initial. simpl.
  split; [intros h n [] | split; [constructor | intros h n []]].
Qed.

Lemma recorded_elsewhere (timeouts : JsMap.t nat) (name : string) (h : nat)
    (armed : list (nat * string)) :
  JsMap.get name timeouts = Some h ->
  ~ In h (map fst armed) ->
  (forall h' n', In (h', n') armed -> JsMap.get n' timeouts = Some h') ->
  filter (fun timer => String.eqb (snd timer) name) armed = [].
Proof.
  intros Hget. induction armed as [|[h' n'] armed IH]; intros Hnotin Hrec;
    simpl; [reflexivity|].
  destruct (String.eqb_spec n' name) as [->|Hne].
  - exfalso. apply Hnotin. left. simpl.
    pose proof (Hrec h' name (or_introl eq_refl)) as E.
    rewrite Hget in E. now injection E.
  - apply IH.
    + intros Hin. apply Hnotin. now right.
    + intros a b Hin. apply Hrec. now right.
Qed.

Lemma recorded_at_most_one (timeouts : JsMap.t nat) (name : string)
    (armed : list (nat * string)) :
  NoDup (map fst armed) ->
  (forall h n, In (h, n) armed -> JsMap.get n timeouts = Some h) ->
  length (filter (fun timer => String.eqb (snd timer) name) armed) <= 1.
Proof.
  induction armed as [|[h n] armed IH]; intros Hnd Hrec; simpl; [lia|].
  simpl in Hnd. inversion Hnd as [|? ? Hnotin Hnd']; subst.
  assert (Hrec' : forall h' n', In (h', n') armed ->
                                JsMap.get n' timeouts = Some h')
    by (intros h' n' Hin; apply Hrec; now right).
  destruct (String.eqb_spec n name) as [->|Hne]; [|now apply IH].
  rewrite (recorded_elsewhere timeouts name h armed
             (Hrec h name (or_introl eq_refl)) Hnotin Hrec').
  simpl. lia.
Qed.

Lemma timersRecorded_pending (w : World.t) (name : string) :
  timersRecorded w -> length (pendingFor name w) <= 1.
Proof.
  intros (_ & Hnd & Hrec). unfold pendingFor.
  now apply (recorded_at_most_one (reconnectTimeouts (World.manager w))).
Qed.

End ReconnectFacts.

(** C8.  At most one reconnect timer is pending per upstream, whatever
    the manager went through since it was constructed; scheduling a
    reconnection for an upstream that has a timer pending (equally: a
    timeout recorded) changes nothing; and a timer that fires for an upstream that is no longer in
    the manager's tables clears its record, writes the "skipping
    reconnection" line and does not call [connectServer], which it does
    call when the upstream is still there. *)
Theorem C8_single_reconnect_timer (retryDelay : Z) :
  (forall actions name,
      length (UpstreamManager.pendingFor name
                (UpstreamManager.run retryDelay actions)) <= 1)
  /\ (forall actions name,
        let w := UpstreamManager.run retryDelay actions in
        UpstreamManager.pendingFor name w <> [] ->
        UpstreamManager.scheduleReconnection retryDelay name w = w)
  /\ (forall w name,
        JsMap.has name
          (UpstreamManager.reconnectTimeouts (UpstreamManager.World.manager w))
          = true ->
        UpstreamManager.scheduleReconnection retryDelay name w = w)
  /\ (forall w handle h name,
        find (fun timer => Nat.eqb (fst timer) handle)
             (UpstreamManager.Timers.armed (UpstreamManager.World.timers w))
          = Some (h, name) ->
        JsMap.has name
          (UpstreamManager.connectors (UpstreamManager.World.manager w)) = false
        \/ JsMap.has name
             (UpstreamManager.connections (UpstreamManager.World.manager w))
           = false ->
        UpstreamManager.fire handle w
          = {| UpstreamManager.World.manager :=
                 UpstreamManager.withTimeouts
                   (JsMap.delete name
                      (UpstreamManager.reconnectTimeouts
                         (UpstreamManager.World.manager w)))
                   (UpstreamManager.World.manager w);
               UpstreamManager.World.timers :=
                 UpstreamManager.clearTimeout handle
                   (UpstreamManager.World.timers w);
               UpstreamManager.World.console :=
                 UpstreamManager.World.console w
                 ++ [Log_skipping_reconnection name];
               UpstreamManager.World.connectCalls :=
                 UpstreamManager.World.connectCalls w |})
  /\ (forall w handle h name,
        find (fun timer => Nat.eqb (fst timer) handle)
             (UpstreamManager.Timers.armed (UpstreamManager.World.timers w))
          = Some (h, name) ->
        JsMap.has name
          (UpstreamManager.connectors (UpstreamManager.World.manager w)) = true ->
        JsMap.has name
          (UpstreamManager.connections (UpstreamManager.World.manager w)) = true ->
        UpstreamManager.World.connectCalls (UpstreamManager.fire handle w)
          = UpstreamManager.World.connectCalls w ++ [name]).
Proof.
  split; [|split; [|split; [|split]]].
  - intros actions name.
    apply timersRecorded_pending, timersRecorded_run.
  - intros actions name w Hpending.
    destruct (timersRecorded_run retryDelay actions) as (_ & _ & Hrec).
    fold w in Hrec. unfold UpstreamManager.pendingFor in Hpending.
    destruct (filter _ _) as [|[h n] rest] eqn:Hf; [contradiction|].
    assert (Hin : In (h, n) (filter (fun timer => String.eqb (snd timer) name)
                               (UpstreamManager.Timers.armed
                                  (UpstreamManager.World.timers w))))
      by (rewrite Hf; now left).
    apply filter_In in Hin as [Hin Hn]. simpl in Hn.
    apply String.eqb_eq in Hn. subst n.
    unfold UpstreamManager.scheduleReconnection, JsMap.has.
    now rewrite (Hrec h name Hin).
  - intros w name Hhas. unfold UpstreamManager.scheduleReconnection.
    now rewrite Hhas.
  - intros w handle h name Hfind Hgone.
    unfold UpstreamManager.fire, UpstreamManager.reconnectCallback.
    rewrite Hfind. simpl.
    destruct Hgone as [-> | ->]; simpl; [reflexivity|].
    now rewrite orb_true_r.
  - intros w handle h name Hfind Hc Hn.
    unfold UpstreamManager.fire, UpstreamManager.reconnectCallback.
    rewrite Hfind. simpl. now rewrite Hc, Hn.
Qed.

Lemma C8_single_reconnect_timer_witness :
  UpstreamManager.scheduleReconnection 2000 "calc" Sample.calcScheduled
    = Sample.calcScheduled
  /\ UpstreamManager.World.connectCalls
       (UpstreamManager.fire 0 Sample.calcRemoved) = []
  /\ UpstreamManager.World.console
       (UpstreamManager.fire 0 Sample.calcRemoved)
     = [Log_scheduling "calc" 2000; Log_skipping_reconnection "calc"]
  /\ UpstreamManager.World.connectCalls
       (UpstreamManager.fire 0 Sample.calcScheduled) = ["calc"%string].
Proof.
  destruct (C8_single_reconnect_timer 2000)
    as (_ & Hnoop & _ & Hskip & Hcall).
  split.
  { apply (Hnoop [UpstreamManager.Store "calc"%string Sample.down
                    Sample.calcConnection;
                  UpstreamManager.Schedule "calc"%string] "calc"%string).
    discriminate. }
  rewrite (Hskip Sample.calcRemoved 0 0 "calc"%string eq_refl
             (or_introl eq_refl)).
  split; [reflexivity|]. split; [reflexivity|].
  apply (Hcall Sample.calcScheduled 0 0 "calc"%string); reflexivity.
Defined.

(** ** The prefix utility, read backwards *)

Section PrefixSoundness.

Local Open Scope string_scope.
Import JsString PrefixUtility.

Lemma startsWith_app (a b pat : string) :
  startsWith a pat = true -> startsWith (a ++ b) pat = true.
Proof.
  revert a. induction pat as [|c pat IH]; intros a H; [reflexivity|].
  destruct a as [|c' a]; [discriminate H|].
  cbn [startsWith append] in *.
  apply andb_prop in H as [H1 H2]. now rewrite H1, (IH a H2).
Qed.

Lemma startsWith_separator (p : string) :
  startsWith p "___" = true -> exists o, p = "___" ++ o.
Proof.
  destruct p as [|a [|b [|c o]]]; cbn [startsWith]; try discriminate;
    try (intros H; apply andb_prop in H as [_ H]; discriminate H);
    try (intros H; apply andb_prop in H as [_ H];
         apply andb_prop in H as [_ H]; discriminate H).
  intros H. apply andb_prop in H as [Ha H]. apply andb_prop in H as [Hb H].
  apply andb_prop in H as [Hc _].
  apply Ascii.eqb_eq in Ha, Hb, Hc. subst. now exists o.
Qed.

(** Where [indexOf] finds the separator, the text before it neither
    contains the separator nor ends in an underscore. *)
Lemma indexOf_separator_split (p : string) : forall i,
  indexOf "___" p = Some i ->
  exists s o, p = s ++ "___" ++ o
    /\ String.length s = i
    /\ indexOf "___" s = None
    /\ endsWith s "_" = false.
Proof.
  induction p as [|c p IH]; intros i H.
  - discriminate H.
  - cbn [indexOf] in H.
    destruct (startsWith (String c p) "___") eqn:Hp.
    + injection H as <-. destruct (startsWith_separator _ Hp) as [o Ho].
      exists "", o. rewrite Ho. repeat split.
    + destruct (indexOf "___" p) as [i'|] eqn:Hi; [|discriminate H].
      injection H as <-.
      destruct (IH i' eq_refl) as (s & o & -> & Hlen & Hno & Hend).
      exists (String c s), o. split; [reflexivity|]. split; [simpl; now rewrite Hlen|].
      assert (Hps : startsWith (String c s) "___" = false).
      { destruct (startsWith (String c s) "___") eqn:E; [|reflexivity].
        apply (startsWith_app _ ("___" ++ o)) in E.
        change (String c s ++ "___" ++ o) with (String c (s ++ "___" ++ o)) in E.
        congruence. }
      split.
      * cbn [indexOf]. rewrite Hps, Hno. reflexivity.
      * cbn [endsWith]. rewrite Hend, orb_false_r.
        apply String.eqb_neq. intros E. injection E as -> ->.
        discriminate Hp.
Qed.

Lemma removePrefix_Some (p s o : string) :
  removePrefix p = Some (s, o) ->
  p = addPrefix s o /\ s <> "" /\ o <> ""
  /\ indexOf "___" s = None /\ endsWith s "_" = false.
Proof.
  unfold removePrefix, SEPARATOR. intros H.
  destruct (indexOf "___" p) as [i|] eqn:Hi; [|discriminate H].
  destruct (indexOf_separator_split p i Hi) as (s' & o' & -> & <- & Hno & Hend).
  rewrite js_substring_head in H.
  replace (String.length s' + String.length "___")
    with (String.length (s' ++ "___")) in H by apply string_length_app.
  replace (s' ++ "___" ++ o') with ((s' ++ "___") ++ o') in H
    by (clear; induction s' as [|c s' IH]; simpl; [reflexivity | now rewrite IH]).
  rewrite js_substringFrom_tail in H.
  destruct (falsy s') eqn:Hs; [discriminate H|].
  destruct (falsy o') eqn:Ho; [discriminate H|].
  injection H as <- <-.
  repeat split; try assumption.
  - intros ->. discriminate Hs.
  - intros ->. discriminate Ho.
Qed.

Lemma removePrefix_None (p : string) :
  indexOf "___" p = None -> removePrefix p = None.
Proof. unfold removePrefix, SEPARATOR. now intros ->. Qed.

End PrefixSoundness.

(** ** Registries reached by calls: the two maps agree *)

#[export] Instance ToolRegisteredAs : RegisteredAs MCPTool.t RegisteredTool.t.
Proof. split; reflexivity. Qed.

#[export] Instance ResourceRegisteredAs :
  RegisteredAs MCPResource.t RegisteredResource.t.
Proof. split; reflexivity. Qed.

#[export] Instance PromptRegisteredAs :
  RegisteredAs MCPPrompt.t RegisteredPrompt.t.
Proof. split; reflexivity. Qed.

Section UniqueKeys.

Context {V : Type}.
Implicit Types (m : JsMap.t V) (k : string) (v : V).

Lemma keys_unique_filter (keep : string * V -> bool) m :
  NoDup (JsMap.keys m) -> NoDup (JsMap.keys (filter keep m)).
Proof.
  induction m as [|[k v] m IH]; intros Hm; [exact Hm|].
  inversion_clear Hm as [|? ? Hk Hm'].
  simpl. destruct (keep (k, v)); [|now apply IH].
  simpl. constructor; [|now apply IH].
  intros Hin. apply Hk. unfold JsMap.keys in *.
  apply in_map_iff in Hin as ((k', v') & E & Hin). simpl in E. subst k'.
  apply filter_In in Hin as [Hin _]. apply in_map_iff. now exists (k, v').
Qed.

Lemma In_get_unique k v m :
  NoDup (JsMap.keys m) -> In (k, v) m -> JsMap.get k m = Some v.
Proof.
  induction m as [|[k' v'] m IH]; intros Hm Hin; [contradiction|].
  inversion_clear Hm as [|? ? Hk Hm']. simpl.
  destruct Hin as [E|Hin].
  - injection E as -> ->. now rewrite String.eqb_refl.
  - destruct (String.eqb_spec k k') as [->|Hne]; [|now apply IH].
    exfalso. apply Hk. unfold JsMap.keys. apply in_map_iff. now exists (k', v).
Qed.

Lemma keys_unique_app m (added : JsMap.t V) :
  NoDup (JsMap.keys m) -> NoDup (JsMap.keys added) ->
  (forall k, In k (JsMap.keys added) -> JsMap.get k m = None) ->
  NoDup (JsMap.keys (m ++ added)).
Proof.
  intros Hm Ha Hfresh. induction m as [|[k v] m IH]; [exact Ha|].
  inversion_clear Hm as [|? ? Hk Hm']. simpl. constructor.
  - unfold JsMap.keys in *. rewrite map_app, in_app_iff. intros [Hin|Hin];
      [now apply Hk|].
    specialize (Hfresh k Hin). simpl in Hfresh.
    now rewrite String.eqb_refl in Hfresh.
  - apply IH; [exact Hm'|]. intros k' Hk'. specialize (Hfresh k' Hk').
    simpl in Hfresh. destruct (String.eqb k' k); [discriminate | exact Hfresh].
Qed.

(** Looking up, in [m], the keys of some of its bindings gives back
    their values. *)
Lemma lookup_keys_values (l : JsMap.t V) m :
  NoDup (JsMap.keys m) -> incl l m ->
  flat_map (fun name => match JsMap.get name m with
                        | Some e => [e]
                        | None => []
                        end) (JsMap.keys l)
    = JsMap.values l.
Proof.
  intros Hm. induction l as [|[k v] l IH]; intros Hl; [reflexivity|].
  simpl. rewrite (In_get_unique k v m Hm (Hl _ (or_introl eq_refl))).
  simpl. f_equal. apply IH. intros x Hx. apply Hl. now right.
Qed.

End UniqueKeys.

Section RegistryConsistency.

Context {Item Registered : Type} {C : Capability Item Registered}
        {F : RegisteredFields Registered} {L : RegisteredAs Item Registered}.
Import Registry.
Implicit Types (r : Registry.t Registered) (u v k : string)
               (e : Registered) (m : JsMap.t Registered)
               (items : list Item).

Abbreviation ownedBy := RegistryCalls.ownedBy.
Abbreviation consistent := RegistryCalls.consistent.
Abbreviation others u m :=
  (filter (fun kv : string * Registered =>
             negb (String.eqb (serverNameOf (snd kv)) u)) m).

Lemma ownedBy_In u k e m :
  In (k, e) (ownedBy u m) <-> In (k, e) m /\ serverNameOf e = u.
Proof.
  unfold RegistryCalls.ownedBy. rewrite filter_In. simpl.
  now rewrite String.eqb_eq.
Qed.

Lemma ownedBy_none u m :
  (forall k e, In (k, e) m -> serverNameOf e <> u) -> ownedBy u m = [].
Proof.
  induction m as [|[k e] m IH]; intros Hall; [reflexivity|].
  simpl. rewrite (proj2 (String.eqb_neq _ _) (Hall k e (or_introl eq_refl))).
  apply IH. intros k' e' Hin. apply (Hall k' e'). now right.
Qed.

Lemma ownedBy_all u m :
  (forall k e, In (k, e) m -> serverNameOf e = u) -> ownedBy u m = m.
Proof.
  induction m as [|[k e] m IH]; intros Hall; [reflexivity|].
  simpl. rewrite (proj2 (String.eqb_eq _ _) (Hall k e (or_introl eq_refl))).
  f_equal. apply IH. intros k' e' Hin. apply (Hall k' e'). now right.
Qed.

Lemma ownedBy_others u v m : u <> v -> ownedBy v (others u m) = ownedBy v m.
Proof.
  intros Huv. induction m as [|[k e] m IH]; [reflexivity|].
  simpl. destruct (String.eqb_spec (serverNameOf e) u) as [E|E]; simpl.
  - rewrite IH. rewrite E.
    now rewrite (proj2 (String.eqb_neq _ _) Huv).
  - now rewrite IH.
Qed.

Lemma others_all u m :
  (forall k e, In (k, e) m -> serverNameOf e <> u) -> others u m = m.
Proof.
  induction m as [|[k e] m IH]; intros Hall; [reflexivity|].
  simpl. rewrite (proj2 (String.eqb_neq _ _) (Hall k e (or_introl eq_refl))).
  simpl. f_equal. apply IH. intros k' e' Hin. apply (Hall k' e'). now right.
Qed.

(** On a consistent registry, clearing an upstream removes exactly the
    records whose [serverName] it is. *)
Lemma clearServer_shape u r :
  consistent r ->
  clearServerEntries u r
    = {| entries := others u (entries r);
         byServer := JsMap.delete u (byServer r) |}.
Proof.
  intros (Hk & _ & He & Hn). unfold clearServerEntries.
  destruct (JsMap.get u (byServer r)) as [names|] eqn:E.
  - f_equal. rewrite fold_delete_filter. apply filter_ext_in.
    intros [k e] Hin. simpl. f_equal. rewrite (Hn u names E).
    destruct (String.eqb_spec (serverNameOf e) u) as [Ho|Ho].
    + apply set_has_In. unfold JsMap.keys. apply in_map_iff.
      exists (k, e). split; [reflexivity|]. now apply ownedBy_In.
    + destruct (JsSet.has k (JsMap.keys (ownedBy u (entries r)))) eqn:Hh;
        [|reflexivity].
      apply set_has_In in Hh. unfold JsMap.keys in Hh.
      apply in_map_iff in Hh as ((k', e') & Ek & Hin'). simpl in Ek. subst k'.
      apply ownedBy_In in Hin' as [Hin' Ho'].
      pose proof (In_get_unique k e _ Hk Hin) as G1.
      pose proof (In_get_unique k e' _ Hk Hin') as G2.
      congruence.
  - destruct r as [m b]. simpl in *. f_equal.
    + symmetry. apply others_all. intros k e Hin.
      destruct (He k e Hin) as [_ Hidx]. congruence.
    + symmetry. now apply delete_fresh.
Qed.

Lemma consistent_clearServer u r :
  consistent r -> consistent (clearServerEntries u r).
Proof.
  intros Hr. rewrite (clearServer_shape u r Hr).
  destruct Hr as (Hk & Hs & He & Hn).
  unfold RegistryCalls.consistent. cbn [entries byServer].
  split; [now apply keys_unique_filter|].
  split; [now apply keys_unique_filter|].
  split.
  - intros k e Hin. apply filter_In in Hin as [Hin Hne]. simpl in Hne.
    destruct (He k e Hin) as [Hitem Hidx]. split; [exact Hitem|].
    rewrite get_delete.
    destruct (String.eqb_spec u (serverNameOf e)) as [->|_]; [|exact Hidx].
    now rewrite String.eqb_refl in Hne.
  - intros v names Hget. rewrite get_delete in Hget.
    destruct (String.eqb_spec u v) as [_|Huv]; [discriminate|].
    rewrite (Hn v names Hget). now rewrite ownedBy_others.
Qed.

(** The bindings a registration adds are records of the registering
    upstream, built from advertised items. *)
Lemma register_added u items r (added : JsMap.t Registered) k e :
  fst (registerEntries u items r)
    = {| entries := entries (clearServerEntries u r) ++ added;
         byServer := byServer (clearServerEntries u r)
                     ++ [(u, JsMap.keys added)] |} ->
  (forall k, In k (JsMap.keys added) ->
             JsMap.get k (entries (clearServerEntries u r)) = None) ->
  NoDup (JsMap.keys added) ->
  In (k, e) added ->
  exists item, e = registered u item k
               /\ k = PrefixUtility.addPrefix u (originalId item).
Proof.
  intros Heq Hfresh Hnd Hin.
  pose proof (register_get u items k r) as G. rewrite Heq in G.
  unfold getEntry in G. cbn [entries] in G. rewrite get_app in G.
  assert (Hkey : In k (JsMap.keys added)).
  { unfold JsMap.keys. apply in_map_iff. now exists (k, e). }
  rewrite (Hfresh k Hkey), (In_get_unique k e added Hnd Hin) in G.
  unfold firstWithId in G.
  destruct (find _ items) as [item|] eqn:Ef; [|discriminate G].
  apply find_some in Ef as [_ Ef]. apply String.eqb_eq in Ef.
  injection G as ->. now exists item.
Qed.

Lemma consistent_register u items r :
  consistent r -> consistent (fst (registerEntries u items r)).
Proof.
  intros Hr. pose proof (consistent_clearServer u r Hr) as H0.
  pose proof (cleared_no_index u r) as Hnone.
  pose proof (register_shape u items r) as Hshape. cbv zeta in Hshape.
  destruct Hshape as (added & warns & Heq & Hfresh & Hnd & _ & _).
  assert (Heq' : fst (registerEntries u items r)
    = {| entries := entries (clearServerEntries u r) ++ added;
         byServer := byServer (clearServerEntries u r)
                     ++ [(u, JsMap.keys added)] |}) by now rewrite Heq.
  pose proof (fun k e => register_added u items r added k e Heq' Hfresh Hnd)
    as Hadded.
  rewrite Heq'. clear Heq Heq'.
  set (r0 := clearServerEntries u r) in *.
  destruct H0 as (Hk & Hs & He & Hn).
  assert (Hothers : forall k e, In (k, e) (entries r0) -> serverNameOf e <> u).
  { intros k e Hin. destruct (He k e Hin) as [_ Hidx]. congruence. }
  assert (Hown : forall k e, In (k, e) added -> serverNameOf e = u).
  { intros k e Hin. destruct (Hadded k e Hin) as (item & -> & _).
    apply serverNameOf_registered. }
  unfold RegistryCalls.consistent. cbn [entries byServer].
  split; [now apply keys_unique_app|].
  split.
  { apply keys_unique_app; [exact Hs | repeat constructor; intros [] |].
    intros k [<-|[]]. exact Hnone. }
  split.
  - intros k e Hin. apply in_app_or in Hin as [Hin|Hin].
    + destruct (He k e Hin) as [Hitem Hidx]. split; [exact Hitem|].
      rewrite get_app. now destruct (JsMap.get (serverNameOf e) (byServer r0)).
    + rewrite (Hown k e Hin). split; [exact (Hadded k e Hin)|].
      rewrite get_app, Hnone. simpl. now rewrite String.eqb_refl.
  - intros v names Hget. rewrite get_app in Hget.
    unfold RegistryCalls.ownedBy. rewrite filter_app.
    fold (ownedBy v (entries r0)). fold (ownedBy v added).
    destruct (JsMap.get v (byServer r0)) as [names0|] eqn:E.
    + injection Hget as <-. rewrite (Hn v names0 E).
      rewrite (ownedBy_none v added); [now rewrite app_nil_r|].
      intros k e Hin. rewrite (Hown k e Hin). congruence.
    + simpl in Hget. destruct (String.eqb_spec v u) as [->|_];
        [|discriminate Hget].
      injection Hget as <-.
      rewrite (ownedBy_none u (entries r0) Hothers).
      now rewrite (ownedBy_all u added Hown).
Qed.

Lemma consistent_call r (c : RegistryCalls.t Item) :
  consistent r -> consistent (RegistryCalls.call r c).
Proof.
  intros Hr. destruct c as [u items|u|]; simpl.
  - now apply consistent_register.
  - now apply consistent_clearServer.
  - repeat split; try constructor; try contradiction; discriminate.
Qed.

Lemma consistent_after (calls : list (RegistryCalls.t Item)) :
  consistent (RegistryCalls.after calls).
Proof.
  unfold RegistryCalls.after.
  assert (H0 : consistent (@Registry.empty Registered)).
  { repeat split; try constructor; try contradiction; discriminate. }
  revert H0. generalize (@Registry.empty Registered).
  induction calls as [|c calls IH]; intros r Hr; [exact Hr|].
  simpl. apply IH. now apply consistent_call.
Qed.

Lemma values_filter (keep : Registered -> bool) m :
  JsMap.values (filter (fun kv => keep (snd kv)) m)
    = filter keep (JsMap.values m).
Proof.
  induction m as [|[k e] m IH]; [reflexivity|].
  simpl. destruct (keep e); simpl; now rewrite IH.
Qed.

Lemma consistent_find_get (p : string) r :
  consistent r ->
  find (fun e => String.eqb (prefixedIdOf e) p) (getAllEntries r)
    = getEntry p r.
Proof.
  intros (_ & _ & He & _). unfold getAllEntries, getEntry.
  induction (entries r) as [|[k e] m IH]; [reflexivity|].
  simpl. destruct (He k e (or_introl eq_refl)) as [(item & Ee & _) _].
  assert (Hp : prefixedIdOf e = k).
  { rewrite Ee. apply prefixedIdOf_registered. }
  rewrite Hp, String.eqb_sym.
  destruct (String.eqb p k); [reflexivity|].
  apply IH. intros k' e' Hin. apply He. now right.
Qed.

Lemma consistent_serverEntries u r :
  consistent r ->
  getServerEntries u r
    = filter (fun e => String.eqb (serverNameOf e) u) (getAllEntries r)
  /\ getServerEntryCount u r = length (getServerEntries u r).
Proof.
  intros (Hk & _ & He & Hn). unfold getServerEntries, getServerEntryCount,
    getAllEntries.
  rewrite <- (values_filter (fun e => String.eqb (serverNameOf e) u)).
  fold (ownedBy u (entries r)).
  destruct (JsMap.get u (byServer r)) as [names|] eqn:E.
  - rewrite (Hn u names E).
    rewrite (lookup_keys_values (ownedBy u (entries r)) (entries r) Hk).
    + split; [reflexivity|]. unfold JsSet.size, JsMap.keys, JsMap.values.
      now rewrite !length_map.
    + intros [k e] Hin. now apply ownedBy_In in Hin as [Hin _].
  - rewrite ownedBy_none; [split; reflexivity|].
    intros k e Hin. destruct (He k e Hin) as [_ Hidx]. congruence.
Qed.

Lemma consistent_listed r e :
  consistent r -> In e (getAllEntries r) ->
  getEntry (prefixedIdOf e) r = Some e
  /\ prefixedIdOf e
     = PrefixUtility.addPrefix (serverNameOf e) (originalIdOf e)
  /\ JsMap.get (serverNameOf e) (byServer r) <> None.
Proof.
  intros (Hk & _ & He & _) Hin.
  unfold getAllEntries, JsMap.values in Hin.
  apply in_map_iff in Hin as ((k, e') & Ee & Hin). simpl in Ee. subst e'.
  destruct (He k e Hin) as [(item & Ee & Ek) Hidx].
  assert (Hp : prefixedIdOf e = k).
  { rewrite Ee. apply prefixedIdOf_registered. }
  assert (Ho : originalIdOf e = originalId item).
  { rewrite Ee. apply originalIdOf_registered. }
  split; [rewrite Hp; now apply In_get_unique|].
  split; [now rewrite Hp, Ho | exact Hidx].
Qed.

End RegistryConsistency.

(** X1.  In a registry reached by any sequence of registrations and
    clears, every record that a listing returns is found again by a
    lookup of its prefixed id, that id is [serverName___originalId], and
    the record is among those served for its upstream, which is among the
    server names. *)
Theorem registry_list_then_lookup
    {Item Registered : Type} {C : Capability Item Registered}
    {F : RegisteredFields Registered} {L : RegisteredAs Item Registered}
    (calls : list (RegistryCalls.t Item)) (e : Registered) :
  let r := RegistryCalls.after calls in
  In e (Registry.getAllEntries r) ->
  Registry.getEntry (prefixedIdOf e) r = Some e
  /\ prefixedIdOf e
     = PrefixUtility.addPrefix (serverNameOf e) (originalIdOf e)
  /\ In e (Registry.getServerEntries (serverNameOf e) r)
  /\ In (serverNameOf e) (Registry.getServerNames r).
Proof.
  intros r Hin. pose proof (consistent_after calls) as Hr. fold r in Hr.
  pose proof (proj1 (consistent_serverEntries (serverNameOf e) r Hr)) as Hsrv.
  destruct (consistent_listed r e Hr Hin) as (H1 & H2 & H3).
  split; [exact H1|]. split; [exact H2|]. split.
  - rewrite Hsrv. apply filter_In. split; [exact Hin | apply String.eqb_refl].
  - now apply get_Some_keys.
Qed.

Lemma registry_list_then_lookup_witness :
  ToolRegistry.getTool "notes___add" (RegistryCalls.after Fixture.calls)
    = Some Fixture.notesAdd
  /\ In Fixture.notesAdd
        (ToolRegistry.getServerTools "notes" (RegistryCalls.after Fixture.calls)).
Proof.
  destruct (registry_list_then_lookup Fixture.calls Fixture.notesAdd)
    as (H1 & _ & H2 & _).
  - vm_compute. left. reflexivity.
  - split; [exact H1 | exact H2].
Defined.

(** X2.  In a reached registry, what is served for an upstream is exactly
    the listed records whose [serverName] is that upstream, in listing
    order; the per-server count is their number; and no prefixed id is
    listed twice. *)
Theorem registry_server_listing
    {Item Registered : Type} {C : Capability Item Registered}
    {F : RegisteredFields Registered} {L : RegisteredAs Item Registered}
    (calls : list (RegistryCalls.t Item)) (u : string) :
  let r := RegistryCalls.after calls in
  Registry.getServerEntries u r
    = filter (fun e => String.eqb (serverNameOf e) u) (Registry.getAllEntries r)
  /\ Registry.getServerEntryCount u r
     = length (Registry.getServerEntries u r)
  /\ NoDup (map prefixedIdOf (Registry.getAllEntries r))
  /\ NoDup (Registry.getServerNames r).
Proof.
  intros r. pose proof (consistent_after calls) as Hr. fold r in Hr.
  destruct (consistent_serverEntries u r Hr) as [H1 H2].
  split; [exact H1|]. split; [exact H2|].
  destruct Hr as (Hk & Hs & He & _). split; [|exact Hs].
  replace (map prefixedIdOf (Registry.getAllEntries r))
    with (JsMap.keys (Registry.entries r)); [exact Hk|].
  unfold Registry.getAllEntries, JsMap.values, JsMap.keys.
  rewrite map_map. apply map_ext_in. intros [k e] Hin. simpl.
  destruct (He k e Hin) as [(item & Ee & _) _].
  rewrite Ee. symmetry. apply prefixedIdOf_registered.
Qed.

Lemma registry_server_listing_witness :
  ToolRegistry.getServerTools "calc" (RegistryCalls.after Fixture.calls)
    = [Fixture.calcAdd]
  /\ ToolRegistry.getServerToolCount "calc" (RegistryCalls.after Fixture.calls)
     = 1.
Proof.
  destruct (registry_server_listing Fixture.calls "calc") as (H1 & H2 & _).
  split.
  - unfold ToolRegistry.getServerTools. rewrite H1. reflexivity.
  - unfold ToolRegistry.getServerToolCount, ToolRegistry.getServerTools in *.
    rewrite H2, H1. reflexivity.
Defined.

(** X3.  Clearing an upstream in a reached registry removes exactly the
    records of that upstream from the listing and keeps the others in
    order; nothing is served for it afterwards and it is no longer a
    server name; what is served for any other upstream is unchanged; and
    clearing it again changes nothing. *)
Theorem clearServer_purges
    {Item Registered : Type} {C : Capability Item Registered}
    {F : RegisteredFields Registered} {L : RegisteredAs Item Registered}
    (calls : list (RegistryCalls.t Item)) (u : string) :
  let r := RegistryCalls.after calls in
  let r' := Registry.clearServerEntries u r in
  Registry.getAllEntries r'
    = filter (fun e => negb (String.eqb (serverNameOf e) u))
             (Registry.getAllEntries r)
  /\ Registry.getServerEntries u r' = []
  /\ ~ In u (Registry.getServerNames r')
  /\ (forall v, v <> u ->
        Registry.getServerEntries v r' = Registry.getServerEntries v r)
  /\ Registry.clearServerEntries u r' = r'.
Proof.
  intros r r'. pose proof (consistent_after calls) as Hr. fold r in Hr.
  pose proof (consistent_clearServer u r Hr) as Hr'. fold r' in Hr'.
  pose proof (cleared_no_index u r) as Hnone. fold r' in Hnone.
  assert (Hall : Registry.getAllEntries r'
    = filter (fun e => negb (String.eqb (serverNameOf e) u))
             (Registry.getAllEntries r)).
  { unfold r'. rewrite (clearServer_shape u r Hr).
    unfold Registry.getAllEntries. cbn [Registry.entries].
    apply (values_filter (fun e => negb (String.eqb (serverNameOf e) u))). }
  split; [exact Hall|].
  split; [unfold Registry.getServerEntries; now rewrite Hnone|].
  split; [now apply get_None_keys|].
  split.
  - intros v Hv.
    rewrite (proj1 (consistent_serverEntries v r' Hr')).
    rewrite (proj1 (consistent_serverEntries v r Hr)).
    rewrite Hall. clear -Hv.
    induction (Registry.getAllEntries r) as [|e l IH]; [reflexivity|].
    simpl. destruct (String.eqb_spec (serverNameOf e) u) as [E|E]; simpl.
    + rewrite IH, E.
      now rewrite (proj2 (String.eqb_neq u v) (fun H => Hv (eq_sym H))).
    + now rewrite IH.
  - unfold Registry.clearServerEntries at 1. now rewrite Hnone.
Qed.

Lemma clearServer_purges_witness :
  ToolRegistry.getAllTools
    (ToolRegistry.clearServerTools "notes" (RegistryCalls.after Fixture.calls))
    = [Fixture.calcAdd]
  /\ ~ In "notes"%string
        (ToolRegistry.getServerNames
           (ToolRegistry.clearServerTools "notes"
              (RegistryCalls.after Fixture.calls))).
Proof.
  destruct (clearServer_purges Fixture.calls "notes") as (H1 & _ & H2 & _).
  split.
  - unfold ToolRegistry.getAllTools, ToolRegistry.clearServerTools.
    rewrite H1. reflexivity.
  - exact H2.
Defined.

(** X4.  Whatever [removePrefix] returns decodes the input exactly:
    re-joining the two parts gives the input back and splitting that
    again gives the same parts; both parts are non-empty, and the server
    part neither contains the separator nor ends in an underscore. *)
Theorem removePrefix_sound (p s o : string) :
  PrefixUtility.removePrefix p = Some (s, o) ->
  PrefixUtility.addPrefix s o = p
  /\ PrefixUtility.removePrefix (PrefixUtility.addPrefix s o) = Some (s, o)
  /\ s <> ""%string /\ o <> ""%string
  /\ JsString.includes "___" s = false
  /\ JsString.endsWith s "_" = false.
Proof.
  intros H. destruct (removePrefix_Some p s o H) as (E & Hs & Ho & Hno & Hend).
  split; [now symmetry|]. split; [now rewrite <- E|].
  split; [exact Hs|]. split; [exact Ho|].
  split; [unfold JsString.includes; now rewrite Hno | exact Hend].
Qed.

Lemma removePrefix_sound_witness :
  PrefixUtility.addPrefix "calc" "get___all" = "calc___get___all"%string
  /\ JsString.endsWith "calc" "_" = false.
Proof.
  destruct (removePrefix_sound "calc___get___all" "calc" "get___all")
    as (H1 & _ & _ & _ & _ & H2); [reflexivity|].
  split; [exact H1 | exact H2].
Defined.

(** X5.  Prefixed ids do not collide across upstreams whose names the
    loader accepts and that do not end in an underscore: two different
    pairs of upstream name and original id give two different prefixed
    ids. *)
Theorem prefixed_ids_distinct (s1 n1 s2 n2 : string) :
  ConfigLoader.validName s1 -> JsString.endsWith s1 "_" = false ->
  ConfigLoader.validName s2 -> JsString.endsWith s2 "_" = false ->
  s1 <> s2 \/ n1 <> n2 ->
  PrefixUtility.addPrefix s1 n1 <> PrefixUtility.addPrefix s2 n2.
Proof.
  intros Hv1 He1 Hv2 He2 Hne E.
  pose proof (indexOf_separator s1 n1 (validName_no_separator s1 Hv1) He1) as I1.
  pose proof (indexOf_separator s2 n2 (validName_no_separator s2 Hv2) He2) as I2.
  unfold PrefixUtility.addPrefix, PrefixUtility.SEPARATOR in E.
  rewrite E in I1. rewrite I1 in I2. injection I2 as Hlen.
  assert (Es : s1 = s2).
  { rewrite <- (js_substring_head s1 ("___" ++ n1)%string).
    rewrite <- (js_substring_head s2 ("___" ++ n2)%string).
    now rewrite E, Hlen. }
  destruct Hne as [Hs|Hn]; [now apply Hs|].
  subst s2. apply Hn. now apply (addPrefix_inj s1).
Qed.

Lemma prefixed_ids_distinct_witness :
  PrefixUtility.addPrefix "calc" "add" <> PrefixUtility.addPrefix "calc-v2" "add"
  /\ PrefixUtility.addPrefix "calc" "get" <> PrefixUtility.addPrefix "calc" "get___all".
Proof.
  split.
  - apply (prefixed_ids_distinct "calc" "add" "calc-v2" "add");
      try reflexivity. left. discriminate.
  - apply (prefixed_ids_distinct "calc" "get" "calc" "get___all");
      try reflexivity. right. discriminate.
Defined.

(** ** Routing *)

(** X6.  A route returned by [RequestRouter.routeToolCall] is sound: the
    prefixed id is the join of the route's server name and original name,
    the id is registered, the route's connector is the one stored for
    that server name and is connected, and nothing is logged.  The server
    name of a route never ends in an underscore. *)
Theorem router_route_sound (registry : ToolRegistry.t)
    (mgr : UpstreamManager.t) (p : string) (ri : RequestRouter.RouteInfo.t) :
  fst (RequestRouter.routeToolCall registry mgr p) = Some ri ->
  p = PrefixUtility.addPrefix (RequestRouter.RouteInfo.serverName ri)
                              (RequestRouter.RouteInfo.originalName ri)
  /\ JsString.endsWith (RequestRouter.RouteInfo.serverName ri) "_" = false
  /\ ToolRegistry.hasTool p registry = true
  /\ UpstreamManager.getConnector (RequestRouter.RouteInfo.serverName ri) mgr
     = Some (RequestRouter.RouteInfo.connector ri)
  /\ Connector.isConnected (RequestRouter.RouteInfo.connector ri) = true
  /\ snd (RequestRouter.routeToolCall registry mgr p) = [].
Proof.
  unfold RequestRouter.routeToolCall. intros H.
  destruct (PrefixUtility.removePrefix p) as [[s o]|] eqn:Ep; [|discriminate H].
  destruct (removePrefix_Some p s o Ep) as (E & _ & _ & _ & Hend).
  unfold ToolRegistry.hasTool, Registry.hasEntry, JsMap.has.
  unfold ToolRegistry.getTool, Registry.getEntry in *.
  destruct (JsMap.get p (Registry.entries registry)) as [t|]; [|discriminate H].
  destruct (UpstreamManager.getConnector s mgr) as [c|] eqn:Ec;
    [|discriminate H].
  destruct (Connector.isConnected c) eqn:Ei; [|discriminate H].
  simpl in H. injection H as <-. simpl. rewrite Ec.
  repeat split; assumption.
Qed.

Lemma router_route_sound_witness :
  JsString.endsWith "calc" "_" = false
  /\ UpstreamManager.getConnector "calc"
       (Sample.manager [("calc"%string, Sample.answering "3")])
     = Some (Sample.answering "3").
Proof.
  destruct (router_route_sound Sample.registryOfCalc
              (Sample.manager [("calc"%string, Sample.answering "3")])
              "calc___add"
              {| RequestRouter.RouteInfo.serverName := "calc";
                 RequestRouter.RouteInfo.originalName := "add";
                 RequestRouter.RouteInfo.connector := Sample.answering "3" |})
    as (_ & H1 & _ & H2 & _); [reflexivity|].
  split; [exact H1 | exact H2].
Defined.

(** X7.  On a registry reached by calls, the two hubs resolve a prefixed
    id alike: scanning the listing for the [prefixedName] field
    ([McpHub.routeToolCall]) finds what the keyed lookup
    ([McpHubServer.routeToolCall]) finds, so both route to the same
    upstream under the same original name, or both find no route. *)
Theorem hub_routes_agree (calls : list (RegistryCalls.t MCPTool.t))
    (mgr : UpstreamManager.t) (p : string) :
  let registry : ToolRegistry.t := RegistryCalls.after calls in
  McpHub.routeToolCall registry mgr p
    = option_map
        (fun ri => {| McpHub.RouteInfo.serverName :=
                        McpHubServer.RouteInfo.serverName ri;
                      McpHub.RouteInfo.originalName :=
                        McpHubServer.RouteInfo.originalName ri |})
        (McpHubServer.routeToolCall registry mgr p).
Proof.
  intros registry. unfold McpHub.routeToolCall, McpHubServer.routeToolCall.
  pose proof (consistent_find_get p registry (consistent_after calls)) as Hf.
  unfold ToolRegistry.getAllTools, ToolRegistry.getTool.
  change (fun t => String.eqb (RegisteredTool.prefixedName t) p)
    with (fun t : RegisteredTool.t => String.eqb (prefixedIdOf t) p).
  rewrite Hf.
  destruct (Registry.getEntry p registry) as [t|]; [|reflexivity].
  destruct (UpstreamManager.getConnector (RegisteredTool.serverName t) mgr)
    as [c|]; [|reflexivity].
  now destruct (Connector.isConnected c).
Qed.

Section ListedTools.

Local Open Scope string_scope.
Variables (calls : list (RegistryCalls.t MCPTool.t)) (t : RegisteredTool.t).

Lemma listed_tool :
  In t (ToolRegistry.getAllTools (RegistryCalls.after calls)) ->
  ToolRegistry.getTool (RegisteredTool.prefixedName t)
    (RegistryCalls.after calls) = Some t
  /\ RegisteredTool.prefixedName t
     = PrefixUtility.addPrefix (RegisteredTool.serverName t)
                               (RegisteredTool.originalName t).
Proof.
  intros Hin.
  destruct (consistent_listed (RegistryCalls.after calls) t
              (consistent_after calls) Hin) as (H1 & H2 & _).
  split; [exact H1 | exact H2].
Qed.

Lemma prefixed_nonEmpty (s o : string) :
  nonEmptyString (Some (JStr (PrefixUtility.addPrefix s o)))
    = Some (PrefixUtility.addPrefix s o).
Proof.
  unfold nonEmptyString. rewrite falsy_false; [reflexivity|].
  unfold PrefixUtility.addPrefix, PrefixUtility.SEPARATOR.
  destruct s; discriminate.
Qed.


Variables (mgr : UpstreamManager.t) (c : Connector.t).
Variable args : option Json.

Abbreviation registry := (RegistryCalls.after calls : ToolRegistry.t).
Abbreviation calling :=
  {| ToolCallParams.name := Some (JStr (RegisteredTool.prefixedName t));
     ToolCallParams.arguments := args |}.
Abbreviation forwarded id :=
  {| MCPRequest.id := id;
     MCPRequest.method := "tools/call";
     MCPRequest.params :=
       {| ToolCallParams.name := Some (JStr (RegisteredTool.originalName t));
          ToolCallParams.arguments := args |} |}.

Hypothesis listed : In t (ToolRegistry.getAllTools registry).
Hypothesis stored :
  UpstreamManager.getConnector (RegisteredTool.serverName t) mgr = Some c.
Hypothesis up : Connector.isConnected c = true.

Lemma hub_call_listed (now : Z) :
  McpHub.callToolHandler registry mgr now calling
  = match Connector.sendMessage c (forwarded (JNum now)) with
    | Throw e => Throw e
    | Return response =>
        match MCPResponse.error response with
        | Some err => Throw (ErrorObj (RpcError.message err))
        | None => Return (MCPResponse.result response)
        end
    end.
Proof.
  destruct (listed_tool listed) as [Hget Hp].
  pose proof (consistent_find_get (RegisteredTool.prefixedName t) registry
                (consistent_after calls)) as Hf.
  unfold McpHub.callToolHandler.
  cbn [ToolCallParams.name ToolCallParams.arguments].
  rewrite Hp at 1. rewrite prefixed_nonEmpty. rewrite <- Hp.
  unfold McpHub.routeToolCall, ToolRegistry.getAllTools.
  change (fun t0 => String.eqb (RegisteredTool.prefixedName t0)
                               (RegisteredTool.prefixedName t))
    with (fun t0 : RegisteredTool.t =>
            String.eqb (prefixedIdOf t0) (RegisteredTool.prefixedName t)).
  rewrite Hf. unfold ToolRegistry.getTool in Hget. rewrite Hget.
  rewrite stored, up. cbn [negb McpHub.RouteInfo.serverName
                           McpHub.RouteInfo.originalName].
  unfold UpstreamManager.routeMessage.
  unfold UpstreamManager.getConnector in stored. rewrite stored, up.
  reflexivity.
Qed.

Lemma hubServer_call_listed (stringify : option Json -> option string)
    (random : string) :
  McpHubServer.callToolHandler stringify registry mgr random calling
  = match Connector.sendMessage c (forwarded (JStr random)) with
    | Return response =>
        if McpHubServer.hasContent (MCPResponse.result response) then
          Return (MCPResponse.result response)
        else
          Return (Some (JObj [("content",
            JArr [McpHubServer.textContent
                    (stringify (MCPResponse.result response))])]))
    | Throw e =>
        Return (Some (McpHubServer.errorResult
                        ("Upstream error: " ++ errorMessage e)))
    end.
Proof.
  destruct (listed_tool listed) as [Hget Hp].
  unfold McpHubServer.callToolHandler.
  cbn [ToolCallParams.name ToolCallParams.arguments].
  rewrite Hp at 1. rewrite prefixed_nonEmpty. rewrite <- Hp.
  unfold McpHubServer.routeToolCall. rewrite Hget, stored, up.
  reflexivity.
Qed.

Lemma router_call_listed (id : Json) :
  ConfigLoader.validName (RegisteredTool.serverName t) ->
  JsString.endsWith (RegisteredTool.serverName t) "_" = false ->
  RegisteredTool.originalName t <> "" ->
  RequestRouter.handleToolCall registry mgr
    {| MCPRequest.id := id;
       MCPRequest.method := "tools/call";
       MCPRequest.params := calling |}
  = (match Connector.sendMessage c (forwarded id) with
     | Return response => response
     | Throw e =>
         RequestRouter.errorResponse id (-32603)
           ("Upstream error: " ++ errorMessage e)
     end,
     [Log_routing (RegisteredTool.prefixedName t)
                  (RegisteredTool.serverName t)
                  (RegisteredTool.originalName t)]).
Proof.
  intros Hv Hend Ho.
  destruct (listed_tool listed) as [Hget Hp].
  unfold RequestRouter.handleToolCall.
  cbn [MCPRequest.params MCPRequest.id ToolCallParams.name
       ToolCallParams.arguments].
  rewrite Hp at 1. rewrite prefixed_nonEmpty. rewrite <- Hp.
  unfold RequestRouter.routeToolCall. rewrite Hget.
  rewrite Hp at 1.
  rewrite (removePrefix_addPrefix _ (RegisteredTool.originalName t)
             (validName_nonempty _ Hv) (validName_no_separator _ Hv) Hend).
  rewrite (falsy_false _ Ho). rewrite stored, up.
  cbn [negb RequestRouter.RouteInfo.serverName
       RequestRouter.RouteInfo.originalName RequestRouter.RouteInfo.connector
       app].
  now destruct (Connector.sendMessage c _).
Qed.

End ListedTools.

(** X8.  Every tool that the hub lists can be called under the listed
    name whenever the connector of its upstream is connected: the
    [CallToolRequestSchema] handler of [McpHub] sends that connector one
    [tools/call] request carrying the tool's original name and the
    caller's arguments, returns the upstream's result, and rethrows an
    upstream error response as an [Error] with the upstream's message. *)
Theorem listed_tool_is_callable (calls : list (RegistryCalls.t MCPTool.t))
    (mgr : UpstreamManager.t) (now : Z) (args : option Json)
    (t : RegisteredTool.t) (c : Connector.t) :
  let registry : ToolRegistry.t := RegistryCalls.after calls in
  In t (ToolRegistry.getAllTools registry) ->
  UpstreamManager.getConnector (RegisteredTool.serverName t) mgr = Some c ->
  Connector.isConnected c = true ->
  McpHub.callToolHandler registry mgr now
    {| ToolCallParams.name := Some (JStr (RegisteredTool.prefixedName t));
       ToolCallParams.arguments := args |}
  = match Connector.sendMessage c
            {| MCPRequest.id := JNum now;
               MCPRequest.method := "tools/call";
               MCPRequest.params :=
                 {| ToolCallParams.name :=
                      Some (JStr (RegisteredTool.originalName t));
                    ToolCallParams.arguments := args |} |} with
    | Throw e => Throw e
    | Return response =>
        match MCPResponse.error response with
        | Some err => Throw (ErrorObj (RpcError.message err))
        | None => Return (MCPResponse.result response)
        end
    end.
Proof.
  intros registry Hin Hc Hup.
  exact (hub_call_listed calls t mgr c args Hin Hc Hup now).
Qed.

Lemma listed_tool_is_callable_witness :
  McpHub.callToolHandler (RegistryCalls.after Fixture.calls)
    (Sample.manager [("notes"%string, Sample.answering "saved")]) 42
    (Sample.callParams "notes___add")
  = Return (Some (JStr "saved")).
Proof.
  apply (listed_tool_is_callable Fixture.calls
           (Sample.manager [("notes"%string, Sample.answering "saved")]) 42
           (Some (JObj [])) Fixture.notesAdd (Sample.answering "saved")).
  - vm_compute. left. reflexivity.
  - reflexivity.
  - reflexivity.
Defined.

(** X9.  [RequestRouter.handleToolCall] forwards a call of a listed tool
    to the connector of the owning upstream, provided the upstream's name
    is one the loader accepts and does not end in an underscore, the
    tool's original name is not empty, and the connector is connected:
    the upstream request has the caller's id and arguments and the tool's
    original name, the upstream's response is returned as it is, a
    rejected send becomes error -32603, and one routing line is logged. *)
Theorem router_forwards_listed_tool (calls : list (RegistryCalls.t MCPTool.t))
    (mgr : UpstreamManager.t) (id : Json) (args : option Json)
    (t : RegisteredTool.t) (c : Connector.t) :
  let registry : ToolRegistry.t := RegistryCalls.after calls in
  In t (ToolRegistry.getAllTools registry) ->
  ConfigLoader.validName (RegisteredTool.serverName t) ->
  JsString.endsWith (RegisteredTool.serverName t) "_" = false ->
  RegisteredTool.originalName t <> ""%string ->
  UpstreamManager.getConnector (RegisteredTool.serverName t) mgr = Some c ->
  Connector.isConnected c = true ->
  RequestRouter.handleToolCall registry mgr
    {| MCPRequest.id := id;
       MCPRequest.method := "tools/call";
       MCPRequest.params :=
         {| ToolCallParams.name := Some (JStr (RegisteredTool.prefixedName t));
            ToolCallParams.arguments := args |} |}
  = (match Connector.sendMessage c
             {| MCPRequest.id := id;
                MCPRequest.method := "tools/call";
                MCPRequest.params :=
                  {| ToolCallParams.name :=
                       Some (JStr (RegisteredTool.originalName t));
                     ToolCallParams.arguments := args |} |} with
     | Return response => response
     | Throw e =>
         RequestRouter.errorResponse id (-32603)
           ("Upstream error: " ++ errorMessage e)%string
     end,
     [Log_routing (RegisteredTool.prefixedName t)
                  (RegisteredTool.serverName t)
                  (RegisteredTool.originalName t)]).
Proof.
  intros registry Hin Hv Hend Ho Hc Hup.
  exact (router_call_listed calls t mgr c args Hin Hc Hup id Hv Hend Ho).
Qed.

Lemma router_forwards_listed_tool_witness :
  RequestRouter.handleToolCall (RegistryCalls.after Fixture.calls)
    (Sample.manager [("notes"%string, Sample.answering "saved")])
    (Sample.callRequest 7 "notes___add")
  = ({| MCPResponse.id := JNum 7;
        MCPResponse.result := Some (JStr "saved");
        MCPResponse.error := None |},
     [Log_routing "notes___add" "notes" "add"]).
Proof.
  apply (router_forwards_listed_tool Fixture.calls
           (Sample.manager [("notes"%string, Sample.answering "saved")])
           (JNum 7) (Some (JObj [])) Fixture.notesAdd (Sample.answering "saved")).
  - vm_compute. left. reflexivity.
  - reflexivity.
  - reflexivity.
  - discriminate.
  - reflexivity.
  - reflexivity.
Defined.

(** ** The table of sessions over time *)

Section SessionTable.

Local Open Scope string_scope.
Import McpHub.
Implicit Types (m : JsMap.t Session.t) (k sid : string) (s : Session.t)
               (st : Sessions.t).

Abbreviation instanceOf := (fun kv : string * Session.t => Session.instance (snd kv)).
Abbreviation fresh now :=
  (fun kv : string * Session.t => negb (SessionEvents.expired now (snd kv))).

Lemma set_In {V : Type} (k k' : string) (v v' : V) (m : JsMap.t V) :
  In (k', v') (JsMap.set k v m) -> (k' = k /\ v' = v) \/ In (k', v') m.
Proof.
  induction m as [|[k0 v0] m IH]; simpl.
  - intros [E|[]]. injection E as <- <-. now left.
  - destruct (String.eqb k k0); simpl.
    + intros [E|H]; [injection E as <- <-; now left | right; now right].
    + intros [E|H]; [right; now left|].
      destruct (IH H) as [?|?]; [now left | right; now right].
Qed.

Lemma keys_unique_set {V : Type} (k : string) (v : V) (m : JsMap.t V) :
  NoDup (JsMap.keys m) -> NoDup (JsMap.keys (JsMap.set k v m)).
Proof.
  induction m as [|[k0 v0] m IH]; intros Hm; simpl.
  - repeat constructor. intros [].
  - inversion_clear Hm as [|? ? Hk Hm'].
    destruct (String.eqb_spec k k0) as [->|Hne]; simpl.
    + now constructor.
    + constructor; [|now apply IH].
      intros Hin. unfold JsMap.keys in Hin.
      apply in_map_iff in Hin as ((k1, v1) & E & Hin). simpl in E. subst k1.
      apply set_In in Hin as [[E _]|Hin]; [now apply Hne|].
      apply Hk. unfold JsMap.keys. apply in_map_iff. now exists (k0, v1).
Qed.

Lemma instances_set k s m :
  NoDup (map instanceOf m) ->
  (forall k' s', In (k', s') m -> Session.instance s' <> Session.instance s) ->
  NoDup (map instanceOf (JsMap.set k s m)).
Proof.
  induction m as [|[k0 s0] m IH]; intros Hm Hnew; simpl.
  - repeat constructor. intros [].
  - inversion_clear Hm as [|? ? Hi Hm']. simpl in Hi.
    destruct (String.eqb k k0); simpl.
    + constructor; [|exact Hm'].
      intros Hin. apply in_map_iff in Hin as ((k1, s1) & E & Hin).
      simpl in E. apply (Hnew k1 s1); [now right | exact E].
    + constructor.
      * intros Hin. apply in_map_iff in Hin as ((k1, s1) & E & Hin).
        simpl in E. apply set_In in Hin as [[_ ->]|Hin].
        -- apply (Hnew k0 s0); [now left | now symmetry].
        -- apply Hi. apply in_map_iff. now exists (k1, s1).
      * apply IH; [exact Hm'|]. intros k' s' Hin. apply (Hnew k' s'). now right.
Qed.

Lemma instances_set_same k s c m :
  JsMap.get k m = Some c -> Session.instance s = Session.instance c ->
  map instanceOf (JsMap.set k s m) = map instanceOf m.
Proof.
  intros Hget Hi. induction m as [|[k0 s0] m IH]; [discriminate Hget|].
  simpl in *. destruct (String.eqb k k0); simpl.
  - injection Hget as ->. now rewrite Hi.
  - now rewrite IH.
Qed.

Lemma instances_filter (keep : string * Session.t -> bool) m :
  NoDup (map instanceOf m) -> NoDup (map instanceOf (filter keep m)).
Proof.
  induction m as [|kv m IH]; intros Hm; [constructor|].
  inversion_clear Hm as [|? ? Hi Hm']. simpl.
  destruct (keep kv); [|now apply IH].
  simpl. constructor; [|now apply IH].
  rewrite in_map_iff. intros (kv' & E & Hin).
  apply filter_In in Hin as [Hin _].
  apply Hi. rewrite in_map_iff. now exists kv'.
Qed.

Lemma get_filter_unique {V : Type} (keep : string * V -> bool) (k : string)
    (m : JsMap.t V) :
  NoDup (JsMap.keys m) ->
  JsMap.get k (filter keep m) =
    match JsMap.get k m with
    | Some v => if keep (k, v) then Some v else None
    | None => None
    end.
Proof.
  induction m as [|[k0 v0] m IH]; intros Hm; [reflexivity|].
  inversion_clear Hm as [|? ? Hk Hm']. simpl.
  destruct (String.eqb_spec k k0) as [->|Hne].
  - destruct (keep (k0, v0)); simpl; [now rewrite String.eqb_refl|].
    apply get_None_keys. intros Hin. apply Hk. unfold JsMap.keys in *.
    apply in_map_iff in Hin as ((k1, v1) & E & Hin). simpl in E. subst k1.
    apply filter_In in Hin as [Hin _]. apply in_map_iff. now exists (k0, v1).
  - destruct (keep (k0, v0)); simpl; [|now apply IH].
    rewrite (proj2 (String.eqb_neq _ _) Hne). now apply IH.
Qed.

(** The cleanup loop, whatever list of entries it walks, keeps the
    bindings that no expired entry names. *)
Lemma cleanup_loop (now : Z) (walked : JsMap.t Session.t) : forall m,
  fold_left
    (fun m entry =>
       if Z.ltb sessionTimeout (now - Session.lastActivity (snd entry))
       then JsMap.delete (fst entry) m else m) walked m
  = filter (fun kv =>
              negb (existsb (fun entry =>
                               SessionEvents.expired now (snd entry)
                               && String.eqb (fst entry) (fst kv)) walked)) m.
Proof.
  induction walked as [|a walked IH]; intros m; simpl.
  - induction m as [|kv m IHm]; simpl; [reflexivity | now rewrite <- IHm].
  - rewrite IH. unfold SessionEvents.expired.
    destruct (Z.ltb sessionTimeout (now - Session.lastActivity (snd a)));
      simpl; [|reflexivity].
    unfold JsMap.delete.
    induction m as [|kv m IHm]; simpl; [reflexivity|].
    destruct (String.eqb (fst a) (fst kv)); simpl; [exact IHm|].
    now rewrite IHm.
Qed.

Lemma cleanup_keeps_fresh (now : Z) st :
  NoDup (JsMap.keys (Sessions.activeConnections st)) ->
  Sessions.activeConnections (cleanupSessions now st)
    = filter (fresh now) (Sessions.activeConnections st).
Proof.
  intros Hk. unfold cleanupSessions. cbn [Sessions.activeConnections].
  rewrite cleanup_loop. apply filter_ext_in. intros [k s] Hin. simpl.
  f_equal. destruct (SessionEvents.expired now s) eqn:Es.
  - apply existsb_exists. exists (k, s). split; [exact Hin|].
    simpl. now rewrite Es, String.eqb_refl.
  - destruct (existsb _ (Sessions.activeConnections st)) eqn:Ex; [|reflexivity].
    apply existsb_exists in Ex as ((k', s') & Hin' & Hhit). simpl in Hhit.
    apply andb_prop in Hhit as [Es' Ek]. apply String.eqb_eq in Ek. subst k'.
    pose proof (In_get_unique k s _ Hk Hin) as G1.
    pose proof (In_get_unique k s' _ Hk Hin') as G2.
    congruence.
Qed.

Lemma isolated_request (random : string) (now : Z) (req : HttpRequest.t) st :
  SessionEvents.isolated st ->
  SessionEvents.isolated (fst (handleMcp random now req st)).
Proof.
  intros (Hk & Hi & Hb).
  destruct (noSessionId (HttpRequest.sessionHeader req)) eqn:Hno.
  - rewrite (handleMcp_no_session_id random now req st Hno).
    unfold SessionEvents.isolated.
    cbn [fst Sessions.activeConnections Sessions.instances].
    split; [now apply keys_unique_set|]. split.
    + apply instances_set; [exact Hi|]. intros k' s' Hin. simpl.
      specialize (Hb k' s' Hin). lia.
    + intros k s Hin. apply set_In in Hin as [[_ ->]|Hin]; simpl; [lia|].
      specialize (Hb k s Hin). lia.
  - destruct (HttpRequest.sessionHeader req) as [sid|] eqn:Hh;
      [|discriminate Hno].
    simpl in Hno.
    assert (Hsid : sid <> "") by (intros ->; discriminate Hno).
    rewrite (handleMcp_with_session_id random now req st sid Hh Hsid).
    destruct (JsMap.get sid (Sessions.activeConnections st)) as [c|] eqn:Hc.
    + unfold SessionEvents.isolated.
      cbn [fst Sessions.activeConnections Sessions.instances].
      split; [now apply keys_unique_set|]. split.
      * now rewrite (instances_set_same sid
                       {| Session.instance := Session.instance c;
                          Session.lastActivity := now |} c _ Hc eq_refl).
      * intros k s Hin. apply set_In in Hin as [[_ ->]|Hin]; simpl.
        -- apply (Hb sid c). now apply get_In.
        -- now apply (Hb k s).
    + simpl. now repeat split.
Qed.

Lemma isolated_cleanup (now : Z) st :
  SessionEvents.isolated st -> SessionEvents.isolated (cleanupSessions now st).
Proof.
  intros (Hk & Hi & Hb). unfold SessionEvents.isolated.
  rewrite (cleanup_keeps_fresh now st Hk). cbn [Sessions.instances cleanupSessions].
  split; [now apply keys_unique_filter|].
  split; [now apply instances_filter|].
  intros k s Hin. apply filter_In in Hin as [Hin _]. now apply (Hb k s).
Qed.

Lemma isolated_run (events : list SessionEvents.t) :
  SessionEvents.isolated (SessionEvents.run events).
Proof.
  unfold SessionEvents.run.
  assert (H0 : SessionEvents.isolated SessionEvents.initial).
  { repeat split; try constructor; contradiction. }
  revert H0. generalize SessionEvents.initial.
  induction events as [|ev events IH]; intros st Hst; [exact Hst|].
  simpl. apply IH. destruct ev as [random now req|now]; simpl.
  - now apply isolated_request.
  - now apply isolated_cleanup.
Qed.

Lemma get_after_cleanup (now : Z) sid st :
  NoDup (JsMap.keys (Sessions.activeConnections st)) ->
  JsMap.get sid (Sessions.activeConnections (cleanupSessions now st))
    = match JsMap.get sid (Sessions.activeConnections st) with
      | Some s => if SessionEvents.expired now s then None else Some s
      | None => None
      end.
Proof.
  intros Hk. rewrite (cleanup_keeps_fresh now st Hk).
  rewrite (get_filter_unique _ sid _ Hk).
  destruct (JsMap.get sid (Sessions.activeConnections st)) as [s|];
    [|reflexivity].
  simpl. now destruct (SessionEvents.expired now s).
Qed.

End SessionTable.

(** X10.  Whatever requests and cleanups the [/mcp] endpoint has seen, two
    different session ids of the table never hold the same [Server]
    instance, and every instance in the table was created by an earlier
    request. *)
Theorem sessions_never_share_an_instance (events : list SessionEvents.t)
    (sid1 sid2 : string) (s1 s2 : McpHub.Session.t) :
  let st := SessionEvents.run events in
  JsMap.get sid1 (McpHub.Sessions.activeConnections st) = Some s1 ->
  JsMap.get sid2 (McpHub.Sessions.activeConnections st) = Some s2 ->
  sid1 <> sid2 ->
  McpHub.Session.instance s1 <> McpHub.Session.instance s2
  /\ McpHub.Session.instance s1 < McpHub.Sessions.instances st
  /\ McpHub.Session.instance s2 < McpHub.Sessions.instances st.
Proof.
  intros st H1 H2 Hne. destruct (isolated_run events) as (Hk & Hi & Hb).
  fold st in Hk, Hi, Hb. apply get_In in H1, H2.
  split; [|split; [now apply (Hb sid1 s1) | now apply (Hb sid2 s2)]].
  intros E. apply Hne. clear Hk Hb Hne.
  induction (McpHub.Sessions.activeConnections st) as [|kv m IH];
    [contradiction|].
  inversion_clear Hi as [|? ? Hn Hm]. simpl in Hn.
  destruct H1 as [->|H1], H2 as [E2|H2].
  - now injection E2.
  - exfalso. apply Hn. apply in_map_iff. exists (sid2, s2). now split.
  - subst kv. exfalso. apply Hn. apply in_map_iff. exists (sid1, s1). now split.
  - now apply IH.
Qed.

Lemma sessions_never_share_an_instance_witness :
  0 <> 1 /\ 0 < 2 /\ 1 < 2.
Proof.
  apply (sessions_never_share_an_instance Fixture.twoSessions "abc" "k3x9"
           {| McpHub.Session.instance := 0; McpHub.Session.lastActivity := 5 |}
           {| McpHub.Session.instance := 1; McpHub.Session.lastActivity := 9 |});
    [reflexivity | reflexivity | discriminate].
Defined.

(** X11.  One run of the cleanup interval deletes exactly the sessions
    whose last activity is more than thirty minutes before [now]: every
    other session is still found, with the same instance and time, and
    the count of instances created is unchanged. *)
Theorem cleanup_evicts_idle_sessions (events : list SessionEvents.t)
    (now : Z) (sid : string) :
  let st := SessionEvents.run events in
  JsMap.get sid (McpHub.Sessions.activeConnections
                   (McpHub.cleanupSessions now st))
    = match JsMap.get sid (McpHub.Sessions.activeConnections st) with
      | Some s =>
          if Z.ltb (30 * 60 * 1000) (now - McpHub.Session.lastActivity s)
          then None else Some s
      | None => None
      end
  /\ McpHub.Sessions.instances (McpHub.cleanupSessions now st)
     = McpHub.Sessions.instances st.
Proof.
  intros st. split; [|reflexivity].
  destruct (isolated_run events) as (Hk & _). fold st in Hk.
  exact (get_after_cleanup now sid st Hk).
Qed.

(** X12.  The idle time of a session is measured from its last request
    that reached the [/mcp] handler.  After such a request at time [t]
    carrying the id of a session of the table, a cleanup at most thirty
    minutes later keeps the session, with its instance; a cleanup later
    than that deletes it, and the next request carrying the id that
    reaches the handler is refused with status 400 and error -32602 and
    leaves the table as it is.  A request that the CORS middleware
    answers itself (an [OPTIONS] request when CORS is on) is answered
    with status 200 and is no activity: the table stays as it was. *)
Theorem session_idle_timeout (events : list SessionEvents.t) (cors : bool)
    (random : string) (t : Z) (req : McpHub.HttpRequest.t)
    (sid : string) (s : McpHub.Session.t) (now : Z) :
  let st := SessionEvents.run events in
  let used := fst (McpHub.serveMcp cors random t req st) in
  let swept := McpHub.cleanupSessions now used in
  JsMap.get sid (McpHub.Sessions.activeConnections st) = Some s ->
  McpHub.HttpRequest.sessionHeader req = Some sid ->
  sid <> ""%string ->
  (McpHub.answeredByCors cors req = false ->
   (now - t <= 30 * 60 * 1000 ->
    JsMap.get sid (McpHub.Sessions.activeConnections swept)
      = Some {| McpHub.Session.instance := McpHub.Session.instance s;
                McpHub.Session.lastActivity := t |})%Z
   /\ (30 * 60 * 1000 < now - t ->
       JsMap.get sid (McpHub.Sessions.activeConnections swept) = None
       /\ forall random' later req',
            McpHub.HttpRequest.sessionHeader req' = Some sid ->
            McpHub.answeredByCors cors req' = false ->
            McpHub.serveMcp cors random' later req' swept
              = (swept,
                 {| McpHub.Served.corsHeaders := cors;
                    McpHub.Served.answer :=
                      McpHub.Routed
                        {| McpHub.HttpResponse.sessionHeader := None;
                           McpHub.HttpResponse.handling :=
                             McpHub.Rejected 400 (-32602)
                               ("Invalid session ID: " ++ sid)%string |} |}))%Z)
  /\ (McpHub.answeredByCors cors req = true ->
      McpHub.serveMcp cors random t req st
        = (st, {| McpHub.Served.corsHeaders := true;
                  McpHub.Served.answer := McpHub.SentStatus 200 |})
      /\ JsMap.get sid (McpHub.Sessions.activeConnections used) = Some s).
Proof.
  intros st used swept Hs Hh Hsid. split.
  - intros Hroute.
    assert (Eu : used = fst (McpHub.handleMcp random t req st)).
    { unfold used. now rewrite (serveMcp_routed cors random t req st Hroute). }
    assert (Hused : SessionEvents.isolated used).
    { rewrite Eu. apply isolated_request. apply isolated_run. }
    destruct Hused as (Hk & _).
    pose proof (get_after_cleanup now sid used Hk) as Hget.
    assert (Hu : JsMap.get sid (McpHub.Sessions.activeConnections used)
                 = Some {| McpHub.Session.instance := McpHub.Session.instance s;
                           McpHub.Session.lastActivity := t |}).
    { rewrite Eu.
      rewrite (handleMcp_with_session_id random t req st sid Hh Hsid).
      fold st. rewrite Hs. cbn [fst McpHub.Sessions.activeConnections].
      apply get_set_eq. }
    rewrite Hu in Hget. unfold SessionEvents.expired in Hget.
    cbn [McpHub.Session.lastActivity] in Hget.
    change McpHub.sessionTimeout with (30 * 60 * 1000)%Z in Hget.
    fold swept in Hget. split.
    + intros Hle. rewrite Hget.
      now rewrite (proj2 (Z.ltb_ge _ _) Hle).
    + intros Hlt.
      assert (Hgone : JsMap.get sid (McpHub.Sessions.activeConnections swept)
                      = None).
      { rewrite Hget. now rewrite (proj2 (Z.ltb_lt _ _) Hlt). }
      split; [exact Hgone|].
      intros random' later req' Hh' Hroute'.
      rewrite (serveMcp_routed cors random' later req' swept Hroute').
      rewrite (handleMcp_with_session_id random' later req' swept sid Hh' Hsid).
      now rewrite Hgone.
  - intros Hcors.
    assert (E : McpHub.serveMcp cors random t req st
                = (st, {| McpHub.Served.corsHeaders := true;
                          McpHub.Served.answer := McpHub.SentStatus 200 |}))
      by exact (serveMcp_preflight cors random t req st Hcors).
    split; [exact E|]. unfold used. rewrite E. exact Hs.
Qed.

Lemma session_idle_timeout_witness :
  let used := fst (McpHub.serveMcp true "r" 100 (Sample.post (Some "abc") false)
                     (SessionEvents.run Fixture.twoSessions)) in
  JsMap.get "abc" (McpHub.Sessions.activeConnections
                     (McpHub.cleanupSessions 1800100 used))
    = Some {| McpHub.Session.instance := 0; McpHub.Session.lastActivity := 100 |}
  /\ McpHub.Served.answer
       (snd (McpHub.serveMcp true "r" 1800200 (Sample.post (Some "abc") false)
               (McpHub.cleanupSessions 1800101 used)))
     = McpHub.Routed
         {| McpHub.HttpResponse.sessionHeader := None;
            McpHub.HttpResponse.handling :=
              McpHub.Rejected 400 (-32602) "Invalid session ID: abc" |}
  /\ JsMap.get "abc"
       (McpHub.Sessions.activeConnections
          (fst (McpHub.serveMcp true "r" 100 (Fixture.preflight (Some "abc"))
                  (SessionEvents.run Fixture.twoSessions))))
     = Some {| McpHub.Session.instance := 0; McpHub.Session.lastActivity := 5 |}.
Proof.
  intros used.
  destruct (session_idle_timeout Fixture.twoSessions true "r" 100
              (Sample.post (Some "abc") false) "abc"
              {| McpHub.Session.instance := 0; McpHub.Session.lastActivity := 5 |}
              1800100) as [Hkeep _]; [reflexivity | reflexivity | discriminate |].
  destruct (session_idle_timeout Fixture.twoSessions true "r" 100
              (Sample.post (Some "abc") false) "abc"
              {| McpHub.Session.instance := 0; McpHub.Session.lastActivity := 5 |}
              1800101) as [Hdrop _]; [reflexivity | reflexivity | discriminate |].
  destruct (session_idle_timeout Fixture.twoSessions true "r" 100
              (Fixture.preflight (Some "abc")) "abc"
              {| McpHub.Session.instance := 0; McpHub.Session.lastActivity := 5 |}
              0) as [_ Hidle]; [reflexivity | reflexivity | discriminate |].
  split; [|split].
  - apply (Hkeep eq_refl). vm_compute. discriminate.
  - destruct (Hdrop eq_refl) as [_ Hlate].
    destruct (Hlate eq_refl) as [_ Hrefused].
    unfold used.
    now rewrite (Hrefused "r" 1800200%Z (Sample.post (Some "abc") false)
                   eq_refl eq_refl).
  - apply (Hidle eq_refl).
Defined.

(** ** Reconnection: recorded timeouts and armed timers *)

Section ReconnectArmed.

Import UpstreamManager.
Variable retryDelay : Z.

Lemma handle_names_one (armed : list (nat * string)) (h : nat)
    (a b : string) :
  NoDup (map fst armed) -> In (h, a) armed -> In (h, b) armed -> a = b.
Proof.
  induction armed as [|[h0 n0] armed IH]; intros Hnd Ha Hb; [contradiction|].
  inversion_clear Hnd as [|? ? Hh Hnd']. simpl in Hh.
  destruct Ha as [Ea|Ha], Hb as [Eb|Hb].
  - congruence.
  - injection Ea as -> ->. exfalso. apply Hh. apply in_map_iff.
    now exists (h, b).
  - injection Eb as -> ->. exfalso. apply Hh. apply in_map_iff.
    now exists (h, a).
  - now apply IH.
Qed.

Lemma timeoutsArmed_drop (w : World.t) (h : nat) (name : string)
    (console : list Console) (calls : list string) :
  timersRecorded w -> timeoutsArmed w ->
  In (h, name) (Timers.armed (World.timers w)) ->
  timeoutsArmed
    {| World.manager :=
         withTimeouts (JsMap.delete name (reconnectTimeouts (World.manager w)))
                      (World.manager w);
       World.timers := clearTimeout h (World.timers w);
       World.console := console;
       World.connectCalls := calls |}.
Proof.
  intros (_ & Hnd & _) Harm Hin n h' Hget. simpl in *.
  rewrite get_delete in Hget.
  destruct (String.eqb_spec name n) as [_|Hne]; [discriminate|].
  apply In_clearTimeout. split; [now apply Harm|].
  intros ->. apply Hne.
  exact (handle_names_one _ h name n Hnd Hin (Harm n h Hget)).
Qed.

Lemma timeoutsArmed_step (w : World.t) (a : Action) :
  timersRecorded w -> timeoutsArmed w -> timeoutsArmed (step retryDelay w a).
Proof.
  intros Hinv Harm. pose proof Hinv as (_ & _ & Hrec).
  destruct a as [name | handle | name | name | name c cfg | ]; simpl.
  - unfold scheduleReconnection.
    destruct (JsMap.has name (reconnectTimeouts (World.manager w))) eqn:Hhas;
      [exact Harm|].
    intros n h Hget. simpl in *. apply in_or_app.
    destruct (String.eqb_spec name n) as [->|Hne].
    + rewrite get_set_eq in Hget. injection Hget as <-. right. now left.
    + rewrite (get_set_ne _ _ _ _ Hne) in Hget. left. now apply Harm.
  - unfold fire.
    destruct (find _ (Timers.armed (World.timers w))) as [[h' name]|] eqn:Hfind;
      [|exact Harm].
    apply find_armed in Hfind as [-> Hin].
    pose proof (timeoutsArmed_drop w handle name (World.console w)
                  (World.connectCalls w) Hinv Harm Hin) as Hdrop.
    unfold reconnectCallback. simpl.
    destruct (negb _ || negb _); exact Hdrop.
  - unfold clearReconnectTimeout.
    destruct (JsMap.get name (reconnectTimeouts (World.manager w))) as [h|]
      eqn:Hget; [|exact Harm].
    apply timeoutsArmed_drop; [exact Hinv | exact Harm | now apply Harm].
  - exact Harm.
  - unfold storeServer.
    destruct (JsMap.has name (connectors (World.manager w))); exact Harm.
  - intros n h Hget. discriminate Hget.
Qed.

Lemma timers_run (actions : list Action) :
  timersRecorded (run retryDelay actions)
  /\ timeoutsArmed (run retryDelay actions).
Proof.
  unfold run.
  assert (G : forall w, timersRecorded w /\ timeoutsArmed w ->
                        timersRecorded (fold_left (step retryDelay) actions w)
                        /\ timeoutsArmed (fold_left (step retryDelay) actions w)).
  { induction actions as [|a actions IH]; intros w Hw; simpl; [exact Hw|].
    apply IH. destruct Hw as [H1 H2]. split.
    - now apply timersRecorded_step.
    - now apply timeoutsArmed_step. }
  apply G. split.
  - exact (timersRecorded_run retryDelay []).
  - intros n h Hget. discriminate Hget.
Qed.

(** The pending timers of an upstream are read off its recorded
    timeout. *)
Lemma pending_of_recorded (w : World.t) (name : string) :
  timersRecorded w -> timeoutsArmed w ->
  pendingFor name w
    = match JsMap.get name (reconnectTimeouts (World.manager w)) with
      | Some h => [(h, name)]
      | None => []
      end.
Proof.
  intros Hinv Harm. pose proof Hinv as (_ & _ & Hrec).
  pose proof (timersRecorded_pending w name Hinv) as Hlen.
  assert (Hmem : forall h n, In (h, n) (pendingFor name w) ->
            n = name /\ JsMap.get name (reconnectTimeouts (World.manager w))
                        = Some h).
  { intros h n Hin. apply filter_In in Hin as [Hin Hn]. simpl in Hn.
    apply String.eqb_eq in Hn. subst n. split; [reflexivity|]. now apply Hrec. }
  destruct (JsMap.get name (reconnectTimeouts (World.manager w))) as [h|] eqn:E.
  - assert (Hin : In (h, name) (pendingFor name w)).
    { apply filter_In. split; [now apply Harm | apply String.eqb_refl]. }
    destruct (pendingFor name w) as [|x [|y rest]]; simpl in Hlen;
      [contradiction | | lia].
    destruct Hin as [->|[]]. reflexivity.
  - destruct (pendingFor name w) as [|[h n] rest]; [reflexivity|].
    destruct (Hmem h n (or_introl eq_refl)) as [_ Hsome]. discriminate Hsome.
Qed.

End ReconnectArmed.

(** X13.  At every moment of a run of the manager, the table of reconnect
    timeouts and the armed timers say the same: an upstream with a
    recorded timeout has exactly that one timer pending, and an upstream
    without one has none.  So a call of [scheduleReconnection] that does
    nothing always leaves a timer that will still fire. *)
Theorem recorded_timeout_is_pending (retryDelay : Z)
    (actions : list UpstreamManager.Action) (name : string) :
  let w := UpstreamManager.run retryDelay actions in
  UpstreamManager.pendingFor name w
    = match JsMap.get name
              (UpstreamManager.reconnectTimeouts
                 (UpstreamManager.World.manager w)) with
      | Some h => [(h, name)]
      | None => []
      end
  /\ (UpstreamManager.scheduleReconnection retryDelay name w = w
      <-> UpstreamManager.pendingFor name w <> []).
Proof.
  intros w. destruct (timers_run retryDelay actions) as [Hinv Harm].
  fold w in Hinv, Harm.
  pose proof (pending_of_recorded w name Hinv Harm) as Hp.
  split; [exact Hp|]. rewrite Hp.
  unfold UpstreamManager.scheduleReconnection, JsMap.has.
  destruct (JsMap.get name _) as [h|] eqn:E.
  - split; [discriminate | reflexivity].
  - split; [|intros H; now contradiction H].
    intros Heq. apply (f_equal UpstreamManager.World.console) in Heq.
    simpl in Heq. exfalso.
    apply (f_equal (@length Console)) in Heq. rewrite length_app in Heq.
    simpl in Heq. lia.
Qed.

(** X14.  When the pending timer of an upstream fires, the upstream is left
    without a pending timer and without a recorded timeout, so the next
    failure arms one new timer for it, under a handle never used
    before. *)
Theorem fired_timer_is_rearmed (retryDelay : Z)
    (actions : list UpstreamManager.Action) (h : nat) (name : string) :
  let w := UpstreamManager.run retryDelay actions in
  let fired := UpstreamManager.fire h w in
  In (h, name) (UpstreamManager.Timers.armed (UpstreamManager.World.timers w)) ->
  UpstreamManager.pendingFor name fired = []
  /\ JsMap.has name (UpstreamManager.reconnectTimeouts
                       (UpstreamManager.World.manager fired)) = false
  /\ UpstreamManager.pendingFor name
       (UpstreamManager.scheduleReconnection retryDelay name fired)
     = [(UpstreamManager.Timers.nextHandle (UpstreamManager.World.timers w),
         name)]
  /\ h < UpstreamManager.Timers.nextHandle (UpstreamManager.World.timers w).
Proof.
  intros w fired Hin.
  destruct (timers_run retryDelay (actions ++ [UpstreamManager.Fire h]))
    as [Hinv' Harm'].
  destruct (timers_run retryDelay actions) as [Hinv Harm].
  unfold UpstreamManager.run in Hinv', Harm'.
  rewrite fold_left_app in Hinv', Harm'. simpl in Hinv', Harm'.
  fold (UpstreamManager.run retryDelay actions) in Hinv', Harm'.
  fold w in Hinv, Harm, Hinv', Harm'. fold fired in Hinv', Harm'.
  pose proof Hinv as (Hlt & Hnd & Hrec).
  assert (Hfind : find (fun timer => Nat.eqb (fst timer) h)
                    (UpstreamManager.Timers.armed
                       (UpstreamManager.World.timers w)) = Some (h, name)).
  { destruct (find _ _) as [[h' n]|] eqn:Hf.
    - apply find_armed in Hf as [-> Hin'].
      now rewrite (handle_names_one _ h n name Hnd Hin' Hin).
    - exfalso. apply (find_none _ _ Hf) in Hin. simpl in Hin.
      now rewrite Nat.eqb_refl in Hin. }
  assert (Hgone : JsMap.get name
                    (UpstreamManager.reconnectTimeouts
                       (UpstreamManager.World.manager fired)) = None).
  { unfold fired, UpstreamManager.fire. rewrite Hfind.
    unfold UpstreamManager.reconnectCallback. simpl.
    destruct (negb _ || negb _); simpl; apply get_delete_eq. }
  assert (Hnext : UpstreamManager.Timers.nextHandle
                    (UpstreamManager.World.timers fired)
                  = UpstreamManager.Timers.nextHandle
                      (UpstreamManager.World.timers w)).
  { unfold fired, UpstreamManager.fire. rewrite Hfind.
    unfold UpstreamManager.reconnectCallback. simpl.
    now destruct (negb _ || negb _). }
  pose proof (pending_of_recorded fired name Hinv' Harm') as Hp.
  rewrite Hgone in Hp.
  split; [exact Hp|].
  split; [unfold JsMap.has; now rewrite Hgone|].
  split; [|now apply (Hlt h name)].
  unfold UpstreamManager.scheduleReconnection, JsMap.has. rewrite Hgone.
  unfold UpstreamManager.pendingFor in *. simpl.
  rewrite filter_app, Hp, Hnext. simpl. now rewrite String.eqb_refl.
Qed.

Lemma fired_timer_is_rearmed_witness :
  UpstreamManager.pendingFor "calc"
    (UpstreamManager.scheduleReconnection 2000 "calc"
       (UpstreamManager.fire 0 Sample.calcScheduled))
  = [(1, "calc"%string)].
Proof.
  destruct (fired_timer_is_rearmed 2000
              [UpstreamManager.Store "calc" Sample.down Sample.calcConnection;
               UpstreamManager.Schedule "calc"] 0 "calc")
    as (_ & _ & H & _); [left; reflexivity | exact H].
Defined.

(** X15.  Right after the timer part of [shutdown], in any run of the
    manager, no timer is armed and no timeout is recorded: firing any
    handle at that point changes nothing, and clearing the timers has
    called [connectServer] for no upstream. *)
Theorem shutdown_disarms_every_timer (retryDelay : Z)
    (actions : list UpstreamManager.Action) :
  let w := UpstreamManager.clearAllTimeouts
             (UpstreamManager.run retryDelay actions) in
  UpstreamManager.Timers.armed (UpstreamManager.World.timers w) = []
  /\ UpstreamManager.reconnectTimeouts (UpstreamManager.World.manager w) = []
  /\ (forall h, UpstreamManager.fire h w = w)
  /\ UpstreamManager.World.connectCalls w
     = UpstreamManager.World.connectCalls
         (UpstreamManager.run retryDelay actions).
Proof.
  intros w.
  destruct (timersRecorded_run retryDelay actions) as (_ & _ & Hrec).
  assert (Harmed : UpstreamManager.Timers.armed
                     (UpstreamManager.World.timers w) = []).
  { unfold w, UpstreamManager.clearAllTimeouts. simpl.
    set (cleared := fold_left _ _ _).
    destruct (UpstreamManager.Timers.armed cleared) as [|[h n] rest] eqn:E;
      [reflexivity|].
    assert (Hin : In (h, n) (UpstreamManager.Timers.armed cleared))
      by (rewrite E; now left).
    apply fold_clearTimeout_armed in Hin as [Hin Hnot].
    exfalso. apply Hnot. specialize (Hrec h n Hin). apply get_In in Hrec.
    unfold JsMap.values. change h with (snd (n, h)). now apply in_map. }
  split; [exact Harmed|]. split; [reflexivity|]. split; [|reflexivity].
  intros h. unfold UpstreamManager.fire. now rewrite Harmed.
Qed.

(** X16.  With a connector built on the SDK client (stdio, streamable HTTP
    or SSE) that is connected, [sendMessage] never rejects: a failed
    upstream request comes back as an error response.  For a call of a
    listed tool whose upstream request fails, the three handlers then
    differ.  [McpHub] throws an [Error] with the failure's message;
    [McpHubServer] returns a plain text result holding
    [JSON.stringify(undefined)], with no [isError] and without the
    message; [RequestRouter] returns the error response itself, with the
    failure's code (or -32603 when it has none) and message. *)
Theorem sdk_failure_at_the_handlers (calls : list (RegistryCalls.t MCPTool.t))
    (mgr : UpstreamManager.t) (t : RegisteredTool.t) (name : string)
    (client : SdkConnector.Client) (e : Thrown) (code : option Z)
    (args : option Json) :
  let registry : ToolRegistry.t := RegistryCalls.after calls in
  let params :=
    {| ToolCallParams.name := Some (JStr (RegisteredTool.prefixedName t));
       ToolCallParams.arguments := args |} in
  In t (ToolRegistry.getAllTools registry) ->
  UpstreamManager.getConnector (RegisteredTool.serverName t) mgr
    = Some (SdkConnector.connector name true connected client) ->
  (forall request, client request = SdkConnector.Failed e code) ->
  (forall request,
      exists response,
        Connector.sendMessage (SdkConnector.connector name true connected client)
          request = Return response)
  /\ (forall now,
        McpHub.callToolHandler registry mgr now params
          = Throw (ErrorObj (errorMessage e)))
  /\ (forall stringify random,
        McpHubServer.callToolHandler stringify registry mgr random params
          = Return (Some (JObj [("content"%string,
                                 JArr [McpHubServer.textContent
                                         (stringify None)])])))
  /\ (forall id,
        ConfigLoader.validName (RegisteredTool.serverName t) ->
        JsString.endsWith (RegisteredTool.serverName t) "_" = false ->
        RegisteredTool.originalName t <> ""%string ->
        fst (RequestRouter.handleToolCall registry mgr
               {| MCPRequest.id := id;
                  MCPRequest.method := "tools/call";
                  MCPRequest.params := params |})
          = {| MCPResponse.id := id;
               MCPResponse.result := None;
               MCPResponse.error :=
                 Some {| RpcError.code := SdkConnector.codeOr code;
                         RpcError.message := errorMessage e |} |}).
Proof.
  intros registry params Hin Hc Hfail.
  assert (Hup : Connector.isConnected
                  (SdkConnector.connector name true connected client) = true)
    by reflexivity.
  split; [|split; [|split]].
  - intros request. simpl. unfold SdkConnector.sendMessage. simpl.
    rewrite Hfail. eexists. reflexivity.
  - intros now. unfold registry, params.
    rewrite (hub_call_listed calls t mgr _ args Hin Hc Hup now).
    simpl. unfold SdkConnector.sendMessage. simpl. now rewrite Hfail.
  - intros stringify random. unfold registry, params.
    rewrite (hubServer_call_listed calls t mgr _ args Hin Hc Hup stringify random).
    simpl. unfold SdkConnector.sendMessage. simpl. now rewrite Hfail.
  - intros id Hv Hend Ho. unfold registry, params.
    rewrite (router_call_listed calls t mgr _ args Hin Hc Hup id Hv Hend Ho).
    simpl. unfold SdkConnector.sendMessage. simpl. now rewrite Hfail.
Qed.

Lemma sdk_failure_at_the_handlers_witness :
  McpHub.callToolHandler (RegistryCalls.after Fixture.calls)
    Fixture.notesRefusing 42 (Sample.callParams "notes___add")
    = Throw (ErrorObj "Request timed out")
  /\ McpHubServer.callToolHandler (fun _ => None)
       (RegistryCalls.after Fixture.calls) Fixture.notesRefusing "0.4fzyo82mvyr"
       (Sample.callParams "notes___add")
     = Return (Some (JObj [("content"%string,
                            JArr [JObj [("type"%string, JStr "text")]])]))
  /\ fst (RequestRouter.handleToolCall (RegistryCalls.after Fixture.calls)
            Fixture.notesRefusing (Sample.callRequest 7 "notes___add"))
     = {| MCPResponse.id := JNum 7;
          MCPResponse.result := None;
          MCPResponse.error :=
            Some {| RpcError.code := -32001;
                    RpcError.message := "Request timed out" |} |}.
Proof.
  destruct (sdk_failure_at_the_handlers Fixture.calls Fixture.notesRefusing
              Fixture.notesAdd "notes" Fixture.refusing
              (ErrorObj "Request timed out") (Some (-32001)%Z) (Some (JObj [])))
    as (_ & H1 & H2 & H3).
  - vm_compute. left. reflexivity.
  - reflexivity.
  - reflexivity.
  - split; [exact (H1 42%Z)|].
    split; [exact (H2 (fun _ => None) "0.4fzyo82mvyr"%string)|].
    apply (H3 (JNum 7)); [reflexivity | reflexivity | discriminate].
Defined.

(** X17.  [RequestRouter.isCapabilityAvailable] does not depend on the
    registry: it compares what the lookup returned with [null], and a
    lookup returns a record or [undefined].  Its answer is the same for
    any two registries and either capability type, and it is true
    exactly when the prefixed name splits and the connector of the named
    upstream is connected, also for an id that no registry holds. *)
Theorem isCapabilityAvailable_ignores_registry
    (tools tools' : ToolRegistry.t) (resources resources' : ResourceRegistry.t)
    (mgr : UpstreamManager.t) (p : string)
    (type type' : RouterQueries.CapabilityType) :
  RouterQueries.isCapabilityAvailable tools resources mgr p type
    = RouterQueries.isCapabilityAvailable tools' resources' mgr p type'
  /\ (RouterQueries.isCapabilityAvailable tools resources mgr p type = true
      <-> exists s o c,
            PrefixUtility.removePrefix p = Some (s, o)
            /\ UpstreamManager.getConnector s mgr = Some c
            /\ Connector.isConnected c = true)
  /\ RouterQueries.isCapabilityAvailable Registry.empty Registry.empty
       mgr p type
     = RouterQueries.isCapabilityAvailable tools resources mgr p type.
Proof.
  unfold RouterQueries.isCapabilityAvailable.
  destruct (PrefixUtility.removePrefix p) as [[s o]|] eqn:Ep.
  - destruct (UpstreamManager.getConnector s mgr) as [c|] eqn:Ec.
    + destruct (Connector.isConnected c) eqn:E; simpl.
      * split; [now destruct type, type';
                  destruct (ToolRegistry.getTool p tools),
                    (ToolRegistry.getTool p tools'),
                    (ResourceRegistry.getResource p resources),
                    (ResourceRegistry.getResource p resources')|].
        split.
        -- split; [intros _; now exists s, o, c|].
           intros _. destruct type;
             [now destruct (ToolRegistry.getTool p tools)
             | now destruct (ResourceRegistry.getResource p resources)].
        -- destruct type;
             [now destruct (ToolRegistry.getTool p tools)
             | now destruct (ResourceRegistry.getResource p resources)].
      * split; [reflexivity|]. split; [|reflexivity].
        split; [discriminate|]. intros (s' & o' & c' & H1 & H2 & H3).
        congruence.
    + split; [reflexivity|]. split; [|reflexivity].
      split; [discriminate|]. intros (s' & o' & c' & H1 & H2 & H3).
      congruence.
  - split; [reflexivity|]. split; [|reflexivity].
    split; [discriminate|]. intros (s' & o' & c' & H1 & _). discriminate H1.
Qed.

(** X18.  The timer part of [shutdown] does not stop later reconnections.
    [shutdown] removes no upstream from the tables, so when
    [scheduleReconnection] is called after it for an upstream that is in
    both tables (as the handler of a connector's [disconnected] event
    does), one timer is armed again, under a new handle, and when that
    timer fires [connectServer] is called for the upstream. *)
Theorem reconnection_survives_shutdown (retryDelay : Z)
    (actions : list UpstreamManager.Action) (name : string) :
  let w := UpstreamManager.run retryDelay actions in
  let stopped := UpstreamManager.clearAllTimeouts w in
  let again := UpstreamManager.scheduleReconnection retryDelay name stopped in
  let handle := UpstreamManager.Timers.nextHandle (UpstreamManager.World.timers w) in
  JsMap.has name (UpstreamManager.connectors (UpstreamManager.World.manager w))
    = true ->
  JsMap.has name (UpstreamManager.connections (UpstreamManager.World.manager w))
    = true ->
  UpstreamManager.Timers.armed (UpstreamManager.World.timers again)
    = [(handle, name)]
  /\ UpstreamManager.World.connectCalls (UpstreamManager.fire handle again)
     = UpstreamManager.World.connectCalls w ++ [name].
Proof.
  intros w stopped again handle Hc Hn.
  destruct (timersRecorded_run retryDelay actions) as (_ & _ & Hrec).
  fold w in Hrec.
  assert (Harmed : UpstreamManager.Timers.armed
                     (UpstreamManager.World.timers stopped) = []).
  { unfold stopped, UpstreamManager.clearAllTimeouts. simpl.
    set (cleared := fold_left _ _ _).
    destruct (UpstreamManager.Timers.armed cleared) as [|[h n] rest] eqn:E;
      [reflexivity|].
    assert (Hin : In (h, n) (UpstreamManager.Timers.armed cleared))
      by (rewrite E; now left).
    apply fold_clearTimeout_armed in Hin as [Hin Hnot].
    exfalso. apply Hnot. specialize (Hrec h n Hin). apply get_In in Hrec.
    unfold JsMap.values. change h with (snd (n, h)). now apply in_map. }
  assert (Hnext : UpstreamManager.Timers.nextHandle
                    (UpstreamManager.World.timers stopped) = handle).
  { unfold stopped, UpstreamManager.clearAllTimeouts. simpl.
    apply fold_clearTimeout_sub. }
  assert (Hagain : UpstreamManager.Timers.armed
                     (UpstreamManager.World.timers again) = [(handle, name)]).
  { unfold again, UpstreamManager.scheduleReconnection.
    cbn [UpstreamManager.clearAllTimeouts stopped UpstreamManager.World.manager
         UpstreamManager.withTimeouts UpstreamManager.reconnectTimeouts
         JsMap.has JsMap.get JsMap.empty].
    cbn [UpstreamManager.World.timers UpstreamManager.Timers.armed].
    fold stopped. now rewrite Harmed, Hnext. }
  split; [exact Hagain|].
  unfold UpstreamManager.fire. rewrite Hagain. simpl.
  rewrite Nat.eqb_refl. unfold UpstreamManager.reconnectCallback.
  unfold again, UpstreamManager.scheduleReconnection. simpl.
  fold w. rewrite Hc, Hn. reflexivity.
Qed.

Lemma reconnection_survives_shutdown_witness :
  UpstreamManager.World.connectCalls
    (UpstreamManager.fire 1
       (UpstreamManager.scheduleReconnection 2000 "calc"
          (UpstreamManager.clearAllTimeouts Sample.calcScheduled)))
  = ["calc"%string].
Proof.
  destruct (reconnection_survives_shutdown 2000
              [UpstreamManager.Store "calc" Sample.down Sample.calcConnection;
               UpstreamManager.Schedule "calc"] "calc")
    as [_ H]; [reflexivity | reflexivity | exact H].
Defined.

(** ** Loading a configuration *)

Section ConfigFacts.

Local Open Scope string_scope.
Import ServerConfig.
Variables (validUrl : string -> bool) (stringOf : Json -> string).

Lemma validateEntries_accepts (entries : list (string * Json)) :
  validateEntries validUrl stringOf entries = Return tt
  <-> forall n c, In (n, c) entries ->
        ConfigLoader.validName n
        /\ validateServerConfig validUrl stringOf n c = Return tt.
Proof.
  induction entries as [|[n c] entries IH]; simpl.
  - split; [intros _ n c [] | reflexivity].
  - unfold ConfigLoader.validName.
    destruct (ConfigLoader.validateServerName n) as [[]|e] eqn:En.
    + destruct (validateServerConfig validUrl stringOf n c) as [[]|e] eqn:Ec.
      * rewrite IH. split.
        -- intros H n' c' [E|Hin]; [injection E as <- <-; now split|].
           now apply H.
        -- intros H n' c' Hin. apply H. now right.
      * split; [discriminate|]. intros H.
        destruct (H n c (or_introl eq_refl)) as [_ H2]. congruence.
    + split; [discriminate|]. intros H.
      destruct (H n c (or_introl eq_refl)) as [H1 _]. congruence.
Qed.

Lemma validateServerName_rejects (n : string) :
  JsString.includes "___" n = true \/ ConfigLoader.nameRegexTest n = false ->
  exists e, ConfigLoader.validateServerName n = Throw e.
Proof.
  unfold ConfigLoader.validateServerName. intros H.
  destruct (JsString.falsy n); [eexists; reflexivity|].
  destruct (ConfigLoader.nameRegexTest n); simpl.
  - destruct H as [->|H]; [eexists; reflexivity | discriminate H].
  - eexists; reflexivity.
Qed.

End ConfigFacts.

(** X19.  [validateConfig] accepts a parsed configuration exactly when it
    is an object whose [mcpServers] is an object with at least one entry
    and every entry passes both the name check and the server check; one
    failing entry rejects the whole configuration.  In particular a
    configuration with a server name that contains [___], or a character
    outside letters, digits, underscore and hyphen, is rejected. *)
Theorem validateConfig_all_or_nothing (validUrl : string -> bool)
    (stringOf : Json -> string)
    (objectEntries : Json -> list (string * Json)) (config : Json) :
  (ServerConfig.validateConfig validUrl stringOf objectEntries config
     = Return tt
   <-> truthy config = true /\ ServerConfig.typeofObject config = true
       /\ exists servers,
            ServerConfig.field "mcpServers" config = Some servers
            /\ truthy servers = true
            /\ ServerConfig.typeofObject servers = true
            /\ objectEntries servers <> []
            /\ forall n c, In (n, c) (objectEntries servers) ->
                 ConfigLoader.validName n
                 /\ ServerConfig.validateServerConfig validUrl stringOf n c
                    = Return tt)
  /\ (forall servers n c,
        ServerConfig.field "mcpServers" config = Some servers ->
        In (n, c) (objectEntries servers) ->
        JsString.includes "___" n = true
        \/ ConfigLoader.nameRegexTest n = false ->
        exists e,
          ServerConfig.validateConfig validUrl stringOf objectEntries config
            = Throw e).
Proof.
  assert (Hiff :
    ServerConfig.validateConfig validUrl stringOf objectEntries config
      = Return tt
    <-> truthy config = true /\ ServerConfig.typeofObject config = true
        /\ exists servers,
             ServerConfig.field "mcpServers" config = Some servers
             /\ truthy servers = true
             /\ ServerConfig.typeofObject servers = true
             /\ objectEntries servers <> []
             /\ forall n c, In (n, c) (objectEntries servers) ->
                  ConfigLoader.validName n
                  /\ ServerConfig.validateServerConfig validUrl stringOf n c
                     = Return tt).
  { unfold ServerConfig.validateConfig.
    destruct (truthy config); simpl;
      [|split; [discriminate | intros (H & _); discriminate H]].
    destruct (ServerConfig.typeofObject config); simpl;
      [|split; [discriminate | intros (_ & H & _); discriminate H]].
    destruct (ServerConfig.field "mcpServers" config) as [servers|];
      [|split; [discriminate | intros (_ & _ & s & H & _); discriminate H]].
    destruct (truthy servers) eqn:Et; simpl;
      [|split; [discriminate|];
        intros (_ & _ & s & H & H' & _); injection H as <-; congruence].
    destruct (ServerConfig.typeofObject servers) eqn:Eo; simpl;
      [|split; [discriminate|];
        intros (_ & _ & s & H & _ & H' & _); injection H as <-; congruence].
    destruct (objectEntries servers) as [|entry entries] eqn:Ee.
    - simpl. split; [discriminate|].
      intros (_ & _ & s & H & _ & _ & H' & _). injection H as <-.
      now rewrite Ee in H'.
    - cbn [length Nat.eqb]. rewrite validateEntries_accepts. split.
      + intros H. split; [reflexivity|]. split; [reflexivity|].
        exists servers. rewrite Ee.
        split; [reflexivity|]. split; [exact Et|]. split; [exact Eo|].
        split; [discriminate | exact H].
      + intros (_ & _ & s & H & _ & _ & _ & H'). injection H as <-.
        now rewrite Ee in H'. }
  split; [exact Hiff|].
  intros servers n c Hs Hin Hbad.
  destruct (ServerConfig.validateConfig validUrl stringOf objectEntries config)
    as [[]|e] eqn:E; [|now exists e].
  exfalso.
  destruct (proj1 Hiff eq_refl) as (_ & _ & s & Hs' & _ & _ & _ & Hall).
  rewrite Hs in Hs'. injection Hs' as <-.
  destruct (Hall n c Hin) as [Hv _].
  destruct (validateServerName_rejects n Hbad) as [e He].
  unfold ConfigLoader.validName in Hv. congruence.
Qed.

Section ConnectorFacts.

Local Open Scope string_scope.
Import ServerConfig.

Lemma stdio_accepted (name : string) (cfg : Json) :
  validateStdioConfig name cfg = Return tt ->
  exists command, field "command" cfg = Some (JStr command) /\ command <> "".
Proof.
  unfold validateStdioConfig. intros H.
  destruct (field "command" cfg) as [v|]; [|discriminate H].
  destruct v as [ | b | z | command | items | fields ]; simpl in H;
    try discriminate H;
    try (rewrite orb_true_r in H; discriminate H).
  exists command. split; [reflexivity|]. intros ->. discriminate H.
Qed.

Lemma url_accepted (label : string) (validUrl : string -> bool)
    (name : string) (cfg : Json) :
  validateUrlConfig label validUrl name cfg = Return tt ->
  exists url, field "url" cfg = Some (JStr url) /\ url <> ""
              /\ validUrl url = true.
Proof.
  unfold validateUrlConfig. intros H.
  destruct (field "url" cfg) as [v|]; [|discriminate H].
  destruct v as [ | b | z | url | items | fields ]; try discriminate H.
  exists url. split; [reflexivity|].
  destruct (JsString.falsy url) eqn:Ef; [discriminate H|].
  destruct (validUrl url); [|discriminate H].
  split; [intros ->; discriminate Ef | reflexivity].
Qed.

End ConnectorFacts.

(** X20.  For a server entry that [validateServerConfig] accepts,
    [createConnector] never throws and never reaches its branch for
    URLs without a type: the entry is a stdio server (its type is
    missing, falsy or [stdio]) with a non-empty string [command] and gets
    a [StdioConnector]; or its type is [sse], its [url] parses, and it
    gets an [AutoConnector]; or its type is [streamable-http], its [url]
    parses, and it gets a [StreamableHttpConnector].  An entry without a
    type and without a non-empty string [command] is rejected, whatever
    its [url]. *)
Theorem loaded_server_connector (validUrl : string -> bool)
    (stringOf : Json -> string) (name : string) (cfg : Json) :
  (ServerConfig.validateServerConfig validUrl stringOf name cfg = Return tt ->
   (ServerConfig.caseOf (ServerConfig.serverTypeOf cfg) "stdio" = true
    /\ ServerConfig.createConnector stringOf name cfg
       = Return ServerConfig.StdioConnector
    /\ exists command,
         ServerConfig.field "command" cfg = Some (JStr command)
         /\ command <> ""%string)
   \/ (ServerConfig.caseOf (ServerConfig.serverTypeOf cfg) "sse" = true
       /\ ServerConfig.createConnector stringOf name cfg
          = Return ServerConfig.AutoConnector
       /\ exists url,
            ServerConfig.field "url" cfg = Some (JStr url)
            /\ url <> ""%string /\ validUrl url = true)
   \/ (ServerConfig.caseOf (ServerConfig.serverTypeOf cfg) "streamable-http"
         = true
       /\ ServerConfig.createConnector stringOf name cfg
          = Return ServerConfig.StreamableHttpConnector
       /\ exists url,
            ServerConfig.field "url" cfg = Some (JStr url)
            /\ url <> ""%string /\ validUrl url = true))
  /\ (ServerConfig.missingOrFalsy (ServerConfig.field "type" cfg) = true ->
      (forall command,
          ServerConfig.field "command" cfg = Some (JStr command) ->
          command = ""%string) ->
      exists e,
        ServerConfig.validateServerConfig validUrl stringOf name cfg = Throw e).
Proof.
  split.
  - unfold ServerConfig.validateServerConfig, ServerConfig.createConnector.
    intros H.
    destruct (negb (truthy cfg) || negb (ServerConfig.typeofObject cfg));
      [discriminate H|].
    cbv zeta in *.
    destruct (ServerConfig.caseOf (ServerConfig.serverTypeOf cfg) "stdio").
    { left. split; [reflexivity|]. split; [reflexivity|].
      exact (stdio_accepted name cfg H). }
    destruct (ServerConfig.caseOf (ServerConfig.serverTypeOf cfg) "sse").
    { right. left. split; [reflexivity|]. split; [reflexivity|].
      exact (url_accepted "sse" validUrl name cfg H). }
    destruct (ServerConfig.caseOf (ServerConfig.serverTypeOf cfg)
                "streamable-http"); [|discriminate H].
    right. right. split; [reflexivity|]. split; [reflexivity|].
    exact (url_accepted "streamable-http" validUrl name cfg H).
  - intros Hty Hcmd.
    destruct (ServerConfig.validateServerConfig validUrl stringOf name cfg)
      as [[]|e] eqn:E; [|now exists e].
    exfalso. unfold ServerConfig.validateServerConfig in E.
    destruct (negb (truthy cfg) || negb (ServerConfig.typeofObject cfg));
      [discriminate E|].
    cbv zeta in E.
    assert (Hs : ServerConfig.serverTypeOf cfg = JStr "stdio").
    { unfold ServerConfig.serverTypeOf, orElse.
      unfold ServerConfig.missingOrFalsy in Hty.
      destruct (ServerConfig.field "type" cfg) as [v|]; [|reflexivity].
      apply negb_true_iff in Hty. now rewrite Hty. }
    rewrite Hs in E. cbn [ServerConfig.caseOf String.eqb Ascii.eqb Bool.eqb] in E.
    simpl in E.
    destruct (stdio_accepted name cfg E) as (command & Hc & Hne).
    now apply Hne, Hcmd.
Qed.

Lemma loaded_server_connector_witness :
  ServerConfig.createConnector (fun _ => ""%string) "example-stdio" Fixture.echo
    = Return ServerConfig.StdioConnector
  /\ exists e,
       ServerConfig.validateServerConfig (fun _ => true) (fun _ => ""%string)
         "url-only" (JObj [("url"%string, JStr "http://localhost:8080/mcp")])
       = Throw e.
Proof.
  destruct (loaded_server_connector (fun _ => true) (fun _ => ""%string)
              "example-stdio" Fixture.echo) as [H _].
  destruct (loaded_server_connector (fun _ => true) (fun _ => ""%string)
              "url-only" (JObj [("url"%string, JStr "http://localhost:8080/mcp")]))
    as [_ H'].
  split.
  - destruct (H eq_refl) as [(_ & H1 & _)|[(H1 & _)|(H1 & _)]];
      [exact H1 | discriminate H1 | discriminate H1].
  - apply H'; [reflexivity | intros command Hc; discriminate Hc].
Defined.

(** ** The registry of the three kinds *)

Section RegisterNothing.

Context {Item Registered : Type} {C : Capability Item Registered}.
Import Registry.

(** Registering the empty list for an upstream clears it. *)
Lemma register_nothing (u : string) (r : Registry.t Registered) :
  (forall k, getEntry k (fst (registerEntries u [] r))
             = if owns u k r then None else getEntry k r)
  /\ getServerEntries u (fst (registerEntries u [] r)) = []
  /\ getServerEntryCount u (fst (registerEntries u [] r)) = 0
  /\ In u (getServerNames (fst (registerEntries u [] r))).
Proof.
  split; [|split; [|split]].
  - intros k. rewrite register_get, get_cleared. simpl.
    now destruct (owns u k r), (getEntry k r).
  - unfold registerEntries, getServerEntries. simpl. now rewrite get_set_eq.
  - unfold registerEntries, getServerEntryCount. simpl. now rewrite get_set_eq.
  - unfold registerEntries, getServerNames. simpl.
    apply get_Some_keys. now rewrite get_set_eq.
Qed.

End RegisterNothing.

Section CompositeFacts.

Lemma composite_consistent (calls : list CapabilityRegistry.Call) :
  RegistryCalls.consistent
    (CapabilityRegistry.toolRegistry (CapabilityRegistry.after calls))
  /\ RegistryCalls.consistent
       (CapabilityRegistry.resourceRegistry (CapabilityRegistry.after calls))
  /\ RegistryCalls.consistent
       (CapabilityRegistry.promptRegistry (CapabilityRegistry.after calls)).
Proof.
  unfold CapabilityRegistry.after.
  assert (H0 : RegistryCalls.consistent
                 (CapabilityRegistry.toolRegistry CapabilityRegistry.empty)
               /\ RegistryCalls.consistent
                    (CapabilityRegistry.resourceRegistry CapabilityRegistry.empty)
               /\ RegistryCalls.consistent
                    (CapabilityRegistry.promptRegistry CapabilityRegistry.empty)).
  { repeat split; try constructor; try contradiction; discriminate. }
  revert H0. generalize CapabilityRegistry.empty.
  induction calls as [|c calls IH]; intros r Hr; [exact Hr|].
  simpl. apply IH. destruct Hr as (Ht & Hr & Hp).
  destruct c as [u tools|u resources|u prompts|u|]; simpl.
  - split; [|split]; try assumption.
    apply (consistent_register u tools _ Ht).
  - split; [|split]; try assumption.
    apply (consistent_register u resources _ Hr).
  - split; [|split]; try assumption.
    apply (consistent_register u prompts _ Hp).
  - split; [|split].
    + apply (consistent_clearServer (Item := MCPTool.t) u _ Ht).
    + apply (consistent_clearServer (Item := MCPResource.t) u _ Hr).
    + apply (consistent_clearServer (Item := MCPPrompt.t) u _ Hp).
  - repeat split; try constructor; try contradiction; discriminate.
Qed.

Lemma names_added (names : list string) : forall acc x,
  In x (fold_left (fun s name => JsSet.add name s) names acc)
  <-> In x acc \/ In x names.
Proof.
  induction names as [|n names IH]; intros acc x; simpl.
  - tauto.
  - rewrite IH. unfold JsSet.add.
    destruct (JsSet.has n acc) eqn:E.
    + apply set_has_In in E. split; [tauto|].
      intros [H|[<-|H]]; tauto.
    + rewrite in_app_iff. simpl. tauto.
Qed.

Lemma count_split {A : Type} (keep : A -> bool) (l : list A) :
  length (filter (fun x => negb (keep x)) l) + length (filter keep l)
    = length l.
Proof.
  induction l as [|x l IH]; [reflexivity|].
  simpl. destruct (keep x); simpl; lia.
Qed.

End CompositeFacts.

(** X21.  [CapabilityRegistry.clearServer], on a registry reached by any
    calls, removes exactly the upstream's tools, resources and prompts
    from the three listings and keeps the rest in order; each total of
    [getSummary] drops by the number of records the upstream had; and the
    upstream is no longer among the server names that [getSummary]
    counts. *)
Theorem composite_clearServer (calls : list CapabilityRegistry.Call)
    (u : string) :
  let reg := CapabilityRegistry.after calls in
  let reg' := CapabilityRegistry.clearServer u reg in
  ToolRegistry.getAllTools (CapabilityRegistry.toolRegistry reg')
    = filter (fun t => negb (String.eqb (RegisteredTool.serverName t) u))
        (ToolRegistry.getAllTools (CapabilityRegistry.toolRegistry reg))
  /\ ResourceRegistry.getAllResources (CapabilityRegistry.resourceRegistry reg')
     = filter (fun r => negb (String.eqb (RegisteredResource.serverName r) u))
         (ResourceRegistry.getAllResources
            (CapabilityRegistry.resourceRegistry reg))
  /\ PromptRegistry.getAllPrompts (CapabilityRegistry.promptRegistry reg')
     = filter (fun p => negb (String.eqb (RegisteredPrompt.serverName p) u))
         (PromptRegistry.getAllPrompts (CapabilityRegistry.promptRegistry reg))
  /\ CapabilitySummary.totalTools (CapabilityRegistry.getSummary reg')
     + ToolRegistry.getServerToolCount u (CapabilityRegistry.toolRegistry reg)
     = CapabilitySummary.totalTools (CapabilityRegistry.getSummary reg)
  /\ CapabilitySummary.totalResources (CapabilityRegistry.getSummary reg')
     + ResourceRegistry.getServerResourceCount u
         (CapabilityRegistry.resourceRegistry reg)
     = CapabilitySummary.totalResources (CapabilityRegistry.getSummary reg)
  /\ CapabilitySummary.totalPrompts (CapabilityRegistry.getSummary reg')
     + length (PromptRegistry.getServerPrompts u
                 (CapabilityRegistry.promptRegistry reg))
     = CapabilitySummary.totalPrompts (CapabilityRegistry.getSummary reg)
  /\ ~ In u (CapabilityRegistry.allServerNames reg').
Proof.
  intros reg reg'. destruct (composite_consistent calls) as (Ht & Hr & Hp).
  fold reg in Ht, Hr, Hp.
  assert (G : forall (Item Registered : Type) (C : Capability Item Registered)
                (F : RegisteredFields Registered)
                (L : RegisteredAs Item Registered) (r : Registry.t Registered),
             RegistryCalls.consistent r ->
             Registry.getAllEntries (Registry.clearServerEntries u r)
               = filter (fun e => negb (String.eqb (serverNameOf e) u))
                        (Registry.getAllEntries r)
             /\ Registry.getTotalEntryCount (Registry.clearServerEntries u r)
                + length (Registry.getServerEntries u r)
                = Registry.getTotalEntryCount r).
  { intros Item Registered C F L r Hc.
    assert (Hall : Registry.getAllEntries (Registry.clearServerEntries u r)
              = filter (fun e => negb (String.eqb (serverNameOf e) u))
                       (Registry.getAllEntries r)).
    { rewrite (clearServer_shape u r Hc).
      unfold Registry.getAllEntries. cbn [Registry.entries].
      apply (values_filter (fun e => negb (String.eqb (serverNameOf e) u))). }
    split; [exact Hall|].
    replace (Registry.getTotalEntryCount (Registry.clearServerEntries u r))
      with (length (Registry.getAllEntries (Registry.clearServerEntries u r)))
      by (unfold Registry.getAllEntries, JsMap.values; apply length_map).
    replace (Registry.getTotalEntryCount r)
      with (length (Registry.getAllEntries r))
      by (unfold Registry.getAllEntries, JsMap.values; apply length_map).
    rewrite Hall, (proj1 (consistent_serverEntries u r Hc)).
    apply count_split. }
  destruct (G _ _ _ _ ToolRegisteredAs _ Ht) as [T1 T2].
  destruct (G _ _ _ _ ResourceRegisteredAs _ Hr) as [R1 R2].
  destruct (G _ _ _ _ PromptRegisteredAs _ Hp) as [P1 P2].
  split; [exact T1|]. split; [exact R1|]. split; [exact P1|].
  split.
  { unfold ToolRegistry.getServerToolCount.
    rewrite (proj2 (consistent_serverEntries u _ Ht)). exact T2. }
  split.
  { unfold ResourceRegistry.getServerResourceCount.
    rewrite (proj2 (consistent_serverEntries u _ Hr)). exact R2. }
  split; [exact P2|].
  unfold CapabilityRegistry.allServerNames. rewrite names_added.
  intros [[]|Hin]. rewrite !in_app_iff in Hin.
  destruct Hin as [Hin|[Hin|Hin]]; revert Hin; apply get_None_keys;
    apply cleared_no_index.
Qed.

(** X22.  A rediscovery whose [tools/list] request is rejected, or is
    answered without a result, wipes the tools of the upstream: after
    [discoverServerCapabilities], nothing is served for it, its count is
    zero, every tool it owned is gone from the registry, the tools of the
    other upstreams are as before, and the upstream is still listed as a
    server name. *)
Theorem failed_list_wipes_the_tools (mgr : UpstreamManager.t) (name : string)
    (messageId : nat) (send : BaseConnector.Send)
    (registry : CapabilityRegistry.t) :
  let found :=
    fst (fst (BaseConnector.discoverCapabilities name messageId send)) in
  let tools := CapabilityRegistry.toolRegistry registry in
  let tools' :=
    CapabilityRegistry.toolRegistry
      (discoverServerCapabilities mgr name (Return found) registry) in
  JsMap.has name (UpstreamManager.connectors mgr) = true ->
  JsMap.has name (UpstreamManager.connections mgr) = true ->
  (exists e, send {| ListRequest.id := messageId + 1;
                     ListRequest.method := "tools/list" |} = Throw e)
  \/ send {| ListRequest.id := messageId + 1;
             ListRequest.method := "tools/list" |} = Return None ->
  ToolRegistry.getServerTools name tools' = []
  /\ ToolRegistry.getServerToolCount name tools' = 0
  /\ (forall p, Registry.owns name p tools = true ->
                ToolRegistry.getTool p tools' = None)
  /\ (forall p, Registry.owns name p tools = false ->
                ToolRegistry.getTool p tools' = ToolRegistry.getTool p tools)
  /\ In name (ToolRegistry.getServerNames tools').
Proof.
  intros found tools tools' Hc Hn Hsend.
  assert (Hnone : Discovery.tools found = []).
  { unfold found, BaseConnector.discoverCapabilities.
    destruct (BaseConnector.discoverPrompts name send (messageId + 3))
      as [done out].
    cbn [fst Discovery.tools]. unfold BaseConnector.discoverTools.
    destruct Hsend as [[e ->]| ->]; reflexivity. }
  assert (Ht : tools'
               = fst (ToolRegistry.registerTools name [] tools)).
  { unfold tools', discoverServerCapabilities. rewrite Hc, Hn. simpl.
    now rewrite Hnone. }
  rewrite Ht.
  destruct (register_nothing (C := ToolCapability) name tools)
    as (H1 & H2 & H3 & H4).
  split; [exact H2|]. split; [exact H3|].
  split; [|split; [|exact H4]].
  - intros p Hp. unfold ToolRegistry.getTool, ToolRegistry.registerTools.
    rewrite H1. now rewrite Hp.
  - intros p Hp. unfold ToolRegistry.getTool, ToolRegistry.registerTools.
    rewrite H1. now rewrite Hp.
Qed.

Lemma failed_list_wipes_the_tools_witness :
  let registry' :=
    discoverServerCapabilities Fixture.knowsCalc "calc"
      (Return (fst (fst (BaseConnector.discoverCapabilities "calc" 0
                           Fixture.noTools))))
      Fixture.calcRegistered in
  ToolRegistry.getTool "calc___add"
    (CapabilityRegistry.toolRegistry Fixture.calcRegistered)
    = Some Fixture.calcAdd
  /\ ToolRegistry.getTool "calc___add"
       (CapabilityRegistry.toolRegistry registry') = None
  /\ ToolRegistry.getTool "notes___add"
       (CapabilityRegistry.toolRegistry registry') = Some Fixture.notesAdd.
Proof.
  intros registry'.
  destruct (failed_list_wipes_the_tools Fixture.knowsCalc "calc" 0
              Fixture.noTools Fixture.calcRegistered)
    as (_ & _ & H1 & H2 & _);
    [reflexivity | reflexivity | left; eexists; reflexivity |].
  split; [reflexivity|]. split.
  - apply H1. reflexivity.
  - unfold registry'. rewrite H2; reflexivity.
Defined.

(** ** Reconciling the tables with a new configuration *)

Section SetOfFacts.

Lemma setOf_In (names : list string) (x : string) :
  In x (Reconcile.setOf names) <-> In x names.
Proof. unfold Reconcile.setOf. rewrite names_added. simpl. tauto. Qed.

Lemma setOf_has (names : list string) (x : string) :
  JsSet.has x (Reconcile.setOf names) = true <-> In x names.
Proof. now rewrite set_has_In, setOf_In. Qed.

Lemma setOf_unique (names : list string) : NoDup (Reconcile.setOf names).
Proof.
  unfold Reconcile.setOf.
  assert (G : forall acc, NoDup acc ->
            NoDup (fold_left (fun s name => JsSet.add name s) names acc)).
  { induction names as [|n names IH]; intros acc Hacc; [exact Hacc|].
    simpl. apply IH. unfold JsSet.add.
    destruct (JsSet.has n acc) eqn:E; [exact Hacc|].
    apply NoDup_app; [exact Hacc | repeat constructor; intros [] |].
    intros x Hx [<-|[]]. apply set_has_In in Hx. congruence. }
  apply G. constructor.
Qed.

Lemma has_keys {V : Type} (k : string) (m : JsMap.t V) :
  JsMap.has k m = true <-> In k (JsMap.keys m).
Proof.
  rewrite has_get. split; [apply get_Some_keys|].
  intros Hin Hnone. now apply get_None_keys in Hnone.
Qed.

End SetOfFacts.

Section ReconcileFacts.

Import Reconcile.
Variable stringOf : Json -> string.
Variable stringify : option Json -> option string.
Variables disconnect connect : string -> Completion unit.
Variable newConfig : list (string * Json).

Implicit Types (t : Tables) (n k : string).

Abbreviation removeOne' := (removeOne disconnect).
Abbreviation updateOne' := (updateOne stringOf disconnect connect newConfig).
Abbreviation addOne' := (addOne stringOf connect newConfig).

(** What one turn of a loop does to the other upstreams: nothing. *)
Lemma removeServer_frame t n k :
  k <> n ->
  JsMap.get k (connectors (fst (removeServer disconnect n t)))
    = JsMap.get k (connectors t)
  /\ JsMap.get k (connections (fst (removeServer disconnect n t)))
     = JsMap.get k (connections t).
Proof.
  intros Hk. unfold removeServer.
  destruct (JsMap.get n (connectors t)); [|now split].
  destruct (disconnect n); [|now split]. simpl.
  rewrite !get_delete.
  now rewrite (proj2 (String.eqb_neq n k) (fun E => Hk (eq_sym E))).
Qed.

Lemma addServer_frame t n k (cfg : Json) :
  k <> n ->
  JsMap.get k (connectors (fst (addServer stringOf connect n cfg t)))
    = JsMap.get k (connectors t)
  /\ JsMap.get k (connections (fst (addServer stringOf connect n cfg t)))
     = JsMap.get k (connections t).
Proof.
  intros Hk. unfold addServer.
  destruct (JsMap.has n (connectors t)); [now split|].
  destruct (ServerConfig.createConnector stringOf n cfg); [|now split].
  assert (Hn : n <> k) by (intros E; now apply Hk).
  destruct (connect n); simpl; now rewrite !(get_set_ne _ _ _ _ Hn).
Qed.

Lemma removeOne_frame t n k :
  k <> n ->
  JsMap.get k (connectors (removeOne' t n)) = JsMap.get k (connectors t)
  /\ JsMap.get k (connections (removeOne' t n)) = JsMap.get k (connections t).
Proof. apply removeServer_frame. Qed.

Lemma updateOne_frame t n k :
  k <> n ->
  JsMap.get k (connectors (updateOne' t n)) = JsMap.get k (connectors t)
  /\ JsMap.get k (connections (updateOne' t n)) = JsMap.get k (connections t).
Proof.
  intros Hk. unfold updateOne.
  pose proof (removeServer_frame t n k Hk) as [R1 R2].
  destruct (removeServer disconnect n t) as [t' [e|]]; simpl in *;
    [now split|].
  destruct (JsMap.get n newConfig) as [cfg|]; [|now split].
  destruct (addServer_frame t' n k cfg Hk) as [A1 A2].
  now rewrite A1, A2.
Qed.

Lemma addOne_frame t n k :
  k <> n ->
  JsMap.get k (connectors (addOne' t n)) = JsMap.get k (connectors t)
  /\ JsMap.get k (connections (addOne' t n)) = JsMap.get k (connections t).
Proof.
  intros Hk. unfold addOne.
  destruct (JsMap.get n newConfig) as [cfg|]; [|now split].
  now apply addServer_frame.
Qed.

Lemma loop_frame (f : Tables -> string -> Tables) (names : list string)
    (k : string) :
  (forall t n, k <> n ->
     JsMap.get k (connectors (f t n)) = JsMap.get k (connectors t)
     /\ JsMap.get k (connections (f t n)) = JsMap.get k (connections t)) ->
  ~ In k names ->
  forall t,
    JsMap.get k (connectors (fold_left f names t)) = JsMap.get k (connectors t)
    /\ JsMap.get k (connections (fold_left f names t))
       = JsMap.get k (connections t).
Proof.
  intros Hf. induction names as [|n names IH]; intros Hk t; [now split|].
  simpl. destruct (IH (fun H => Hk (or_intror H)) (f t n)) as [H1 H2].
  destruct (Hf t n (fun E => Hk (or_introl (eq_sym E)))) as [F1 F2].
  now rewrite H1, H2, F1, F2.
Qed.

End ReconcileFacts.

Section ReconcileRuns.

Import Reconcile.
Variable stringOf : Json -> string.
Variable stringify : option Json -> option string.
Variables disconnect connect : string -> Completion unit.
Variable newConfig : list (string * Json).

Hypothesis disconnected : forall n, disconnect n = Return tt.
Hypothesis buildable : forall n cfg,
  JsMap.get n newConfig = Some cfg ->
  exists connector, ServerConfig.createConnector stringOf n cfg = Return connector.

Implicit Types (t : Tables) (n k : string).

Abbreviation removeOne'' := (removeOne disconnect).
Abbreviation updateOne'' := (updateOne stringOf disconnect connect newConfig).
Abbreviation addOne'' := (addOne stringOf connect newConfig).

Lemma has_delete {V : Type} (n k : string) (m : JsMap.t V) :
  JsMap.has k (JsMap.delete n m)
    = if String.eqb n k then false else JsMap.has k m.
Proof.
  unfold JsMap.has. rewrite get_delete. now destruct (String.eqb n k).
Qed.

Lemma has_set {V : Type} (n k : string) (v : V) (m : JsMap.t V) :
  JsMap.has k (JsMap.set n v m)
    = if String.eqb n k then true else JsMap.has k m.
Proof.
  unfold JsMap.has. destruct (String.eqb_spec n k) as [->|Hne].
  - now rewrite get_set_eq.
  - now rewrite (get_set_ne _ _ _ _ Hne).
Qed.

Lemma removeServer_paired t n :
  paired t -> paired (fst (removeServer disconnect n t)).
Proof.
  intros (Hc & Hn & Hsame). unfold removeServer.
  destruct (JsMap.get n (connectors t)); [|now repeat split].
  destruct (disconnect n); [|now repeat split]. simpl.
  split; [now apply keys_unique_filter|].
  split; [now apply keys_unique_filter|].
  intros k. simpl. now rewrite !has_delete, Hsame.
Qed.

Lemma removeServer_at t n :
  paired t ->
  snd (removeServer disconnect n t) = None
  /\ JsMap.has n (connectors (fst (removeServer disconnect n t))) = false
  /\ JsMap.get n (connectors (fst (removeServer disconnect n t))) = None
  /\ JsMap.get n (connections (fst (removeServer disconnect n t))) = None.
Proof.
  intros (_ & _ & Hsame). unfold removeServer.
  pose proof (Hsame n) as Hn. unfold JsMap.has in Hn |- *.
  destruct (JsMap.get n (connectors t)) eqn:E.
  - rewrite disconnected. simpl. now rewrite !get_delete_eq.
  - simpl. rewrite E. destruct (JsMap.get n (connections t));
      [discriminate Hn | now repeat split].
Qed.

Lemma addServer_paired t n (cfg : Json) :
  paired t -> paired (fst (addServer stringOf connect n cfg t)).
Proof.
  intros (Hc & Hn & Hsame). unfold addServer.
  destruct (JsMap.has n (connectors t)); [now repeat split|].
  destruct (ServerConfig.createConnector stringOf n cfg); [|now repeat split].
  assert (G : paired {| connectors := JsMap.set n a (connectors t);
                        connections := JsMap.set n cfg (connections t) |}).
  { split; [now apply keys_unique_set|].
    split; [now apply keys_unique_set|].
    intros k. simpl. now rewrite !has_set, Hsame. }
  now destruct (connect n).
Qed.

Lemma addServer_at t n (cfg : Json) (connector : ServerConfig.ConnectorClass) :
  ServerConfig.createConnector stringOf n cfg = Return connector ->
  JsMap.has n (connectors t) = false ->
  JsMap.get n (connectors (fst (addServer stringOf connect n cfg t)))
    = Some connector
  /\ JsMap.get n (connections (fst (addServer stringOf connect n cfg t)))
     = Some cfg.
Proof.
  intros Hmake Hfree. unfold addServer. rewrite Hfree, Hmake.
  destruct (connect n); simpl; now rewrite !get_set_eq.
Qed.

Lemma removeOne_paired t n : paired t -> paired (removeOne'' t n).
Proof. apply removeServer_paired. Qed.

Lemma updateOne_paired t n : paired t -> paired (updateOne'' t n).
Proof.
  intros Ht. unfold updateOne.
  pose proof (removeServer_paired t n Ht) as Hr.
  destruct (removeServer disconnect n t) as [t' [e|]]; simpl in Hr;
    [exact Hr|].
  destruct (JsMap.get n newConfig) as [cfg|]; [|exact Hr].
  now apply addServer_paired.
Qed.

Lemma addOne_paired t n : paired t -> paired (addOne'' t n).
Proof.
  intros Ht. unfold addOne.
  destruct (JsMap.get n newConfig) as [cfg|]; [|exact Ht].
  now apply addServer_paired.
Qed.

Lemma updateOne_at t n (cfg : Json) (connector : ServerConfig.ConnectorClass) :
  paired t ->
  JsMap.get n newConfig = Some cfg ->
  ServerConfig.createConnector stringOf n cfg = Return connector ->
  JsMap.get n (connectors (updateOne'' t n)) = Some connector
  /\ JsMap.get n (connections (updateOne'' t n)) = Some cfg.
Proof.
  intros Ht Hcfg Hmake. unfold updateOne.
  destruct (removeServer_at t n Ht) as (Hnone & Hfree & _).
  destruct (removeServer disconnect n t) as [t' thrown]. simpl in *.
  subst thrown. rewrite Hcfg. now apply addServer_at.
Qed.

Lemma addOne_at t n (cfg : Json) (connector : ServerConfig.ConnectorClass) :
  JsMap.get n newConfig = Some cfg ->
  ServerConfig.createConnector stringOf n cfg = Return connector ->
  JsMap.has n (connectors t) = false ->
  JsMap.get n (connectors (addOne'' t n)) = Some connector
  /\ JsMap.get n (connections (addOne'' t n)) = Some cfg.
Proof.
  intros Hcfg Hmake Hfree. unfold addOne. rewrite Hcfg.
  now apply addServer_at.
Qed.

Lemma loop_paired (f : Tables -> string -> Tables) (names : list string) :
  (forall t n, paired t -> paired (f t n)) ->
  forall t, paired t -> paired (fold_left f names t).
Proof.
  intros Hf. induction names as [|n names IH]; intros t Ht; [exact Ht|].
  simpl. apply IH. now apply Hf.
Qed.

Lemma remove_loop (names : list string) k : forall t,
  paired t -> In k names ->
  JsMap.get k (connectors (fold_left removeOne'' names t)) = None
  /\ JsMap.get k (connections (fold_left removeOne'' names t)) = None.
Proof.
  induction names as [|n names IH]; intros t Ht Hk; [contradiction|].
  simpl. destruct (in_dec string_dec k names) as [Hin|Hout].
  - apply IH; [now apply removeOne_paired | exact Hin].
  - destruct Hk as [->|Hk]; [|contradiction].
    destruct (loop_frame removeOne'' names k
                (fun t n Hne => removeOne_frame disconnect t n k Hne)
                Hout (removeOne'' t k)) as [H1 H2].
    rewrite H1, H2.
    destruct (removeServer_at t k Ht) as (_ & _ & G1 & G2). now split.
Qed.

Lemma update_loop (names : list string) k (cfg : Json)
    (connector : ServerConfig.ConnectorClass) : forall t,
  paired t -> In k names ->
  JsMap.get k newConfig = Some cfg ->
  ServerConfig.createConnector stringOf k cfg = Return connector ->
  JsMap.get k (connectors (fold_left updateOne'' names t)) = Some connector
  /\ JsMap.get k (connections (fold_left updateOne'' names t)) = Some cfg.
Proof.
  induction names as [|n names IH]; intros t Ht Hk Hcfg Hmake; [contradiction|].
  simpl. destruct (in_dec string_dec k names) as [Hin|Hout].
  - apply IH; [now apply updateOne_paired | assumption..].
  - destruct Hk as [->|Hk]; [|contradiction].
    destruct (loop_frame updateOne'' names k
                (fun t n Hne =>
                   updateOne_frame stringOf disconnect connect newConfig
                     t n k Hne)
                Hout (updateOne'' t k)) as [H1 H2].
    rewrite H1, H2. now apply updateOne_at.
Qed.

Lemma add_loop (names : list string) k (cfg : Json)
    (connector : ServerConfig.ConnectorClass) : forall t,
  NoDup names -> In k names ->
  JsMap.has k (connectors t) = false ->
  JsMap.get k newConfig = Some cfg ->
  ServerConfig.createConnector stringOf k cfg = Return connector ->
  JsMap.get k (connectors (fold_left addOne'' names t)) = Some connector
  /\ JsMap.get k (connections (fold_left addOne'' names t)) = Some cfg.
Proof.
  induction names as [|n names IH]; intros t Hnd Hk Hfree Hcfg Hmake;
    [contradiction|].
  inversion_clear Hnd as [|? ? Hn Hnd']. simpl.
  destruct Hk as [->|Hk].
  - destruct (loop_frame addOne'' names k
                (fun t n Hne => addOne_frame stringOf connect newConfig
                                  t n k Hne)
                Hn (addOne'' t k)) as [H1 H2].
    rewrite H1, H2. now apply addOne_at.
  - apply IH; try assumption.
    assert (Hne : k <> n) by (intros ->; contradiction).
    unfold JsMap.has in *.
    destruct (addOne_frame stringOf connect newConfig t n k Hne) as [F _].
    now rewrite F.
Qed.

End ReconcileRuns.

Lemma updateConnections_result (stringOf : Json -> string)
    (stringify : option Json -> option string)
    (disconnect connect : string -> Completion unit)
    (newConfig : list (string * Json)) (t : Reconcile.Tables) :
  let t' :=
    Reconcile.updateConnections stringOf stringify disconnect connect
      newConfig t in
  Reconcile.paired t ->
  (forall name, disconnect name = Return tt) ->
  (forall name cfg,
      JsMap.get name newConfig = Some cfg ->
      exists connector,
        ServerConfig.createConnector stringOf name cfg = Return connector) ->
  Reconcile.paired t'
  /\ (forall name,
        JsMap.has name (Reconcile.connectors t') = true
        <-> In name (JsMap.keys newConfig))
  /\ (forall name cfg,
        JsMap.get name newConfig = Some cfg ->
        exists cfg',
          JsMap.get name (Reconcile.connections t') = Some cfg'
          /\ stringify (Some cfg') = stringify (Some cfg))
  /\ (forall name,
        In name (JsMap.keys newConfig) ->
        JsMap.has name (Reconcile.connectors t) = true ->
        Reconcile.changed stringify newConfig t name = false ->
        JsMap.get name (Reconcile.connectors t')
          = JsMap.get name (Reconcile.connectors t)
        /\ JsMap.get name (Reconcile.connections t')
           = JsMap.get name (Reconcile.connections t)).
Proof.
  intros t' Ht Hdisc Hmake.
  set (A := Reconcile.serversToAdd newConfig t).
  set (Rm := Reconcile.serversToRemove newConfig t).
  set (U := Reconcile.serversToUpdate stringify newConfig t).
  set (t1 := fold_left (Reconcile.removeOne disconnect) Rm t).
  set (t2 := fold_left
               (Reconcile.updateOne stringOf disconnect connect newConfig) U t1).
  assert (Et : t' = fold_left (Reconcile.addOne stringOf connect newConfig) A t2)
    by reflexivity.
  assert (HA : forall k, In k A <-> In k (JsMap.keys newConfig)
                                    /\ JsMap.has k (Reconcile.connectors t) = false).
  { intros k. unfold A, Reconcile.serversToAdd. rewrite filter_In, setOf_In.
    rewrite negb_true_iff.
    destruct (JsSet.has k _) eqn:E, (JsMap.has k (Reconcile.connectors t)) eqn:E';
      try tauto.
    - apply setOf_has, has_keys in E. congruence.
    - apply has_keys, setOf_has in E'. congruence. }
  assert (HR : forall k, In k Rm <-> JsMap.has k (Reconcile.connectors t) = true
                                     /\ ~ In k (JsMap.keys newConfig)).
  { intros k. unfold Rm, Reconcile.serversToRemove.
    rewrite filter_In, setOf_In, negb_true_iff, <- has_keys.
    destruct (JsSet.has k _) eqn:E.
    - apply setOf_has in E. split; [intros [_ H]; discriminate H | tauto].
    - split; [|tauto]. intros [H _]. split; [exact H|].
      intros Hin. apply setOf_has in Hin. congruence. }
  assert (HU : forall k, In k U <-> In k (JsMap.keys newConfig)
                                    /\ JsMap.has k (Reconcile.connectors t) = true
                                    /\ Reconcile.changed stringify newConfig t k
                                       = true).
  { intros k. unfold U, Reconcile.serversToUpdate. rewrite filter_In, setOf_In.
    destruct (JsSet.has k _) eqn:E, (JsMap.has k (Reconcile.connectors t)) eqn:E';
      simpl; try tauto.
    - apply setOf_has, has_keys in E. congruence.
    - apply has_keys, setOf_has in E'. congruence.
    - split; [intros [_ H]; discriminate H | intros (_ & H & _); discriminate H]. }
  assert (P1 : Reconcile.paired t1).
  { apply loop_paired; [|exact Ht]. intros. now apply removeOne_paired. }
  assert (P2 : Reconcile.paired t2).
  { apply loop_paired; [|exact P1]. intros. now apply updateOne_paired. }
  assert (P3 : Reconcile.paired t').
  { rewrite Et. apply loop_paired; [|exact P2]. intros. now apply addOne_paired. }
  assert (F1 : forall k, ~ In k Rm ->
             JsMap.get k (Reconcile.connectors t1)
               = JsMap.get k (Reconcile.connectors t)
             /\ JsMap.get k (Reconcile.connections t1)
                = JsMap.get k (Reconcile.connections t)).
  { intros k Hk. apply loop_frame; [|exact Hk].
    intros t0 n Hne. now apply removeOne_frame. }
  assert (F2 : forall k, ~ In k U ->
             JsMap.get k (Reconcile.connectors t2)
               = JsMap.get k (Reconcile.connectors t1)
             /\ JsMap.get k (Reconcile.connections t2)
                = JsMap.get k (Reconcile.connections t1)).
  { intros k Hk. apply loop_frame; [|exact Hk].
    intros t0 n Hne. now apply updateOne_frame. }
  assert (F3 : forall k, ~ In k A ->
             JsMap.get k (Reconcile.connectors t')
               = JsMap.get k (Reconcile.connectors t2)
             /\ JsMap.get k (Reconcile.connections t')
                = JsMap.get k (Reconcile.connections t2)).
  { intros k Hk. rewrite Et. apply loop_frame; [|exact Hk].
    intros t0 n Hne. now apply addOne_frame. }
  assert (Hnew : forall k cfg connector,
             JsMap.get k newConfig = Some cfg ->
             ServerConfig.createConnector stringOf k cfg = Return connector ->
             (JsMap.has k (Reconcile.connectors t) = true ->
              Reconcile.changed stringify newConfig t k = false ->
              JsMap.get k (Reconcile.connectors t')
                = JsMap.get k (Reconcile.connectors t)
              /\ JsMap.get k (Reconcile.connections t')
                 = JsMap.get k (Reconcile.connections t))
             /\ (JsMap.has k (Reconcile.connectors t) = false
                 \/ Reconcile.changed stringify newConfig t k = true ->
                 JsMap.get k (Reconcile.connectors t') = Some connector
                 /\ JsMap.get k (Reconcile.connections t') = Some cfg)).
  { intros k cfg connector Hcfg Hbuild.
    assert (Hin : In k (JsMap.keys newConfig)).
    { apply get_Some_keys. now rewrite Hcfg. }
    assert (HnR : ~ In k Rm) by (rewrite HR; tauto).
    split.
    - intros Hhas Hsame.
      assert (HnU : ~ In k U) by (rewrite HU; intros (_ & _ & H); congruence).
      assert (HnA : ~ In k A) by (rewrite HA; intros (_ & H); congruence).
      destruct (F1 k HnR) as [A1 A2], (F2 k HnU) as [B1 B2],
        (F3 k HnA) as [C1 C2].
      split; congruence.
    - intros Hcase.
      destruct (JsMap.has k (Reconcile.connectors t)) eqn:Hhas.
      + destruct Hcase as [Hcase|Hch]; [discriminate Hcase|].
        assert (HiU : In k U) by (rewrite HU; tauto).
        assert (HnA : ~ In k A) by (rewrite HA; intros (_ & H); congruence).
        destruct (F3 k HnA) as [C1 C2]. rewrite C1, C2.
        exact (update_loop stringOf disconnect connect newConfig Hdisc
                 U k cfg connector t1 P1 HiU Hcfg Hbuild).
      + assert (HiA : In k A) by (rewrite HA; tauto).
        assert (HnU : ~ In k U) by (rewrite HU; intros (_ & H & _); congruence).
        rewrite Et.
        apply (add_loop stringOf connect newConfig); try assumption.
        * apply NoDup_filter, setOf_unique.
        * destruct (F1 k HnR) as [A1 _], (F2 k HnU) as [B1 _].
          unfold JsMap.has in *. now rewrite B1, A1. }
  assert (Hold : forall k, ~ In k (JsMap.keys newConfig) ->
             JsMap.get k (Reconcile.connectors t') = None).
  { intros k Hout.
    assert (HnU : ~ In k U) by (rewrite HU; tauto).
    assert (HnA : ~ In k A) by (rewrite HA; tauto).
    destruct (F2 k HnU) as [B1 _], (F3 k HnA) as [C1 _]. rewrite C1, B1.
    destruct (JsMap.has k (Reconcile.connectors t)) eqn:Hhas.
    - assert (HiR : In k Rm) by (rewrite HR; tauto).
      exact (proj1 (remove_loop disconnect Hdisc Rm k t Ht HiR)).
    - assert (HnR : ~ In k Rm) by (rewrite HR; intros (H & _); congruence).
      destruct (F1 k HnR) as [A1 _]. rewrite A1.
      now apply has_false_get. }
  split; [exact P3|]. split; [|split].
  - intros k. split.
    + intros Hhas. destruct (in_dec string_dec k (JsMap.keys newConfig))
        as [Hin|Hout]; [exact Hin|].
      unfold JsMap.has in Hhas. now rewrite (Hold k Hout) in Hhas.
    + intros Hin.
      destruct (JsMap.get k newConfig) as [cfg|] eqn:Hcfg;
        [|now apply get_None_keys in Hcfg].
      destruct (Hmake k cfg Hcfg) as [connector Hbuild].
      destruct (Hnew k cfg connector Hcfg Hbuild) as [Hkeep Hset].
      unfold JsMap.has.
      destruct (JsMap.has k (Reconcile.connectors t)) eqn:Hhas.
      * destruct (Reconcile.changed stringify newConfig t k) eqn:Hch.
        -- now rewrite (proj1 (Hset (or_intror eq_refl))).
        -- rewrite (proj1 (Hkeep eq_refl eq_refl)).
           unfold JsMap.has in Hhas.
           now destruct (JsMap.get k (Reconcile.connectors t)).
      * now rewrite (proj1 (Hset (or_introl eq_refl))).
  - intros k cfg Hcfg.
    destruct (Hmake k cfg Hcfg) as [connector Hbuild].
    destruct (Hnew k cfg connector Hcfg Hbuild) as [Hkeep Hset].
    destruct (JsMap.has k (Reconcile.connectors t)) eqn:Hhas.
    + destruct (Reconcile.changed stringify newConfig t k) eqn:Hch.
      * exists cfg. split; [exact (proj2 (Hset (or_intror eq_refl))) | reflexivity].
      * destruct (Hkeep eq_refl eq_refl) as [_ K2].
        destruct Ht as (_ & _ & Hsame). rewrite Hsame in Hhas.
        unfold JsMap.has in Hhas.
        destruct (JsMap.get k (Reconcile.connections t)) as [old|] eqn:Eo;
          [|discriminate Hhas].
        exists old. split; [exact K2|].
        unfold Reconcile.changed in Hch. rewrite Eo, Hcfg in Hch.
        apply negb_false_iff in Hch.
        destruct (stringify (Some old)) as [a|], (stringify (Some cfg)) as [b|];
          try discriminate Hch; [|reflexivity].
        apply String.eqb_eq in Hch. now subst.
    + exists cfg. split; [exact (proj2 (Hset (or_introl eq_refl))) | reflexivity].
  - intros k Hin Hhas Hsame.
    destruct (JsMap.get k newConfig) as [cfg|] eqn:Hcfg;
      [|now apply get_None_keys in Hcfg].
    destruct (Hmake k cfg Hcfg) as [connector Hbuild].
    now apply (Hnew k cfg connector Hcfg Hbuild).
Qed.

(** X23.  [updateConnections] reconciles the tables with the new
    configuration.  When every [disconnect] resolves and a connector can
    be built for every new entry, then afterwards the configured
    upstreams are exactly the names of the new configuration, each
    connection's config serialises like the new entry of its name, an
    upstream whose config serialises as before keeps its connector and
    connection untouched, and the two tables still pair up. *)
Theorem updateConnections_reconciles (stringOf : Json -> string)
    (stringify : option Json -> option string)
    (disconnect connect : string -> Completion unit)
    (newConfig : list (string * Json)) (t : Reconcile.Tables) :
  let t' :=
    Reconcile.updateConnections stringOf stringify disconnect connect
      newConfig t in
  Reconcile.paired t ->
  (forall name, disconnect name = Return tt) ->
  (forall name cfg,
      JsMap.get name newConfig = Some cfg ->
      exists connector,
        ServerConfig.createConnector stringOf name cfg = Return connector) ->
  Reconcile.paired t'
  /\ (forall name,
        JsMap.has name (Reconcile.connectors t') = true
        <-> In name (JsMap.keys newConfig))
  /\ (forall name cfg,
        JsMap.get name newConfig = Some cfg ->
        exists cfg',
          JsMap.get name (Reconcile.connections t') = Some cfg'
          /\ stringify (Some cfg') = stringify (Some cfg))
  /\ (forall name,
        In name (JsMap.keys newConfig) ->
        JsMap.has name (Reconcile.connectors t) = true ->
        Reconcile.changed stringify newConfig t name = false ->
        JsMap.get name (Reconcile.connectors t')
          = JsMap.get name (Reconcile.connectors t)
        /\ JsMap.get name (Reconcile.connections t')
           = JsMap.get name (Reconcile.connections t)).
Proof.
  exact (updateConnections_result stringOf stringify disconnect connect
           newConfig t).
Qed.

Lemma updateConnections_reconciles_witness :
  let t' :=
    Reconcile.updateConnections (fun _ => ""%string) Fixture.sizeOf
      Fixture.succeeds Fixture.succeeds Fixture.newServers Fixture.tables in
  (JsMap.has "old" (Reconcile.connectors t') = true
   <-> In "old"%string (JsMap.keys Fixture.newServers))
  /\ (JsMap.has "example-sse" (Reconcile.connectors t') = true
      <-> In "example-sse"%string (JsMap.keys Fixture.newServers)).
Proof.
  intros t'.
  destruct (updateConnections_reconciles (fun _ => ""%string) Fixture.sizeOf
              Fixture.succeeds Fixture.succeeds Fixture.newServers
              Fixture.tables) as (_ & H & _).
  - split; [|split].
    + repeat constructor; simpl; intuition discriminate.
    + repeat constructor; simpl; intuition discriminate.
    + intros name. unfold JsMap.has. cbn -[String.eqb].
      now destruct (String.eqb name "old"), (String.eqb name "example-stdio").
  - reflexivity.
  - intros name cfg. unfold Fixture.newServers. cbn -[String.eqb].
    destruct (String.eqb_spec name "example-stdio") as [->|_];
      [intros [= <-]; eexists; reflexivity|].
    destruct (String.eqb_spec name "example-sse") as [->|_];
      [intros [= <-]; eexists; reflexivity | discriminate].
  - split; apply H.
Defined.

(** X24.  Reconciling twice with the same configuration is reconciling
    once: when every [disconnect] resolves and a connector can be built
    for every entry, a second [updateConnections] with the same
    configuration finds nothing to add, remove or update and leaves both
    tables as they are, so no upstream is restarted. *)
Theorem updateConnections_idempotent (stringOf : Json -> string)
    (stringify : option Json -> option string)
    (disconnect connect : string -> Completion unit)
    (newConfig : list (string * Json)) (t : Reconcile.Tables) :
  let t' :=
    Reconcile.updateConnections stringOf stringify disconnect connect
      newConfig t in
  Reconcile.paired t ->
  (forall name, disconnect name = Return tt) ->
  (forall name cfg,
      JsMap.get name newConfig = Some cfg ->
      exists connector,
        ServerConfig.createConnector stringOf name cfg = Return connector) ->
  Reconcile.serversToAdd newConfig t' = []
  /\ Reconcile.serversToRemove newConfig t' = []
  /\ Reconcile.serversToUpdate stringify newConfig t' = []
  /\ Reconcile.updateConnections stringOf stringify disconnect connect
       newConfig t' = t'.
Proof.
  intros t' Ht Hdisc Hmake.
  destruct (updateConnections_result stringOf stringify disconnect connect
              newConfig t Ht Hdisc Hmake) as (Hp & Hnames & Hcfg & _).
  fold t' in Hp, Hnames, Hcfg.
  assert (Hnone : forall (keep : string -> bool) (names : list string),
             (forall x, In x names -> keep x = false) -> filter keep names = []).
  { intros keep names. induction names as [|n names IH]; intros Hall;
      [reflexivity|].
    simpl. rewrite (Hall n (or_introl eq_refl)). apply IH.
    intros x Hx. apply Hall. now right. }
  assert (HA : Reconcile.serversToAdd newConfig t' = []).
  { apply Hnone. intros x Hx. apply (proj1 (setOf_In _ _)) in Hx.
    apply negb_false_iff. apply (proj2 (setOf_has _ _)).
    apply (proj1 (has_keys _ _)). now apply (proj2 (Hnames x)). }
  assert (HR : Reconcile.serversToRemove newConfig t' = []).
  { apply Hnone. intros x Hx. apply (proj1 (setOf_In _ _)) in Hx.
    apply negb_false_iff. apply (proj2 (setOf_has _ _)).
    apply (proj1 (Hnames x)). now apply (proj2 (has_keys _ _)). }
  assert (HU : Reconcile.serversToUpdate stringify newConfig t' = []).
  { apply Hnone. intros x Hx. apply (proj1 (setOf_In _ _)) in Hx.
    destruct (negb (JsSet.has x _)); [reflexivity|].
    destruct (JsMap.get x newConfig) as [cfg|] eqn:E;
      [|now apply get_None_keys in E].
    destruct (Hcfg x cfg E) as (cfg' & Hget & Hsame).
    unfold Reconcile.changed. rewrite Hget, E, Hsame.
    destruct (stringify (Some cfg)); [now rewrite String.eqb_refl | reflexivity]. }
  split; [exact HA|]. split; [exact HR|]. split; [exact HU|].
  unfold Reconcile.updateConnections. now rewrite HA, HR, HU.
Qed.

Lemma updateConnections_idempotent_witness :
  let t' :=
    Reconcile.updateConnections (fun _ => ""%string) Fixture.sizeOf
      Fixture.succeeds Fixture.succeeds Fixture.newServers Fixture.tables in
  Reconcile.updateConnections (fun _ => ""%string) Fixture.sizeOf
    Fixture.succeeds Fixture.succeeds Fixture.newServers t' = t'.
Proof.
  intros t'.
  apply (updateConnections_idempotent (fun _ => ""%string) Fixture.sizeOf
           Fixture.succeeds Fixture.succeeds Fixture.newServers Fixture.tables).
  - split; [|split].
    + repeat constructor; simpl; intuition discriminate.
    + repeat constructor; simpl; intuition discriminate.
    + intros name. unfold JsMap.has. cbn -[String.eqb].
      now destruct (String.eqb name "old"), (String.eqb name "example-stdio").
  - reflexivity.
  - intros name cfg. unfold Fixture.newServers. cbn -[String.eqb].
    destruct (String.eqb_spec name "example-stdio") as [->|_];
      [intros [= <-]; eexists; reflexivity|].
    destruct (String.eqb_spec name "example-sse") as [->|_];
      [intros [= <-]; eexists; reflexivity | discriminate].
Defined.

(** X25.  An upstream whose config changed but whose [disconnect] rejects
    keeps its old connector and its old config: [updateConnections]
    logs the error and goes on, whatever happens to the other
    upstreams. *)
Theorem failed_disconnect_keeps_old_config (stringOf : Json -> string)
    (stringify : option Json -> option string)
    (disconnect connect : string -> Completion unit)
    (newConfig : list (string * Json)) (t : Reconcile.Tables)
    (name : string) (e : Thrown) :
  let t' :=
    Reconcile.updateConnections stringOf stringify disconnect connect
      newConfig t in
  In name (Reconcile.serversToUpdate stringify newConfig t) ->
  disconnect name = Throw e ->
  Reconcile.changed stringify newConfig t name = true
  /\ JsMap.get name (Reconcile.connectors t')
     = JsMap.get name (Reconcile.connectors t)
  /\ JsMap.get name (Reconcile.connections t')
     = JsMap.get name (Reconcile.connections t).
Proof.
  intros t' Hin Hfail.
  assert (HU : In name (JsMap.keys newConfig)
               /\ JsMap.has name (Reconcile.connectors t) = true
               /\ Reconcile.changed stringify newConfig t name = true).
  { unfold Reconcile.serversToUpdate in Hin.
    apply filter_In in Hin as [Hin Hc]. apply (proj1 (setOf_In _ _)) in Hin.
    destruct (JsSet.has name _) eqn:E; [|discriminate Hc]. simpl in Hc.
    apply (proj1 (setOf_has _ _)), (proj2 (has_keys _ _)) in E.
    now repeat split. }
  destruct HU as (Hnew & Hhas & Hch). split; [exact Hch|].
  assert (Hstep : forall t0,
             JsMap.has name (Reconcile.connectors t0) = true ->
             Reconcile.updateOne stringOf disconnect connect newConfig t0 name
               = t0).
  { intros t0 H0. unfold Reconcile.updateOne, Reconcile.removeServer.
    unfold JsMap.has in H0.
    destruct (JsMap.get name (Reconcile.connectors t0)); [|discriminate H0].
    now rewrite Hfail. }
  assert (Hloop : forall names t0,
             JsMap.has name (Reconcile.connectors t0) = true ->
             JsMap.get name
               (Reconcile.connectors
                  (fold_left
                     (Reconcile.updateOne stringOf disconnect connect newConfig)
                     names t0))
               = JsMap.get name (Reconcile.connectors t0)
             /\ JsMap.get name
                  (Reconcile.connections
                     (fold_left
                        (Reconcile.updateOne stringOf disconnect connect
                           newConfig)
                        names t0))
                = JsMap.get name (Reconcile.connections t0)).
  { induction names as [|n names IH]; intros t0 H0; [now split|].
    simpl. destruct (String.eqb_spec n name) as [->|Hne].
    - rewrite (Hstep t0 H0). now apply IH.
    - destruct (updateOne_frame stringOf disconnect connect newConfig t0 n name
                  (fun E => Hne (eq_sym E))) as [F1 F2].
      destruct (IH (Reconcile.updateOne stringOf disconnect connect newConfig
                      t0 n)) as [G1 G2].
      + unfold JsMap.has in *. now rewrite F1.
      + now rewrite G1, G2, F1, F2. }
  unfold t', Reconcile.updateConnections.
  set (t1 := fold_left (Reconcile.removeOne disconnect) _ t).
  assert (F1 : JsMap.get name (Reconcile.connectors t1)
               = JsMap.get name (Reconcile.connectors t)
               /\ JsMap.get name (Reconcile.connections t1)
                  = JsMap.get name (Reconcile.connections t)).
  { apply loop_frame; [intros t0 n Hne; now apply removeOne_frame|].
    unfold Reconcile.serversToRemove. rewrite filter_In.
    intros [_ H]. apply negb_true_iff in H.
    apply setOf_has in Hnew. congruence. }
  destruct F1 as [A1 A2].
  destruct (Hloop (Reconcile.serversToUpdate stringify newConfig t) t1)
    as [B1 B2].
  { unfold JsMap.has in *. now rewrite A1. }
  set (t2 := fold_left _ (Reconcile.serversToUpdate stringify newConfig t) t1)
    in *.
  destruct (loop_frame (Reconcile.addOne stringOf connect newConfig)
              (Reconcile.serversToAdd newConfig t) name
              (fun t0 n Hne => addOne_frame stringOf connect newConfig
                                 t0 n name Hne)) with (t := t2) as [C1 C2].
  { unfold Reconcile.serversToAdd. rewrite filter_In.
    intros [_ H]. apply negb_true_iff in H.
    apply has_keys, setOf_has in Hhas. congruence. }
  split; congruence.
Qed.

Lemma failed_disconnect_keeps_old_config_witness :
  JsMap.get "example-stdio"
    (Reconcile.connections
       (Reconcile.updateConnections (fun _ => ""%string) Fixture.sizeOf
          Fixture.fails Fixture.succeeds Fixture.newServers Fixture.tables))
  = Some (JObj [("command"%string, JStr "echo")]).
Proof.
  destruct (failed_disconnect_keeps_old_config (fun _ => ""%string)
              Fixture.sizeOf Fixture.fails Fixture.succeeds Fixture.newServers
              Fixture.tables "example-stdio"
              (ErrorObj "transport did not close")) as (_ & _ & H).
  - vm_compute. left. reflexivity.
  - reflexivity.
  - rewrite H. reflexivity.
Defined.

(** ** Prompts through the hub *)

(** X26.  Every prompt that the hub lists can be fetched under the listed
    name whenever the connector of its upstream is connected: the
    [GetPromptRequestSchema] handler of [McpHub] sends that connector one
    [prompts/get] request carrying the prompt's original name and the
    caller's arguments, returns the upstream's result, and rethrows an
    upstream error response as an [Error] with the upstream's message. *)
Theorem listed_prompt_is_gettable (calls : list (RegistryCalls.t MCPPrompt.t))
    (mgr : UpstreamManager.t) (now : Z) (args : option Json)
    (p : RegisteredPrompt.t) (c : Connector.t) :
  let registry : PromptRegistry.t := RegistryCalls.after calls in
  In p (PromptRegistry.getAllPrompts registry) ->
  UpstreamManager.getConnector (RegisteredPrompt.serverName p) mgr = Some c ->
  Connector.isConnected c = true ->
  McpHubPrompts.getPromptHandler registry mgr now
    {| ToolCallParams.name := Some (JStr (RegisteredPrompt.prefixedName p));
       ToolCallParams.arguments := args |}
  = match Connector.sendMessage c
            {| MCPRequest.id := JNum now;
               MCPRequest.method := "prompts/get";
               MCPRequest.params :=
                 {| ToolCallParams.name :=
                      Some (JStr (RegisteredPrompt.originalName p));
                    ToolCallParams.arguments := args |} |} with
    | Throw e => Throw e
    | Return response =>
        match MCPResponse.error response with
        | Some err => Throw (ErrorObj (RpcError.message err))
        | None => Return (MCPResponse.result response)
        end
    end.
Proof.
  intros registry Hin Hc Hup.
  destruct (consistent_listed registry p (consistent_after calls) Hin)
    as (Hget & Hp & _).
  pose proof (consistent_find_get (RegisteredPrompt.prefixedName p) registry
                (consistent_after calls)) as Hf.
  change (prefixedIdOf p) with (RegisteredPrompt.prefixedName p) in Hget, Hp.
  change (serverNameOf p) with (RegisteredPrompt.serverName p) in Hp.
  change (originalIdOf p) with (RegisteredPrompt.originalName p) in Hp.
  unfold McpHubPrompts.getPromptHandler.
  cbn [ToolCallParams.name ToolCallParams.arguments].
  rewrite Hp at 1. rewrite prefixed_nonEmpty. rewrite <- Hp.
  unfold McpHubPrompts.routePromptGet, PromptRegistry.getAllPrompts.
  change (fun p0 => String.eqb (RegisteredPrompt.prefixedName p0)
                               (RegisteredPrompt.prefixedName p))
    with (fun p0 : RegisteredPrompt.t =>
            String.eqb (prefixedIdOf p0) (RegisteredPrompt.prefixedName p)).
  rewrite Hf, Hget, Hc, Hup.
  cbn [negb McpHub.RouteInfo.serverName McpHub.RouteInfo.originalName].
  unfold UpstreamManager.routeMessage.
  unfold UpstreamManager.getConnector in Hc. rewrite Hc, Hup. reflexivity.
Qed.

Lemma listed_prompt_is_gettable_witness :
  McpHubPrompts.getPromptHandler (RegistryCalls.after Fixture.promptCalls)
    (Sample.manager [("notes"%string, Sample.answering "a summary")]) 42
    (Sample.callParams "notes___summarise")
  = Return (Some (JStr "a summary")).
Proof.
  apply (listed_prompt_is_gettable Fixture.promptCalls
           (Sample.manager [("notes"%string, Sample.answering "a summary")]) 42
           (Some (JObj [])) Fixture.notesSummarise
           (Sample.answering "a summary")).
  - vm_compute. left. reflexivity.
  - reflexivity.
  - reflexivity.
Defined.

(** ** A connector's events at the manager *)

Section EventFacts.

Import UpstreamManager.

Lemma status_keeps_timers (name : string) (status : ServerStatus)
    (message : option string) (w : World.t) :
  reconnectTimeouts
    (World.manager (ManagerEvents.updateConnectionStatus name status message w))
    = reconnectTimeouts (World.manager w)
  /\ World.timers (ManagerEvents.updateConnectionStatus name status message w)
     = World.timers w.
Proof.
  unfold ManagerEvents.updateConnectionStatus.
  now destruct (JsMap.get name (connections (World.manager w))).
Qed.

Lemma scheduled_is_pending (retryDelay : Z) (name : string) (w : World.t) :
  timersRecorded w -> timeoutsArmed w ->
  length (pendingFor name (scheduleReconnection retryDelay name w)) = 1.
Proof.
  intros Hinv Harm.
  pose proof (timersRecorded_step retryDelay w (Schedule name) Hinv) as Hinv'.
  pose proof (timeoutsArmed_step retryDelay w (Schedule name) Hinv Harm)
    as Harm'.
  simpl in Hinv', Harm'.
  rewrite (pending_of_recorded _ name Hinv' Harm').
  unfold scheduleReconnection.
  destruct (JsMap.has name (reconnectTimeouts (World.manager w))) eqn:E.
  - unfold JsMap.has in E.
    now destruct (JsMap.get name (reconnectTimeouts (World.manager w))).
  - simpl. now rewrite get_set_eq.
Qed.

Lemma cleared_listing {Item Registered : Type}
    {C : Capability Item Registered} {F : RegisteredFields Registered}
    {L : RegisteredAs Item Registered} (u : string)
    (r : Registry.t Registered) :
  RegistryCalls.consistent r ->
  Registry.getAllEntries (Registry.clearServerEntries u r)
    = filter (fun e => negb (String.eqb (serverNameOf e) u))
             (Registry.getAllEntries r).
Proof.
  intros Hc. rewrite (clearServer_shape u r Hc).
  unfold Registry.getAllEntries. cbn [Registry.entries].
  apply (values_filter (fun e => negb (String.eqb (serverNameOf e) u))).
Qed.

End EventFacts.

(** X27.  After the manager has handled a [disconnected] or [error]
    event of an upstream, in any run of the manager and for any registry
    reached by calls: exactly one reconnect timer is pending for the
    upstream, and the three listings hold what they held before except
    the upstream's tools, resources and prompts. *)
Theorem event_purges_and_schedules (retryDelay : Z)
    (actions : list UpstreamManager.Action)
    (calls : list CapabilityRegistry.Call) (name : string)
    (message : option string) :
  let before :=
    (UpstreamManager.run retryDelay actions, CapabilityRegistry.after calls) in
  let after :=
    match message with
    | None => ManagerEvents.onDisconnected retryDelay name before
    | Some text => ManagerEvents.onError retryDelay name text before
    end in
  length (UpstreamManager.pendingFor name (fst after)) = 1
  /\ ToolRegistry.getAllTools (CapabilityRegistry.toolRegistry (snd after))
     = filter (fun t => negb (String.eqb (RegisteredTool.serverName t) name))
         (ToolRegistry.getAllTools
            (CapabilityRegistry.toolRegistry (snd before)))
  /\ ResourceRegistry.getAllResources
       (CapabilityRegistry.resourceRegistry (snd after))
     = filter (fun r => negb (String.eqb (RegisteredResource.serverName r) name))
         (ResourceRegistry.getAllResources
            (CapabilityRegistry.resourceRegistry (snd before)))
  /\ PromptRegistry.getAllPrompts (CapabilityRegistry.promptRegistry (snd after))
     = filter (fun p => negb (String.eqb (RegisteredPrompt.serverName p) name))
         (PromptRegistry.getAllPrompts
            (CapabilityRegistry.promptRegistry (snd before))).
Proof.
  intros before after.
  destruct (timers_run retryDelay actions) as [Hinv Harm].
  destruct (composite_consistent calls) as (Ht & Hr & Hp).
  assert (Hpending : forall status text,
             length (UpstreamManager.pendingFor name
                       (UpstreamManager.scheduleReconnection retryDelay name
                          (ManagerEvents.updateConnectionStatus name status text
                             (UpstreamManager.run retryDelay actions)))) = 1).
  { intros status text.
    destruct (status_keeps_timers name status text
                (UpstreamManager.run retryDelay actions)) as [E1 E2].
    apply scheduled_is_pending.
    - unfold UpstreamManager.timersRecorded. rewrite E1, E2. exact Hinv.
    - unfold timeoutsArmed. rewrite E1, E2. exact Harm. }
  assert (Hregistry :
    CapabilityRegistry.clearServer name (CapabilityRegistry.after calls)
      = snd after).
  { unfold after. now destruct message. }
  split.
  - unfold after. destruct message as [text|]; apply Hpending.
  - rewrite <- Hregistry. cbn [snd before CapabilityRegistry.clearServer
                                CapabilityRegistry.toolRegistry
                                CapabilityRegistry.resourceRegistry
                                CapabilityRegistry.promptRegistry].
    split; [exact (cleared_listing name _ Ht)|].
    split; [exact (cleared_listing name _ Hr)|].
    exact (cleared_listing name _ Hp).
Qed.

(** ** Collisions *)

(** X28.  An entry dropped in a collision is not recovered when the winner
    goes away.  If upstream [v] owns a prefixed id that an item of
    upstream [u] also maps to, then after [u] registers and [v] is
    cleared the id is not registered at all, although [u] still
    advertises the item; only a new registration by [u] brings it back,
    as [u]'s. *)
Theorem dropped_entry_is_not_recovered
    {Item Registered : Type} {C : Capability Item Registered}
    (r : Registry.t Registered) (u v : string) (items : list Item)
    (item : Item) :
  let p := PrefixUtility.addPrefix u (originalId item) in
  let registered_u := fst (Registry.registerEntries u items r) in
  let cleared_v := Registry.clearServerEntries v registered_u in
  In item items -> u <> v ->
  Registry.owns v p r = true ->
  Registry.getEntry p cleared_v = None
  /\ Registry.owns u p cleared_v = Registry.owns u p registered_u
  /\ (exists first,
        Registry.firstWithId u p items = Some first
        /\ Registry.getEntry p (fst (Registry.registerEntries u items cleared_v))
           = Some (registered u first p)).
Proof.
  intros p registered_u cleared_v Hin Huv Hown.
  assert (Hindex : forall k,
             JsMap.get k (Registry.byServer registered_u)
               = if String.eqb u k
                 then JsMap.get u (Registry.byServer registered_u)
                 else JsMap.get k (Registry.byServer r)).
  { intros k. destruct (String.eqb_spec u k) as [->|Hne]; [reflexivity|].
    unfold registered_u.
    destruct (Registry.registerEntries u items r) as [r' out] eqn:E.
    unfold Registry.registerEntries in E.
    destruct (fold_left _ items _) as [[m names] out'] in E.
    injection E as <- _. simpl.
    rewrite (get_set_ne _ _ _ _ Hne).
    unfold Registry.clearServerEntries.
    destruct (JsMap.get u (Registry.byServer r)); [|reflexivity].
    simpl. rewrite get_delete.
    now rewrite (proj2 (String.eqb_neq _ _) Hne). }
  assert (Hown' : Registry.owns v p registered_u = true).
  { unfold Registry.owns in *. rewrite (Hindex v).
    now rewrite (proj2 (String.eqb_neq _ _) Huv). }
  assert (Hgone : Registry.getEntry p cleared_v = None).
  { unfold cleared_v. rewrite get_cleared. now rewrite Hown'. }
  split; [exact Hgone|]. split.
  - unfold cleared_v, Registry.owns, Registry.clearServerEntries.
    destruct (JsMap.get v (Registry.byServer registered_u)); [|reflexivity].
    simpl. rewrite get_delete.
    now rewrite (proj2 (String.eqb_neq v u) (fun E => Huv (eq_sym E))).
  - destruct (Registry.firstWithId u p items) as [first|] eqn:Ef.
    + exists first. split; [reflexivity|].
      rewrite register_get, get_cleared, Hgone, Ef.
      now destruct (Registry.owns u p cleared_v).
    + exfalso. unfold Registry.firstWithId in Ef.
      apply (find_none _ _ Ef) in Hin. unfold p in Hin.
      now rewrite String.eqb_refl in Hin.
Qed.

Lemma dropped_entry_is_not_recovered_witness :
  let x := Sample.tool "x" "owned by a_" in
  let both := fst (ToolRegistry.registerTools "a_" [x] Sample.registryOfA) in
  let cleared := ToolRegistry.clearServerTools "a" both in
  ToolRegistry.getTool "a____x" both
    = Some (registered "a" (Sample.tool "_x" "owned by a") "a____x")
  /\ ToolRegistry.getTool "a____x" cleared = None
  /\ ToolRegistry.getAllTools cleared = [].
Proof.
  intros x both cleared.
  destruct (dropped_entry_is_not_recovered (C := ToolCapability)
              Sample.registryOfA "a_" "a" [x] x)
    as (H & _); [now left | discriminate | reflexivity |].
  split; [reflexivity|]. split; [exact H | reflexivity].
Defined.

(** ** Counting *)

Section CountingFacts.

Context {Item Registered : Type} {C : Capability Item Registered}
        {F : RegisteredFields Registered} {L : RegisteredAs Item Registered}.

Lemma one_owner (names : list string) (a : string) :
  NoDup names -> In a names ->
  list_sum (map (fun u => if String.eqb a u then 1 else 0) names) = 1.
Proof.
  induction names as [|n names IH]; intros Hnd Hin; [contradiction|].
  inversion_clear Hnd as [|? ? Hn Hnd']. simpl.
  destruct (String.eqb_spec a n) as [->|Hne].
  - assert (G : list_sum (map (fun u => if String.eqb n u then 1 else 0) names)
                = 0).
    { clear -Hn. induction names as [|m names IH]; [reflexivity|].
      simpl. destruct (String.eqb_spec n m) as [->|_].
      - exfalso. apply Hn. now left.
      - apply IH. intros H. apply Hn. now right. }
    now rewrite G.
  - destruct Hin as [->|Hin]; [contradiction|]. now apply IH.
Qed.

Lemma owners_partition (names : list string) (l : list Registered) :
  NoDup names ->
  (forall e, In e l -> In (serverNameOf e) names) ->
  list_sum (map (fun u =>
                   length (filter (fun e => String.eqb (serverNameOf e) u) l))
                names)
    = length l.
Proof.
  intros Hnd. induction l as [|e l IH]; intros Hall.
  - clear. induction names as [|n names IHn]; [reflexivity | exact IHn].
  - change (length (e :: l)) with (S (length l)).
    rewrite <- (IH (fun x Hx => Hall x (or_intror Hx))).
    pose proof (one_owner names (serverNameOf e) Hnd
                  (Hall e (or_introl eq_refl))) as Hone.
    assert (G : list_sum
                  (map (fun u =>
                          length (filter (fun x => String.eqb (serverNameOf x) u)
                                         (e :: l))) names)
                = list_sum (map (fun u => if String.eqb (serverNameOf e) u
                                          then 1 else 0) names)
                  + list_sum
                      (map (fun u =>
                              length (filter (fun x =>
                                                String.eqb (serverNameOf x) u) l))
                           names)).
    { clear. unfold list_sum.
      induction names as [|n names IHn]; [reflexivity|].
      cbn [map fold_right]. rewrite IHn. cbn [filter].
      destruct (String.eqb (serverNameOf e) n); simpl; lia. }
    rewrite G, Hone. reflexivity.
Qed.

End CountingFacts.

(** X29.  In a registry reached by calls, the total count is the sum of the
    per-server counts over the server names, and every listed record
    belongs to one of those names. *)
Theorem total_is_sum_of_server_counts
    {Item Registered : Type} {C : Capability Item Registered}
    {F : RegisteredFields Registered} {L : RegisteredAs Item Registered}
    (calls : list (RegistryCalls.t Item)) :
  let r := RegistryCalls.after calls in
  Registry.getTotalEntryCount r
    = list_sum (map (fun u => Registry.getServerEntryCount u r)
                    (Registry.getServerNames r))
  /\ (forall e, In e (Registry.getAllEntries r) ->
                In (serverNameOf e) (Registry.getServerNames r)).
Proof.
  intros r. pose proof (consistent_after calls) as Hr. fold r in Hr.
  assert (Hall : forall e, In e (Registry.getAllEntries r) ->
                           In (serverNameOf e) (Registry.getServerNames r)).
  { intros e Hin. destruct (consistent_listed r e Hr Hin) as (_ & _ & H).
    now apply get_Some_keys. }
  split; [|exact Hall].
  replace (Registry.getTotalEntryCount r)
    with (length (Registry.getAllEntries r))
    by (unfold Registry.getAllEntries, JsMap.values; apply length_map).
  rewrite <- (owners_partition (Registry.getServerNames r)
                (Registry.getAllEntries r)); [|now destruct Hr as (_ & H & _) | exact Hall].
  f_equal. apply map_ext. intros u.
  destruct (consistent_serverEntries u r Hr) as [H1 H2].
  now rewrite H2, H1.
Qed.

Lemma total_is_sum_of_server_counts_witness :
  ToolRegistry.getTotalToolCount (RegistryCalls.after Fixture.calls) = 1 + 1.
Proof.
  unfold ToolRegistry.getTotalToolCount.
  rewrite (proj1 (total_is_sum_of_server_counts Fixture.calls)).
  reflexivity.
Defined.

(** ** The connection records *)

Section RecordFacts.

Import ConnectionRecords.

Lemma update_In (name : string) (change : Connection.t -> Connection.t)
    (connections : JsMap.t Connection.t) (k : string) (c : Connection.t) :
  In (k, c) (update name change connections) ->
  In (k, c) connections
  \/ exists old, In (name, old) connections /\ c = change old.
Proof.
  unfold update. destruct (JsMap.get name connections) as [old|] eqn:E;
    [|now left].
  intros Hin. apply set_In in Hin as [[-> ->]|Hin]; [|now left].
  right. exists old. split; [now apply get_In | reflexivity].
Qed.

Lemma no_prompts_step (connections : JsMap.t Connection.t) (a : Action) :
  (forall k c, In (k, c) connections -> Connection.prompts c = []) ->
  forall k c, In (k, c) (step connections a) -> Connection.prompts c = [].
Proof.
  intros Hall k c Hin.
  destruct a as [name|name message|name|name status lastError now
                |name found|name message]; simpl in Hin.
  - apply set_In in Hin as [[_ ->]|Hin]; [reflexivity | now apply (Hall k)].
  - apply update_In in Hin as [Hin|(old & Hin & ->)];
      [now apply (Hall k) | simpl; now apply (Hall name old)].
  - apply filter_In in Hin as [Hin _]. now apply (Hall k).
  - apply update_In in Hin as [Hin|(old & Hin & ->)];
      [now apply (Hall k) | simpl; now apply (Hall name old)].
  - apply update_In in Hin as [Hin|(old & Hin & ->)];
      [now apply (Hall k) | simpl; now apply (Hall name old)].
  - apply update_In in Hin as [Hin|(old & Hin & ->)];
      [now apply (Hall k) | simpl; now apply (Hall name old)].
Qed.

Lemma no_prompts_run (actions : list Action) :
  forall k c, In (k, c) (run actions) -> Connection.prompts c = [].
Proof.
  unfold run.
  assert (G : forall connections,
             (forall k c, In (k, c) connections -> Connection.prompts c = []) ->
             forall k c, In (k, c) (fold_left step actions connections) ->
                         Connection.prompts c = []).
  { induction actions as [|a actions IH]; intros connections Hall;
      [exact Hall|].
    simpl. apply IH. now apply no_prompts_step. }
  apply G. intros k c [].
Qed.

Lemma getStats_loop (connections : JsMap.t Connection.t) : forall stats,
  (forall k c, In (k, c) connections -> Connection.prompts c = []) ->
  Stats.totalPrompts (fold_left count connections stats)
    = Stats.totalPrompts stats
  /\ (forall server,
        In server (Stats.connectedServers (fold_left count connections stats)) ->
        In server (Stats.connectedServers stats)
        \/ ServerStats.promptCount server = 0).
Proof.
  induction connections as [|[k c] connections IH]; intros stats Hall.
  - split; [reflexivity | now left].
  - cbn [fold_left].
    destruct (IH (count stats (k, c))
                (fun k' c' H => Hall k' c' (or_intror H))) as [H1 H2].
    assert (Hc : Connection.prompts c = []) by now apply (Hall k c); left.
    split.
    + rewrite H1. unfold count.
      destruct (ServerStatus_eqb (Connection.status c) connected);
        [|reflexivity].
      simpl. rewrite Hc. simpl. lia.
    + intros server Hin. destruct (H2 server Hin) as [Hs|Hs]; [|now right].
      unfold count in Hs.
      destruct (ServerStatus_eqb (Connection.status c) connected);
        [|now left].
      simpl in Hs. apply in_app_or in Hs as [Hs|[<-|[]]]; [now left|].
      right. simpl. now rewrite Hc.
Qed.

End RecordFacts.

(** X30.  [UpstreamManager.getStats] never counts a prompt.  A connection
    record is created with no prompts, and no place of the manager
    assigns its [prompts] afterwards (discovery assigns [tools] and
    [resources] only), so after any sequence of the manager's writes the
    total of prompts is 0 and so is the prompt count of every connected
    server, whatever the upstreams advertise. *)
Theorem getStats_never_counts_prompts
    (actions : list ConnectionRecords.Action) :
  let stats := ConnectionRecords.getStats (ConnectionRecords.run actions) in
  ConnectionRecords.Stats.totalPrompts stats = 0
  /\ (forall server,
        In server (ConnectionRecords.Stats.connectedServers stats) ->
        ConnectionRecords.ServerStats.promptCount server = 0).
Proof.
  intros stats.
  destruct (getStats_loop (ConnectionRecords.run actions)
              {| ConnectionRecords.Stats.connectedServers := [];
                 ConnectionRecords.Stats.totalTools := 0;
                 ConnectionRecords.Stats.totalResources := 0;
                 ConnectionRecords.Stats.totalPrompts := 0 |}
              (no_prompts_run actions)) as [H1 H2].
  split; [exact H1|].
  intros server Hin. destruct (H2 server Hin) as [[]|H]. exact H.
Qed.

Lemma getStats_never_counts_prompts_witness :
  ConnectionRecords.Stats.totalTools
    (ConnectionRecords.getStats (ConnectionRecords.run Fixture.calcDiscovered))
    = 1
  /\ ConnectionRecords.Stats.totalPrompts
       (ConnectionRecords.getStats (ConnectionRecords.run Fixture.calcDiscovered))
     = 0.
Proof.
  split; [reflexivity|].
  apply (getStats_never_counts_prompts Fixture.calcDiscovered).
Defined.
